(** * tecdoc_export: record normalisation, pagination, linkage matching

    A shallow embedding of the algorithmic core of [src/tecdoc_export.py]
    (class [TecdocClient]) and the properties of it that the specification
    states.

    Modelling conventions.
    - A JSON value as [json.loads] produces it is a [pyval].  Floats are
      outside the model.  A [dict] is an association list in insertion
      order, as Python iterates it; the keys of one dict are distinct.
    - A Python [str] is a [string] whose characters are read as the code
      points 0..255.
    - An expression that raises an exception evaluates to [Raise]; none of
      the modelled methods catches one, so [Raise] propagates to the caller.
    - [print] calls are dropped unless evaluating their argument can raise.
    - The HTTP call [make_request] is a function argument of the model. *)

From Stdlib Require Import ZArith List String Ascii Bool Lia DecimalString.
Import ListNotations.

Open Scope string_scope.
Open Scope Z_scope.

(* ================================================================== *)
(** ** Python values *)

#[warnings="-register-all"]
Inductive pyval : Type :=
| PNone
| PBool (b : bool)
| PInt (z : Z)
| PStr (s : string)
| PList (l : list pyval)
| PDict (d : list (string * pyval)).

Definition pydict := list (string * pyval).

(** The outcome of evaluating an expression or running a statement. *)
Inductive res (A : Type) : Type :=
| Ok (a : A)
| Raise.

Arguments Ok {A} a.
Arguments Raise {A}.

Definition bind {A B} (m : res A) (k : A -> res B) : res B :=
  match m with
  | Ok a => k a
  | Raise => Raise
  end.

Notation "x <- m ;; k" := (bind m (fun x => k))
  (at level 61, m at next level, right associativity).

(** [bool(v)]: the truth value Python's [if v], [not v], [and], [or] use. *)
Definition truthy (v : pyval) : bool :=
  match v with
  | PNone => false
  | PBool b => b
  | PInt z => negb (z =? 0)
  | PStr s => negb (s =? "")%string
  | PList l => match l with [] => false | _ => true end
  | PDict d => match d with [] => false | _ => true end
  end.

(** [a or b] *)
Definition py_or (a b : pyval) : pyval := if truthy a then a else b.

(** [a == b] on JSON values.  [True == 1] and [False == 0] hold in Python;
    two dicts are equal when they have the same keys with equal values. *)
Fixpoint py_eqb (a b : pyval) {struct a} : bool :=
  match a, b with
  | PNone, PNone => true
  | PBool x, PBool y => Bool.eqb x y
  | PBool x, PInt y => Z.b2z x =? y
  | PInt x, PBool y => x =? Z.b2z y
  | PInt x, PInt y => x =? y
  | PStr x, PStr y => (x =? y)%string
  | PList l1, PList l2 =>
      (fix go (l1 l2 : list pyval) {struct l1} : bool :=
         match l1, l2 with
         | [], [] => true
         | x :: xs, y :: ys => py_eqb x y && go xs ys
         | _, _ => false
         end) l1 l2
  | PDict d1, PDict d2 =>
      (List.length d1 =? List.length d2)%nat &&
      (fix go (d1 : pydict) {struct d1} : bool :=
         match d1 with
         | [] => true
         | (k, v) :: rest =>
             match find (fun kv => (fst kv =? k)%string) d2 with
             | Some (_, w) => py_eqb v w
             | None => false
             end && go rest
         end) d1
  | _, _ => false
  end.

(** Values that [hash] accepts: everything JSON yields but lists and dicts. *)
Definition hashable (v : pyval) : bool :=
  match v with
  | PList _ | PDict _ => false
  | _ => true
  end.

(* ------------------------------------------------------------------ *)
(** *** Strings *)

Definition code (c : ascii) : N := N_of_ascii c.

(** [str.isspace] on one code point below 256. *)
Definition is_space (c : ascii) : bool :=
  let n := code c in
  ((9 <=? n) && (n <=? 13) || (28 <=? n) && (n <=? 32)
   || (n =? 133) || (n =? 160))%N.

(** [str.isdigit] on one code point below 256: the decimal digits and the
    superscripts one, two and three. *)
Definition is_digit (c : ascii) : bool :=
  let n := code c in
  ((48 <=? n) && (n <=? 57) || (n =? 178) || (n =? 179) || (n =? 185))%N.

Fixpoint lstrip (s : string) : string :=
  match s with
  | EmptyString => EmptyString
  | String c s' => if is_space c then lstrip s' else s
  end.

Fixpoint rstrip (s : string) : string :=
  match s with
  | EmptyString => EmptyString
  | String c s' =>
      match rstrip s' with
      | EmptyString => if is_space c then EmptyString else String c EmptyString
      | r => String c r
      end
  end.

(** [s.strip()] *)
Definition strip (s : string) : string := rstrip (lstrip s).

Fixpoint all_chars (p : ascii -> bool) (s : string) : bool :=
  match s with
  | EmptyString => true
  | String c s' => p c && all_chars p s'
  end.

(** [s.isdigit()]: false on the empty string. *)
Definition isdigit (s : string) : bool :=
  match s with
  | EmptyString => false
  | _ => all_chars is_digit s
  end.

(** [needle in hay] for two strings. *)
Fixpoint str_contains (needle hay : string) : bool :=
  match hay with
  | EmptyString => (needle =? "")%string
  | String _ hay' => prefix needle hay || str_contains needle hay'
  end.

(** [s.startswith(p)] *)
Definition startswith (s p : string) : bool := prefix p s.

Definition str_len (s : string) : Z := Z.of_nat (String.length s).

Fixpoint chars (s : string) : list pyval :=
  match s with
  | EmptyString => []
  | String c s' => PStr (String c EmptyString) :: chars s'
  end.

(** [sep.join(l)] for a list of strings. *)
Fixpoint join (sep : string) (l : list string) : string :=
  match l with
  | [] => ""
  | [x] => x
  | x :: rest => x ++ sep ++ join sep rest
  end.

Definition str_of_Z (z : Z) : string := NilZero.string_of_int (Z.to_int z).

(* ------------------------------------------------------------------ *)
(** *** Dicts in insertion order *)

Fixpoint dict_find (k : string) (d : pydict) : option pyval :=
  match d with
  | [] => None
  | (k', v) :: rest => if (k' =? k)%string then Some v else dict_find k rest
  end.

(** [k in d] *)
Definition dict_mem (k : string) (d : pydict) : bool :=
  match dict_find k d with Some _ => true | None => false end.

(** [d.get(k, default)] *)
Definition dict_get (d : pydict) (k : string) (default : pyval) : pyval :=
  match dict_find k d with Some v => v | None => default end.

(** [d[k] = v]: an existing key keeps its position, a new key goes last. *)
Fixpoint dict_set (d : pydict) (k : string) (v : pyval) : pydict :=
  match d with
  | [] => [(k, v)]
  | (k', v') :: rest =>
      if (k' =? k)%string then (k, v) :: rest else (k', v') :: dict_set rest k v
  end.

(* ------------------------------------------------------------------ *)
(** *** Operations that can raise *)

(** [v.get(k, default)]: only a dict has the method. *)
Definition py_get (v : pyval) (k : string) (default : pyval) : res pyval :=
  match v with
  | PDict d => Ok (dict_get d k default)
  | _ => Raise
  end.

(** [v[k]] with a string [k]: [KeyError] on a dict without the key,
    [TypeError] on anything else. *)
Definition py_item (v : pyval) (k : string) : res pyval :=
  match v with
  | PDict d => match dict_find k d with Some x => Ok x | None => Raise end
  | _ => Raise
  end.

(** [k in v] with a string [k]: key test on a dict, element test on a
    list, substring test on a string, [TypeError] otherwise. *)
Definition py_in (k : string) (v : pyval) : res bool :=
  match v with
  | PDict d => Ok (dict_mem k d)
  | PList l => Ok (existsb (py_eqb (PStr k)) l)
  | PStr s => Ok (str_contains k s)
  | _ => Raise
  end.

(** [len(v)] *)
Definition py_len (v : pyval) : res Z :=
  match v with
  | PList l => Ok (Z.of_nat (List.length l))
  | PDict d => Ok (Z.of_nat (List.length d))
  | PStr s => Ok (str_len s)
  | _ => Raise
  end.

(** The elements [for x in v] visits. *)
Definition py_iter (v : pyval) : res (list pyval) :=
  match v with
  | PList l => Ok l
  | PDict d => Ok (map (fun kv => PStr (fst kv)) d)
  | PStr s => Ok (chars s)
  | _ => Raise
  end.

(** [v.strip()]: only a string has the method. *)
Definition py_strip (v : pyval) : res string :=
  match v with
  | PStr s => Ok (strip s)
  | _ => Raise
  end.

(** A number as the comparison operators see it; comparing anything else
    with an [int] raises [TypeError]. *)
Definition py_num (v : pyval) : res Z :=
  match v with
  | PInt z => Ok z
  | PBool b => Ok (Z.b2z b)
  | _ => Raise
  end.

Fixpoint mapM {A B} (f : A -> res B) (l : list A) : res (list B) :=
  match l with
  | [] => Ok []
  | x :: rest => y <- f x ;; ys <- mapM f rest ;; Ok (y :: ys)
  end.

Fixpoint foldM {A S} (f : S -> A -> res S) (s : S) (l : list A) : res S :=
  match l with
  | [] => Ok s
  | x :: rest => s' <- f s x ;; foldM f s' rest
  end.

(** Dicts keyed by hashable values ([vehicle_lookup],
    [linkage_targets_lookup]), in insertion order.  Probing with an
    unhashable key raises [TypeError]. *)
Definition kdict (V : Type) := list (pyval * V).

Fixpoint kfind {V} (k : pyval) (d : kdict V) : option V :=
  match d with
  | [] => None
  | (k', v) :: rest => if py_eqb k' k then Some v else kfind k rest
  end.

Definition klookup {V} (k : pyval) (d : kdict V) : res (option V) :=
  if hashable k then Ok (kfind k d) else Raise.

Fixpoint kset {V} (d : kdict V) (k : pyval) (v : V) : kdict V :=
  match d with
  | [] => [(k, v)]
  | (k', v') :: rest =>
      if py_eqb k' k then (k', v) :: rest else (k', v') :: kset rest k v
  end.

(** Dicts keyed by strings built with f-strings ([lookup_by_desc],
    [lookup_by_specs]): key -> list of targets. *)
Definition sindex := list (string * list pyval).

Fixpoint sfind (k : string) (d : sindex) : option (list pyval) :=
  match d with
  | [] => None
  | (k', v) :: rest => if (k' =? k)%string then Some v else sfind k rest
  end.

(** [if key not in d: d[key] = []] followed by [d[key].append(x)]. *)
Fixpoint sappend (d : sindex) (k : string) (x : pyval) : sindex :=
  match d with
  | [] => [(k, [x])]
  | (k', v) :: rest =>
      if (k' =? k)%string then (k', (v ++ [x])%list) :: rest
      else (k', v) :: sappend rest k x
  end.

(** An order-preserving selection of the elements of a list. *)
Inductive subseq {A : Type} : list A -> list A -> Prop :=
| subseq_nil : subseq [] []
| subseq_keep (x : A) (l1 l2 : list A) :
    subseq l1 l2 -> subseq (x :: l1) (x :: l2)
| subseq_drop (x : A) (l1 l2 : list A) :
    subseq l1 l2 -> subseq l1 (x :: l2).

(** What [==] and [hash] see of a hashable value: [True] and [1] are one
    dict key, and so are [False] and [0]. *)
Inductive atom : Type :=
| ANone
| ANum (z : Z)
| AStr (s : string).

Definition canon (v : pyval) : atom :=
  match v with
  | PBool b => ANum (Z.b2z b)
  | PInt z => ANum z
  | PStr s => AStr s
  | _ => ANone
  end.

(** Closed examples need an instance of [repr_container]; none of them
    formats a list or a dict. *)
Definition repr_unused : pyval -> string := fun _ => "".

Section Embedding.

(** [repr] of a list or dict, which [str] and f-strings produce for a
    container.  Its text is not modelled; every result below holds for
    any such function. *)
Variable repr_container : pyval -> string.

(** [str(v)], also what [f"{v}"] formats. *)
Definition py_str (v : pyval) : string :=
  match v with
  | PNone => "None"
  | PBool true => "True"
  | PBool false => "False"
  | PInt z => str_of_Z z
  | PStr s => s
  | PList _ | PDict _ => repr_container v
  end.

(* ================================================================== *)
(** ** Year fields: [_format_year_month] *)

Definition _format_year_month (date_value : pyval) : string :=
  if negb (truthy date_value) then ""
  else
    let date_str := py_str date_value in
    if (String.length date_str =? 7)%nat && str_contains "-" date_str
    then date_str
    else if (String.length date_str =? 6)%nat && isdigit date_str
    then substring 0 4 date_str ++ "-" ++ substring 4 2 date_str
    else if (String.length date_str =? 4)%nat && isdigit date_str
    then date_str ++ "-01"
    else date_str.


(* ================================================================== *)
(** ** Response envelopes *)

(** [process_attributes_data], lines 1304-1336: the sequence the loop
    [for attr in attributes_data] visits.  The debug print of line 1304
    calls [attributes_response.keys()] on every truthy response, and the
    prints of lines 1316, 1322 and 1325 call [len] on what was selected. *)
Definition process_attributes_data_records (attributes_response : pyval)
  : res (list pyval) :=
  _ <- (if truthy attributes_response
        then match attributes_response with PDict _ => Ok tt | _ => Raise end
        else Ok tt) ;;
  if negb (truthy attributes_response) then Ok []
  else
    has_array <- py_in "array" attributes_response ;;
    attributes_data <-
      (if has_array then
         a <- py_item attributes_response "array" ;;
         _ <- py_len a ;; Ok a
       else
         has_data <- py_in "data" attributes_response ;;
         if has_data then
           data <- py_get attributes_response "data" (PDict []) ;;
           data_has_array <- py_in "array" data ;;
           if data_has_array then
             a <- py_item data "array" ;;
             _ <- py_len a ;; Ok a
           else
             match data with
             | PList _ => Ok data
             | _ => Ok PNone
             end
         else
           match attributes_response with
           | PList _ => Ok attributes_response
           | _ => Ok PNone
           end) ;;
    if negb (truthy attributes_data) then Ok []
    else py_iter attributes_data.

(** [process_vehicle_linkages], lines 1563-1581: the list [linkages_data]
    the method goes on with, empty where it returns early. *)
Definition process_vehicle_linkages_records (linkages_response : pyval)
  : res (list pyval) :=
  if negb (truthy linkages_response) then Ok []
  else
    has_array <- py_in "array" linkages_response ;;
    linkages_data <-
      (if has_array then py_item linkages_response "array"
       else
         has_data <- py_in "data" linkages_response ;;
         if has_data then
           data <- py_get linkages_response "data" (PDict []) ;;
           data_has_array <- py_in "array" data ;;
           if data_has_array then py_item data "array"
           else
             match data with
             | PList _ => Ok data
             | _ => Ok PNone
             end
         else Ok PNone) ;;
    match linkages_data with
    | PList l => Ok l
    | _ => Ok []
    end.

(** The normalizer as the specification words it (section 4.1): four
    shapes, tried in the declared order, the first that yields a list
    wins, empty when none does.  Stated for comparison with the two
    methods above; it is not code of the program. *)
Definition shape_direct (v : pyval) : option (list pyval) :=
  match v with PList l => Some l | _ => None end.

Definition shape_array (v : pyval) : option (list pyval) :=
  match v with
  | PDict d => match dict_find "array" d with
               | Some (PList l) => Some l
               | _ => None
               end
  | _ => None
  end.

Definition shape_data_array (v : pyval) : option (list pyval) :=
  match v with
  | PDict d => match dict_find "data" d with
               | Some inner => shape_array inner
               | None => None
               end
  | _ => None
  end.

Definition shape_data (v : pyval) : option (list pyval) :=
  match v with
  | PDict d => match dict_find "data" d with
               | Some (PList l) => Some l
               | _ => None
               end
  | _ => None
  end.

Fixpoint first_shape (shapes : list (pyval -> option (list pyval)))
  (v : pyval) : list pyval :=
  match shapes with
  | [] => []
  | f :: rest => match f v with Some l => l | None => first_shape rest v end
  end.

Definition spec_normalize : pyval -> list pyval :=
  first_shape [shape_direct; shape_array; shape_data_array; shape_data].

(* ================================================================== *)
(** ** Pagination: [get_linkage_targets] *)

Definition max_pages : Z := 500.

(** The state of the [while] loop of lines 412-427, and the pages
    requested so far (a ghost trace of the calls to [make_request]). *)
Record page_state := {
  ps_all_targets : pyval;
  ps_returned : Z;
  ps_page : Z;
  ps_requested : list Z
}.

(** [all_targets.extend(items)]: only a list has the method. *)
Definition py_extend (all_targets : pyval) (items : list pyval) : res pyval :=
  match all_targets with
  | PList l => Ok (PList (l ++ items)%list)
  | _ => Raise
  end.

(** The loop of lines 412-427.  Each iteration that does not [break]
    adds one to [page], so [fuel] counts the iterations left before
    [page] exceeds [max_pages]. *)
Fixpoint fetch_remaining (make_request : Z -> pyval) (total : Z)
  (fuel : nat) (st : page_state) : res page_state :=
  match fuel with
  | O => Ok st
  | S fuel' =>
      if (ps_returned st <? total) && (ps_page st <=? max_pages) then
        let page_response := make_request (ps_page st) in
        let requested := (ps_requested st ++ [ps_page st])%list in
        let stop := {| ps_all_targets := ps_all_targets st;
                       ps_returned := ps_returned st;
                       ps_page := ps_page st;
                       ps_requested := requested |} in
        has_targets <- (if truthy page_response
                        then py_in "linkageTargets" page_response
                        else Ok false) ;;
        if has_targets then
          page_targets <- py_get page_response "linkageTargets" (PList []) ;;
          n <- py_len page_targets ;;
          if n =? 0 then Ok stop
          else
            items <- py_iter page_targets ;;
            all_targets <- py_extend (ps_all_targets st) items ;;
            fetch_remaining make_request total fuel'
              {| ps_all_targets := all_targets;
                 ps_returned := ps_returned st + n;
                 ps_page := ps_page st + 1;
                 ps_requested := requested |}
        else Ok stop
      else Ok st
  end.

(** [get_linkage_targets]: the response it returns and the pages it
    requested, in order.  [make_request p] is the body the service answers
    for page [p] of the query ([{}] when the request failed, see
    [TecdocClient.make_request]). *)
Definition get_linkage_targets (make_request : Z -> pyval)
  : res (pyval * list Z) :=
  let response := make_request 1 in
  (* debug prints of lines 392-397 *)
  _ <- (if truthy response then
          match response with
          | PDict d =>
              if dict_mem "linkageTargets" d
              then py_len (dict_get d "linkageTargets" (PList []))
              else Ok 0
          | _ => Raise
          end
        else Ok 0) ;;
  has_total <- (if truthy response then py_in "total" response else Ok false) ;;
  if has_total then
    total_v <- py_get response "total" (PInt 0) ;;
    first_targets <- py_get response "linkageTargets" (PList []) ;;
    returned <- py_len first_targets ;;
    total <- py_num total_v ;;
    if (total >? returned) && (returned >? 0) then
      st <- fetch_remaining make_request total (Z.to_nat (max_pages - 1))
              {| ps_all_targets := first_targets;
                 ps_returned := returned;
                 ps_page := 2;
                 ps_requested := [1] |} ;;
      match response with
      | PDict d =>
          Ok (PDict (dict_set d "linkageTargets" (ps_all_targets st)),
              ps_requested st)
      | _ => Raise
      end
    else Ok (response, [1])
  else Ok (response, [1]).


(** The pages [p, p+1, ..., p+k-1]. *)
Definition pages_from (p : Z) (k : nat) : list Z :=
  map (fun i => p + Z.of_nat i) (seq 0 k).

(** A page the loop stops at: the request failed ([make_request] answers
    the empty dict, or anything falsy), the body has no [linkageTargets],
    or it has zero of them. *)
Definition page_stops (page_response : pyval) : Prop :=
  truthy page_response = false
  \/ (exists d, page_response = PDict d /\ dict_find "linkageTargets" d = None)
  \/ (exists d, page_response = PDict d
                /\ dict_find "linkageTargets" d = Some (PList [])).

(** A page with exactly one record. *)
Definition one_record_page (page_response : pyval) : Prop :=
  exists d r, page_response = PDict d
              /\ dict_find "linkageTargets" d = Some (PList [r]).

(* ================================================================== *)
(** ** References: [extract_all_reference_numbers] *)

(** The tuples [(ref_type, number, mfr_name)] held in [existing_refs]. *)
Definition ref_key := (pyval * pyval * pyval)%type.

Definition ref_key_eqb (a b : ref_key) : bool :=
  let '(t1, n1, m1) := a in
  let '(t2, n2, m2) := b in
  py_eqb t1 t2 && py_eqb n1 n2 && py_eqb m1 m2.

Definition ref_key_hashable (k : ref_key) : bool :=
  let '(t, n, m) := k in hashable t && hashable n && hashable m.

(** [ref_key in existing_refs]; hashing the tuple raises [TypeError] when
    a component is a list or a dict. *)
Definition refs_mem (k : ref_key) (existing_refs : list ref_key) : res bool :=
  if ref_key_hashable k
  then Ok (existsb (fun e => ref_key_eqb e k) existing_refs)
  else Raise.

(** [existing_refs.add(ref_key)] *)
Definition refs_add (existing_refs : list ref_key) (k : ref_key)
  : res (list ref_key) :=
  present <- refs_mem k existing_refs ;;
  Ok (if present then existing_refs else (existing_refs ++ [k])%list).

Definition reference_row (article_id : pyval) (ref_type : string)
  (number mfr_name : pyval) : pydict :=
  [("article_id", article_id); ("ref_type", PStr ref_type);
   ("number", number); ("mfr_name", mfr_name)].

(** What the loop over the articles carries along:
    [self.csv_data['references']], [existing_refs] and [ean_added]. *)
Record ref_state := {
  references : list pydict;
  existing_refs : list ref_key;
  ean_added : bool
}.

(** Lines 757-761. *)
Definition collect_existing_refs (article_id : pyval) (refs : list pydict)
  : res (list ref_key) :=
  foldM (fun acc ref =>
           if py_eqb (dict_get ref "article_id" PNone) article_id
           then refs_add acc (dict_get ref "ref_type" PNone,
                              dict_get ref "number" PNone,
                              dict_get ref "mfr_name" (PStr ""))
           else Ok acc)
        [] refs.

(** [x.strip() if isinstance(x, str) else str(x).strip()] *)
Definition stripped_number (x : pyval) : string := strip (py_str x).

(** Appends one reference unless its key is already known
    (the body under [if ref_key not in existing_refs]). *)
Definition add_reference (article_id : pyval) (ref_type : string)
  (number mfr_name : pyval) (st : ref_state) : res (ref_state * bool) :=
  let k := (PStr ref_type, number, mfr_name) in
  present <- refs_mem k (existing_refs st) ;;
  if present then Ok (st, false)
  else
    Ok ({| references :=
             (references st ++
                [reference_row article_id ref_type number mfr_name])%list;
           existing_refs := (existing_refs st ++ [k])%list;
           ean_added := ean_added st |}, true).

(** Lines 784-804: the loop over [article['gtins']], left at the first
    value that is added. *)
Fixpoint ean_loop (article_id : pyval) (gtins : list pyval) (st : ref_state)
  : res ref_state :=
  match gtins with
  | [] => Ok st
  | gtin :: rest =>
      let gtin_number := stripped_number gtin in
      if negb (gtin_number =? "")%string then
        r <- add_reference article_id "EAN" (PStr gtin_number) (PStr "") st ;;
        let '(st', added) := r in
        if added then
          Ok {| references := references st';
                existing_refs := existing_refs st';
                ean_added := true |}
        else ean_loop article_id rest st
      else ean_loop article_id rest st
  end.

(** Lines 807-826: trade numbers, every new value is added. *)
Definition trade_loop (article_id : pyval) (items : list pyval)
  (st : ref_state) : res ref_state :=
  foldM (fun st trade_num =>
           let trade_number := stripped_number trade_num in
           if negb (trade_number =? "")%string then
             r <- add_reference article_id "TRADE" (PStr trade_number)
                    (PStr "") st ;;
             Ok (fst r)
           else Ok st)
        st items.

(** Lines 829-922: the four blocks for OE, comparable, replacement and
    replaced numbers have one shape; an entry is a dict with
    [articleNumber] and [mfrName], or anything else taken as the number. *)
Definition named_loop (article_id : pyval) (ref_type : string)
  (items : list pyval) (st : ref_state) : res ref_state :=
  foldM (fun st entry =>
           let '(number, mfr_name) :=
             match entry with
             | PDict d => (dict_get d "articleNumber" (PStr ""),
                           dict_get d "mfrName" (PStr ""))
             | _ => (PStr (stripped_number entry), PStr "")
             end in
           if truthy number then
             r <- add_reference article_id ref_type number mfr_name st ;;
             Ok (fst r)
           else Ok st)
        st items.

(** [if field in article and article[field]: for x in article[field]: ...] *)
Definition when_present (article : pydict) (field : string)
  (body : list pyval -> ref_state -> res ref_state) (st : ref_state)
  : res ref_state :=
  if dict_mem field article && truthy (dict_get article field PNone) then
    items <- py_iter (dict_get article field PNone) ;;
    body items st
  else Ok st.

(** The two [continue] guards of lines 774-781. *)
Definition article_accepted (supplier_id article_number : pyval)
  (article : pydict) : bool :=
  let article_supplier_id := dict_get article "dataSupplierId" PNone in
  let article_number_from_response :=
    dict_get article "articleNumber" (PStr "") in
  negb (truthy supplier_id && negb (py_eqb article_supplier_id supplier_id))
  && negb (truthy article_number
           && negb (py_eqb article_number_from_response article_number)).

(** One iteration of [for article in articles], lines 766-922. *)
Definition process_reference_article (article_id supplier_id
  article_number : pyval) (st : ref_state) (article_v : pyval)
  : res ref_state :=
  match article_v with
  | PDict article =>
      if article_accepted supplier_id article_number article then
        st1 <- (if dict_mem "gtins" article
                   && truthy (dict_get article "gtins" PNone)
                   && negb (ean_added st)
                then
                  gtins <- py_iter (dict_get article "gtins" PNone) ;;
                  ean_loop article_id gtins st
                else Ok st) ;;
        st2 <- when_present article "tradeNumbers"
                 (trade_loop article_id) st1 ;;
        st3 <- when_present article "oemNumbers"
                 (named_loop article_id "OE") st2 ;;
        st4 <- when_present article "comparableNumbers"
                 (named_loop article_id "COMPARABLE") st3 ;;
        st5 <- when_present article "replacesArticles"
                 (named_loop article_id "REPLACEMENT") st4 ;;
        when_present article "replacedByArticles"
          (named_loop article_id "REPLACED") st5
      else Ok st
  | _ => Raise
  end.

(** [extract_all_reference_numbers]: [self.csv_data['references']] after
    the call, given the list before it. *)
Definition extract_all_reference_numbers (refs : list pydict)
  (article_id reference_response supplier_id article_number : pyval)
  : res (list pydict) :=
  if negb (truthy reference_response) then Ok refs
  else
    has_articles <- py_in "articles" reference_response ;;
    if negb has_articles then Ok refs
    else
      articles <- py_get reference_response "articles" (PList []) ;;
      if negb (truthy articles) then Ok refs
      else
        _ <- py_len articles ;;
        existing <- collect_existing_refs article_id refs ;;
        items <- py_iter articles ;;
        st <- foldM (process_reference_article article_id supplier_id
                       article_number)
                {| references := refs;
                   existing_refs := existing;
                   ean_added := false |}
                items ;;
        Ok (references st).

(** A run of calls, each [(reference_response, supplier_id,
    article_number)], for one [article_id]. *)
Definition accumulate_calls (article_id : pyval)
  (calls : list (pyval * pyval * pyval)) (refs : list pydict)
  : res (list pydict) :=
  foldM (fun refs call =>
           let '(reference_response, supplier_id, article_number) := call in
           extract_all_reference_numbers refs article_id reference_response
             supplier_id article_number)
        refs calls.

(** The [EAN] references of one parent in an accumulated list. *)
Definition is_ean_of (article_id : pyval) (ref : pydict) : bool :=
  py_eqb (dict_get ref "article_id" PNone) article_id
  && py_eqb (dict_get ref "ref_type" PNone) (PStr "EAN").

Definition ean_references (article_id : pyval) (refs : list pydict)
  : list pydict :=
  filter (is_ean_of article_id) refs.

(** The candidate EAN values one call presents, in input order: the
    non-blank entries of [gtins] of the articles that pass the filter. *)
Definition gtin_candidates (article : pydict) : list string :=
  if dict_mem "gtins" article && truthy (dict_get article "gtins" PNone) then
    match py_iter (dict_get article "gtins" PNone) with
    | Ok gtins =>
        filter (fun n => negb (n =? "")%string) (map stripped_number gtins)
    | Raise => []
    end
  else [].

Definition article_candidates (supplier_id article_number : pyval)
  (article_v : pyval) : list string :=
  match article_v with
  | PDict article =>
      if article_accepted supplier_id article_number article
      then gtin_candidates article else []
  | _ => []
  end.

Definition ean_candidates (supplier_id article_number : pyval)
  (articles : list pyval) : list string :=
  flat_map (article_candidates supplier_id article_number) articles.


(** The articles of a response, as the loop of line 766 visits them. *)
Definition response_articles (reference_response : pyval) : list pyval :=
  match reference_response with
  | PDict d =>
      match py_iter (dict_get d "articles" (PList [])) with
      | Ok l => l
      | Raise => []
      end
  | _ => []
  end.

(** The reference made of the first candidate, when there is one. *)
Definition first_ean (article_id : pyval) (candidates : list string)
  : list pydict :=
  match candidates with
  | [] => []
  | c :: _ => [reference_row article_id "EAN" (PStr c) (PStr "")]
  end.

(** No key of [existing_refs] has the type [EAN]. *)
Definition no_ean_key (existing : list ref_key) : Prop :=
  Forall (fun k => py_eqb (fst (fst k)) (PStr "EAN") = false) existing.

(** Two states of the loop with the same [EAN] references of a parent. *)
Definition same_ean (article_id : pyval) (st st' : ref_state) : Prop :=
  ean_references article_id (references st')
  = ean_references article_id (references st)
  /\ ean_added st' = ean_added st
  /\ (no_ean_key (existing_refs st) -> no_ean_key (existing_refs st')).

(* ================================================================== *)
(** ** Source vehicle records: [process_vehicle_linkages] *)

(** An entry of [self.vehicle_lookup]: the dict with the keys ['row'],
    ['mfr_id'], ['mfr_name'] and ['construction_type'] built at
    lines 1652-1657. *)
Record vehicle_info := {
  info_row : pydict;
  info_mfr_id : pyval;
  info_mfr_name : pyval;
  info_construction_type : pyval
}.

(** The run-scoped state the vehicle methods share:
    [self.csv_data['vehicles']] and [self.vehicle_lookup]. *)
Record client := {
  vehicles : list pydict;
  vehicle_lookup : kdict (list vehicle_info)
}.

(** Lines 1594-1596 (and 1600-1602): the three keys stored on a linked
    vehicle; only a dict supports the assignment. *)
Definition tag_vehicle (article_link_id linking_target_id vehicle : pyval)
  : res pydict :=
  match vehicle with
  | PDict d =>
      let d1 := dict_set d "_articleLinkId" article_link_id in
      let d2 := dict_set d1 "_linkingTargetId" linking_target_id in
      Ok (dict_set d2 "_constructionType"
            (dict_get d2 "constructionType" (PStr "")))
  | _ => Raise
  end.

(** Lines 1586-1603: the vehicles one item of [linkages_data] contributes
    to [actual_vehicles]. *)
Definition linked_vehicles_of (item : pyval) : res (list pydict) :=
  match item with
  | PDict d =>
      let article_link_id := dict_get d "articleLinkId" (PStr "") in
      let linking_target_id := dict_get d "linkingTargetId" (PStr "") in
      match dict_find "linkedVehicles" d with
      | Some (PDict lv) =>
          if dict_mem "array" lv then
            vs <- py_iter (dict_get lv "array" PNone) ;;
            mapM (tag_vehicle article_link_id linking_target_id) vs
          else Ok []
      | Some (PList vs) =>
          mapM (tag_vehicle article_link_id linking_target_id) vs
      | _ => Ok []
      end
  | _ => Ok []
  end.

(** Lines 1615-1623. *)
Definition vehicle_power_hp (vehicle : pydict) : string :=
  if dict_mem "powerHpFrom" vehicle then
    let power_from := dict_get vehicle "powerHpFrom" (PStr "") in
    let power_to := dict_get vehicle "powerHpTo" (PStr "") in
    if truthy power_from && truthy power_to
       && negb (py_eqb power_from power_to)
    then py_str power_from ++ "-" ++ py_str power_to
    else if truthy power_from then py_str power_from
    else ""
  else "".

(** Line 1626: the correlation hint. *)
Definition vehicle_hint (vehicle : pydict) : pyval :=
  py_or (dict_get vehicle "_linkingTargetId" PNone)
        (dict_get vehicle "carId" (PStr "")).

(** Line 1629. *)
Definition vehicle_construction_type (vehicle : pydict) : pyval :=
  dict_get vehicle "_constructionType"
    (dict_get vehicle "constructionType" (PStr "")).

(** Lines 1612-1646: the row of one source vehicle. *)
Definition vehicle_row (article_id : pyval) (vehicle : pydict) : pydict :=
  let year_from :=
    _format_year_month (dict_get vehicle "yearOfConstructionFrom" (PStr "")) in
  let year_to :=
    _format_year_month (dict_get vehicle "yearOfConstructionTo" (PStr "")) in
  let power_hp := vehicle_power_hp vehicle in
  let construction_type := vehicle_construction_type vehicle in
  [("article_id", article_id);
   ("vehicle_mfr_name", dict_get vehicle "manuDesc" (PStr ""));
   ("model_series_name", dict_get vehicle "modelDesc" (PStr ""));
   ("type_name", dict_get vehicle "carDesc" (PStr ""));
   ("year_from", PStr year_from);
   ("year_to", PStr year_to);
   ("engine_cc",
    PStr (if truthy (dict_get vehicle "cylinderCapacity" PNone)
          then py_str (dict_get vehicle "cylinderCapacity" (PStr ""))
          else ""));
   ("power_hp", PStr power_hp);
   ("fuel_type", PStr "");
   ("body_style", construction_type);
   ("drive_type", PStr "");
   ("kba_numbers", PStr "");
   ("engine_code", PStr "");
   ("other_restrictions", PStr "")].

Definition vehicle_info_of (article_id : pyval) (vehicle : pydict)
  : vehicle_info :=
  {| info_row := vehicle_row article_id vehicle;
     info_mfr_id := dict_get vehicle "manuId" (PStr "");
     info_mfr_name := dict_get vehicle "manuDesc" (PStr "");
     info_construction_type := vehicle_construction_type vehicle |}.

(** Lines 1650-1657: [if k not in d: d[k] = []] then [d[k].append(info)]. *)
Fixpoint lookup_append (d : kdict (list vehicle_info)) (k : pyval)
  (info : vehicle_info) : kdict (list vehicle_info) :=
  match d with
  | [] => [(k, [info])]
  | (k', infos) :: rest =>
      if py_eqb k' k then (k', (infos ++ [info])%list) :: rest
      else (k', infos) :: lookup_append rest k info
  end.

(** Lines 1610-1661: one iteration of [for vehicle in actual_vehicles]. *)
Definition process_vehicle (article_id : pyval) (c : client)
  (vehicle : pydict) : res client :=
  let linking_target_id := vehicle_hint vehicle in
  if truthy linking_target_id then
    if hashable linking_target_id then
      Ok {| vehicles := vehicles c;
            vehicle_lookup :=
              lookup_append (vehicle_lookup c) linking_target_id
                (vehicle_info_of article_id vehicle) |}
    else Raise
  else
    Ok {| vehicles := (vehicles c ++ [vehicle_row article_id vehicle])%list;
          vehicle_lookup := vehicle_lookup c |}.

(** [process_vehicle_linkages] *)
Definition process_vehicle_linkages (c : client)
  (article_id linkages_response : pyval) : res client :=
  linkages_data <- process_vehicle_linkages_records linkages_response ;;
  batches <- mapM linked_vehicles_of linkages_data ;;
  let actual_vehicles := List.concat batches in
  foldM (process_vehicle article_id) c actual_vehicles.

(* ================================================================== *)
(** ** Correlation: [enrich_vehicles_with_linkage_targets] *)

(** Lines 1719-1723: [linkage_targets_lookup]. *)
Definition lookup_target (lookup : kdict pyval) (target : pyval)
  : res (kdict pyval) :=
  linkage_target_id <- py_get target "linkageTargetId" PNone ;;
  if truthy linkage_target_id then
    if hashable linkage_target_id
    then Ok (kset lookup linkage_target_id target)
    else Raise
  else Ok lookup.

Definition build_lookup (targets : list pyval) : res (kdict pyval) :=
  foldM lookup_target [] targets.

(** The key of the description index, [f"{mfr_id}_{desc}"]. *)
Definition desc_key (mfr_id : pyval) (desc : string) : string :=
  py_str mfr_id ++ "_" ++ desc.

(** The key of the specification index,
    [f"{mfr_id}_{model_series}_{power_hp}_{capacity}"]. *)
Definition specs_key (mfr_id : pyval) (model_series power_hp capacity : string)
  : string :=
  py_str mfr_id ++ "_" ++ model_series ++ "_" ++ power_hp ++ "_" ++ capacity.

(** Lines 1755-1775: one target entered into [lookup_by_desc] and
    [lookup_by_specs]. *)
Definition index_target (idx : sindex * sindex) (target : pyval)
  : res (sindex * sindex) :=
  let '(lookup_by_desc, lookup_by_specs) := idx in
  desc_v <- py_get target "description" (PStr "") ;;
  desc <- py_strip desc_v ;;
  model_series_v <- py_get target "vehicleModelSeriesName" (PStr "") ;;
  model_series <- py_strip model_series_v ;;
  mfr_id <- py_get target "mfrId" (PStr "") ;;
  power_hp <- py_get target "horsePowerFrom" (PStr "") ;;
  capacity <- py_get target "capacityCC" (PStr "") ;;
  let lookup_by_desc :=
    if negb (desc =? "")%string && truthy mfr_id
    then sappend lookup_by_desc (desc_key mfr_id desc) target
    else lookup_by_desc in
  let lookup_by_specs :=
    if truthy mfr_id && negb (model_series =? "")%string
       && truthy power_hp && truthy capacity
    then sappend lookup_by_specs
           (specs_key mfr_id model_series (py_str power_hp) (py_str capacity))
           target
    else lookup_by_specs in
  Ok (lookup_by_desc, lookup_by_specs).

Definition build_indexes (targets : list pyval) : res (sindex * sindex) :=
  foldM index_target ([], []) targets.

(** Lines 1805-1810: does the scan accept the first target of a bucket? *)
Definition scan_accepts (type_name power_hp : string) (target0 : pyval)
  : res bool :=
  target_desc <- py_get target0 "description" (PStr "") ;;
  inside <- py_in type_name target_desc ;;
  around <- (if inside then Ok true
             else match target_desc with
                  | PStr d => Ok (str_contains d type_name)
                  | _ => Raise
                  end) ;;
  if around && (str_len type_name >? 5) then
    hp <- py_get target0 "horsePowerFrom" (PStr "") ;;
    let target_power := py_str hp in
    Ok ((power_hp =? target_power)%string || (target_power =? "")%string)
  else Ok false.

(** Lines 1803-1812: the linear scan over [lookup_by_desc.items()], left
    at the first accepted bucket; [linkage_target] is the value the
    variable holds when no bucket is accepted. *)
Fixpoint scan_descriptions (mfr_id : pyval) (type_name power_hp : string)
  (items : sindex) (linkage_target : pyval) : res pyval :=
  match items with
  | [] => Ok linkage_target
  | (lookup_key, targets) :: rest =>
      match targets with
      | target0 :: _ =>
          if startswith lookup_key (py_str mfr_id ++ "_") then
            accepted <- scan_accepts type_name power_hp target0 ;;
            if accepted then Ok target0
            else scan_descriptions mfr_id type_name power_hp rest
                   linkage_target
          else scan_descriptions mfr_id type_name power_hp rest linkage_target
      | [] => scan_descriptions mfr_id type_name power_hp rest linkage_target
      end
  end.

(** Lines 1796-1812: the description tier. *)
Definition match_by_description (lookup_by_desc : sindex) (mfr_id : pyval)
  (type_name power_hp : string) (linkage_target : pyval) : res pyval :=
  if truthy mfr_id && negb (type_name =? "")%string then
    match sfind (desc_key mfr_id type_name) lookup_by_desc with
    | Some (target0 :: _) => Ok target0
    | _ => scan_descriptions mfr_id type_name power_hp lookup_by_desc
             linkage_target
    end
  else Ok linkage_target.

(** Lines 1815-1818: the specification tier. *)
Definition match_by_specs (lookup_by_specs : sindex) (mfr_id : pyval)
  (model_series power_hp engine_cc : string) (linkage_target : pyval)
  : pyval :=
  if negb (truthy linkage_target) && truthy mfr_id
     && negb (model_series =? "")%string && negb (power_hp =? "")%string
     && negb (engine_cc =? "")%string
  then
    match sfind (specs_key mfr_id model_series power_hp engine_cc)
            lookup_by_specs with
    | Some (target0 :: _) => target0
    | _ => linkage_target
    end
  else linkage_target.

(** Lines 1785-1818: the linkage target chosen for one source record; the
    empty dict stands for "no match". *)
Definition select_target (lookup : kdict pyval)
  (lookup_by_desc lookup_by_specs : sindex) (linkage_target_id : pyval)
  (vehicle_info : vehicle_info) : res pyval :=
  let vehicle_row := info_row vehicle_info in
  found <- klookup linkage_target_id lookup ;;
  let linkage_target :=
    match found with Some t => t | None => PDict [] end in
  if negb (truthy linkage_target) then
    let mfr_id := info_mfr_id vehicle_info in
    model_series <-
      py_strip (dict_get vehicle_row "model_series_name" (PStr "")) ;;
    type_name <- py_strip (dict_get vehicle_row "type_name" (PStr "")) ;;
    power_hp <- py_strip (dict_get vehicle_row "power_hp" (PStr "")) ;;
    engine_cc <- py_strip (dict_get vehicle_row "engine_cc" (PStr "")) ;;
    linkage_target <-
      match_by_description lookup_by_desc mfr_id type_name power_hp
        linkage_target ;;
    Ok (match_by_specs lookup_by_specs mfr_id model_series power_hp
          engine_cc linkage_target)
  else Ok linkage_target.

(** ['|'.join(l)]: every element has to be a string. *)
Definition join_values (sep : string) (l : list pyval) : res string :=
  strs <- mapM (fun v => match v with PStr s => Ok s | _ => Raise end) l ;;
  Ok (join sep strs).

(** [linkage_target[field]] when the key is present and its value is
    truthy, as the three extraction blocks test it. *)
Definition present_items (linkage_target : pyval) (field : string)
  : res (list pyval) :=
  has <- py_in field linkage_target ;;
  if has then
    v <- py_item linkage_target field ;;
    if truthy v then py_iter v else Ok []
  else Ok [].

(** Lines 1829-1831. *)
Definition kba_numbers_of (linkage_target : pyval) : res (list pyval) :=
  ks <- present_items linkage_target "kbaNumbers" ;;
  Ok (map (fun k => PStr (py_str k)) (filter truthy ks)).

(** Lines 1834-1842. *)
Definition engine_codes_of (linkage_target : pyval) : res (list pyval) :=
  engines <- present_items linkage_target "engines" ;;
  Ok (flat_map (fun engine =>
                  match engine with
                  | PDict d =>
                      let code := dict_get d "code" (PStr "") in
                      if truthy code then [code] else []
                  | PStr _ => [engine]
                  | _ => []
                  end)
               engines).

(** Lines 1845-1853. *)
Definition restrictions_of (linkage_target : pyval) : res (list pyval) :=
  rs <- present_items linkage_target "vehiclesInOperation" ;;
  Ok (flat_map (fun restriction =>
                  match restriction with
                  | PStr _ => [restriction]
                  | PDict d =>
                      let desc :=
                        dict_get d "description" (dict_get d "text" (PStr "")) in
                      if truthy desc then [desc] else []
                  | _ => []
                  end)
               rs).

(** ['|'.join(l) if l else vehicle_row.get(field, '')] *)
Definition joined_or_kept (l : list pyval) (vehicle_row : pydict)
  (field : string) : res pyval :=
  match l with
  | [] => Ok (dict_get vehicle_row field (PStr ""))
  | _ => s <- join_values "|" l ;; Ok (PStr s)
  end.

(** Lines 1827-1865: the merge of a matched linkage target into the row. *)
Definition enrich_row (vehicle_row : pydict) (linkage_target : pyval)
  : res pydict :=
  kba_numbers <- kba_numbers_of linkage_target ;;
  engine_codes <- engine_codes_of linkage_target ;;
  restrictions <- restrictions_of linkage_target ;;
  fuel <- py_get linkage_target "fuelType" (PStr "") ;;
  let r1 := dict_set vehicle_row "fuel_type"
              (py_or fuel (dict_get vehicle_row "fuel_type" (PStr ""))) in
  enriched_body_style <- py_get linkage_target "bodyStyle" (PStr "") ;;
  let r2 := if truthy enriched_body_style
            then dict_set r1 "body_style" enriched_body_style else r1 in
  drive <- py_get linkage_target "driveType" (PStr "") ;;
  let r3 := dict_set r2 "drive_type"
              (py_or drive (dict_get r2 "drive_type" (PStr ""))) in
  kba <- joined_or_kept kba_numbers r3 "kba_numbers" ;;
  let r4 := dict_set r3 "kba_numbers" kba in
  codes <- joined_or_kept engine_codes r4 "engine_code" ;;
  let r5 := dict_set r4 "engine_code" codes in
  others <- joined_or_kept restrictions r5 "other_restrictions" ;;
  Ok (dict_set r5 "other_restrictions" others).

(** Lines 1782-1868: the row one source record contributes to
    [self.csv_data['vehicles']]. *)
Definition enrich_vehicle (lookup : kdict pyval)
  (lookup_by_desc lookup_by_specs : sindex)
  (entry : pyval * vehicle_info) : res pydict :=
  let '(linkage_target_id, vehicle_info) := entry in
  linkage_target <- select_target lookup lookup_by_desc lookup_by_specs
                      linkage_target_id vehicle_info ;;
  if truthy linkage_target
  then enrich_row (info_row vehicle_info) linkage_target
  else Ok (info_row vehicle_info).

(** The source records in the order the two nested loops over
    [self.vehicle_lookup.items()] visit them. *)
Definition lookup_entries (d : kdict (list vehicle_info))
  : list (pyval * vehicle_info) :=
  flat_map (fun kv => map (fun info => (fst kv, info)) (snd kv)) d.

(** "add vehicles as-is": lines 1680-1683 and 1728-1731. *)
Definition flush_unenriched (c : client) : client :=
  {| vehicles :=
       (vehicles c
          ++ map (fun e => info_row (snd e))
               (lookup_entries (vehicle_lookup c)))%list;
     vehicle_lookup := [] |}.

(** Lines 1718-1877: the correlation, given the body
    [linkage_targets_response] the two queries ended with. *)
Definition correlate (c : client) (linkage_targets_response : pyval)
  : res client :=
  targets_v <- py_get linkage_targets_response "linkageTargets" (PList []) ;;
  targets <- py_iter targets_v ;;
  lookup <- build_lookup targets ;;
  match lookup with
  | [] => Ok (flush_unenriched c)
  | _ =>
      idx <- build_indexes targets ;;
      let '(lookup_by_desc, lookup_by_specs) := idx in
      rows <- mapM (enrich_vehicle lookup lookup_by_desc lookup_by_specs)
                (lookup_entries (vehicle_lookup c)) ;;
      Ok {| vehicles := (vehicles c ++ rows)%list; vehicle_lookup := [] |}
  end.

(** Lines 1669-1676: is there a source record with a truthy ['mfr_id']?
    Adding it to the set [mfr_ids] hashes it. *)
Definition collect_mfr_ids (d : kdict (list vehicle_info)) : res (list pyval) :=
  foldM (fun acc e =>
           let mfr_id := info_mfr_id (snd e) in
           if truthy mfr_id then
             if hashable mfr_id
             then Ok (if existsb (fun m => py_eqb m mfr_id) acc
                      then acc else (acc ++ [mfr_id])%list)
             else Raise
           else Ok acc)
        [] (lookup_entries d).

(** Lines 1692-1700: the query by ids sits in a [try] that turns every
    exception into "no response". *)
Definition usable_ids_response (ids_response : pyval) : bool :=
  truthy ids_response &&
  match ids_response with
  | PDict d => truthy (dict_get d "linkageTargets" PNone)
  | _ => false
  end.

(** [enrich_vehicles_with_linkage_targets].  [ids_response] is the body
    answered to [get_linkage_targets_by_ids], [make_request] answers the
    pages of the query by manufacturers. *)
Definition enrich_vehicles_with_linkage_targets (ids_response : pyval)
  (make_request : Z -> pyval) (c : client) : res client :=
  match vehicle_lookup c with
  | [] => Ok c
  | _ =>
      mfr_ids <- collect_mfr_ids (vehicle_lookup c) ;;
      match mfr_ids with
      | [] => Ok (flush_unenriched c)
      | _ =>
          if usable_ids_response ids_response then correlate c ids_response
          else
            r <- get_linkage_targets make_request ;;
            let linkage_targets_response := fst r in
            (* debug prints of lines 1707-1714 *)
            _ <- (if truthy linkage_targets_response then
                    match linkage_targets_response with
                    | PDict d =>
                        if dict_mem "linkageTargets" d
                        then py_len (dict_get d "linkageTargets" (PList []))
                        else Ok 0
                    | _ => Raise
                    end
                  else Ok 0) ;;
            correlate c linkage_targets_response
      end
  end.

(** The key under which [index_target] files a target in
    [lookup_by_desc], when it files it at all. *)
Definition target_desc_key (target : pyval) : option string :=
  match target with
  | PDict d =>
      match dict_get d "description" (PStr "") with
      | PStr s =>
          let desc := strip s in
          let mfr_id := dict_get d "mfrId" (PStr "") in
          if negb (desc =? "")%string && truthy mfr_id
          then Some (desc_key mfr_id desc) else None
      | _ => None
      end
  | _ => None
  end.

Definition has_desc_key (key : string) (target : pyval) : bool :=
  match target_desc_key target with
  | Some k => (k =? key)%string
  | None => false
  end.

(** The targets filed under a key, in input order; a key without targets
    has no bucket. *)
Definition bucket_of (key : string) (seen_targets : list pyval)
  : option (list pyval) :=
  match filter (has_desc_key key) seen_targets with
  | [] => None
  | b => Some b
  end.

(** [lookup_by_desc] groups the targets seen so far by their key. *)
Definition groups_by_desc (seen_targets : list pyval) (lookup_by_desc : sindex)
  : Prop :=
  NoDup (map fst lookup_by_desc)
  /\ forall key, sfind key lookup_by_desc = bucket_of key seen_targets.

(** "All three tiers fail" for a source record of a run: with the lookup
    and the two indexes the run builds from its response, no linkage
    target is chosen. *)
Definition all_tiers_fail (linkage_targets_response linkage_target_id : pyval)
  (info : vehicle_info) : Prop :=
  forall targets_v targets lookup lookup_by_desc lookup_by_specs,
    py_get linkage_targets_response "linkageTargets" (PList [])
    = Ok targets_v ->
    py_iter targets_v = Ok targets ->
    build_lookup targets = Ok lookup ->
    build_indexes targets = Ok (lookup_by_desc, lookup_by_specs) ->
    exists t,
      select_target lookup lookup_by_desc lookup_by_specs
        linkage_target_id info = Ok t
      /\ truthy t = false.

(* ================================================================== *)
(** ** Deduplication in [export_vehicles_csv] *)

Definition key_fields : list string :=
  ["article_id"; "vehicle_mfr_name"; "model_series_name"; "type_name";
   "year_from"; "year_to"; "engine_cc"; "power_hp"; "fuel_type";
   "body_style"; "drive_type"; "engine_code"].

(** Lines 2012-2025: the tuple [unique_key]. *)
Definition unique_key (vehicle : pydict) : list pyval :=
  map (fun f => dict_get vehicle f (PStr "")) key_fields.

(** Equality of two tuples. *)
Fixpoint tuple_eqb (a b : list pyval) : bool :=
  match a, b with
  | [], [] => true
  | x :: xs, y :: ys => py_eqb x y && tuple_eqb xs ys
  | _, _ => false
  end.

(** [unique_key in seen_vehicles] *)
Definition seen (seen_vehicles : list (list pyval)) (k : list pyval) : bool :=
  existsb (fun s => tuple_eqb s k) seen_vehicles.

(** Lines 2007-2030: the loop that fills [deduplicated_data].  Hashing a
    tuple with a list or dict inside raises [TypeError]. *)
Fixpoint dedupe_loop (data : list pydict) (seen_vehicles : list (list pyval))
  (deduplicated_data : list pydict) : res (list pydict) :=
  match data with
  | [] => Ok deduplicated_data
  | vehicle :: rest =>
      let k := unique_key vehicle in
      if forallb hashable k then
        if seen seen_vehicles k
        then dedupe_loop rest seen_vehicles deduplicated_data
        else dedupe_loop rest (seen_vehicles ++ [k])%list
               (deduplicated_data ++ [vehicle])%list
      else Raise
  end.

Definition deduplicate_vehicles (data : list pydict) : res (list pydict) :=
  dedupe_loop data [] [].



(** Two rows with the same natural key. *)
Definition same_key (v w : pydict) : bool :=
  tuple_eqb (unique_key v) (unique_key w).

(** A row whose natural key can be hashed. *)
Definition key_hashable (v : pydict) : bool :=
  forallb hashable (unique_key v).

(** The natural key up to [==]. *)
Definition canon_key (v : pydict) : list atom := map canon (unique_key v).

(* ================================================================== *)
(** ** Further definitions *)

(** The columns of vehicles.csv, [vehicles_columns] in
    [export_vehicles_csv] (lines 1991-1995). *)
Definition vehicles_columns : list string :=
  ["article_id"; "vehicle_mfr_name"; "model_series_name"; "type_name";
   "year_from"; "year_to"; "engine_cc"; "power_hp"; "fuel_type";
   "body_style"; "drive_type"; "kba_numbers"; "engine_code";
   "other_restrictions"].

(** The fields lines 1856-1865 assign. *)
Definition enrichable_fields : list string :=
  ["fuel_type"; "body_style"; "drive_type"; "kba_numbers"; "engine_code";
   "other_restrictions"].

(** The key under which [index_target] files a target in
    [lookup_by_specs], when it files it at all. *)
Definition target_specs_key (target : pyval) : option string :=
  match target with
  | PDict d =>
      match dict_get d "vehicleModelSeriesName" (PStr "") with
      | PStr s =>
          let model_series := strip s in
          let mfr_id := dict_get d "mfrId" (PStr "") in
          let power_hp := dict_get d "horsePowerFrom" (PStr "") in
          let capacity := dict_get d "capacityCC" (PStr "") in
          if truthy mfr_id && negb (model_series =? "")%string
             && truthy power_hp && truthy capacity
          then Some (specs_key mfr_id model_series (py_str power_hp)
                       (py_str capacity))
          else None
      | _ => None
      end
  | _ => None
  end.

Definition has_specs_key (key : string) (target : pyval) : bool :=
  match target_specs_key target with
  | Some k => (k =? key)%string
  | None => false
  end.

(** [lookup_by_specs] groups the targets seen so far by their key. *)
Definition groups_by_specs (seen_targets : list pyval)
  (lookup_by_specs : sindex) : Prop :=
  NoDup (map fst lookup_by_specs)
  /\ forall key,
       sfind key lookup_by_specs
       = match filter (has_specs_key key) seen_targets with
         | [] => None
         | b => Some b
         end.

(** The linked vehicles of a batch, [actual_vehicles] of line 1584, as
    far as the response can be read. *)
Definition actual_vehicles_of (linkages_response : pyval)
  : res (list pydict) :=
  linkages_data <- process_vehicle_linkages_records linkages_response ;;
  batches <- mapM linked_vehicles_of linkages_data ;;
  Ok (List.concat batches).

(** The source records a client holds: rows written and records waiting
    in [vehicle_lookup]. *)
Definition held_records (c : client) : nat :=
  (List.length (vehicles c)
   + List.length (lookup_entries (vehicle_lookup c)))%nat.

(** The dedupe key of a reference row, as line 760 reads it. *)
Definition row_key (ref : pydict) : ref_key :=
  (dict_get ref "ref_type" PNone, dict_get ref "number" PNone,
   dict_get ref "mfr_name" (PStr "")).

(** A reference key up to [==]. *)
Definition canon_ref (k : ref_key) : atom * atom * atom :=
  let '(t, n, m) := k in (canon t, canon n, canon m).

(** A row of the parent [article_id]. *)
Definition of_parent (article_id : pyval) (ref : pydict) : bool :=
  py_eqb (dict_get ref "article_id" PNone) article_id.

(** Every row of [added] has a key different from the key of each row of
    the parent that precedes it, in [earlier] or in [added] itself. *)
Fixpoint fresh_rows (article_id : pyval) (earlier added : list pydict)
  : Prop :=
  match added with
  | [] => True
  | r :: rest =>
      (forall e, In e earlier -> of_parent article_id e = true ->
                 ref_key_eqb (row_key e) (row_key r) = false)
      /\ fresh_rows article_id (earlier ++ [r])%list rest
  end.

(** The reference types lines 791-911 write. *)
Definition reference_types : list string :=
  ["EAN"; "TRADE"; "OE"; "COMPARABLE"; "REPLACEMENT"; "REPLACED"].

(** A row the accumulator writes: the four columns of a reference, in
    their order, for the parent, with one of the six types and a truthy
    number. *)
Definition written_row (article_id : pyval) (ref : pydict) : Prop :=
  exists ty number mfr_name,
    ref = [("article_id", article_id); ("ref_type", PStr ty);
           ("number", number); ("mfr_name", mfr_name)]
    /\ In ty ["EAN"; "TRADE"; "OE"; "COMPARABLE"; "REPLACEMENT"; "REPLACED"]
    /\ truthy number = true.

(** What the loop of [extract_all_reference_numbers] keeps true, with
    [refs0] the list the call started from. *)
Definition refs_invariant (article_id : pyval) (refs0 : list pydict)
  (st : ref_state) : Prop :=
  Forall (fun k => ref_key_hashable k = true) (existing_refs st)
  /\ (forall row, In row (references st) ->
                  of_parent article_id row = true ->
                  ref_key_hashable (row_key row) = true
                  /\ In (canon_ref (row_key row))
                       (map canon_ref (existing_refs st)))
  /\ exists added,
       references st = (refs0 ++ added)%list
       /\ Forall (written_row article_id) added
       /\ fresh_rows article_id refs0 added.

(** The articles the two guards of lines 774-781 let through; anything
    that is no dict is kept, the loop raises on it. *)
Definition passes_filter (supplier_id article_number : pyval)
  (article_v : pyval) : bool :=
  match article_v with
  | PDict article => article_accepted supplier_id article_number article
  | _ => true
  end.

(* ------------------------------------------------------------------ *)
(** *** GTIN extraction: [extract_specific_gtin],
        [extract_gtins_from_article] *)

(** [str.lower] on one code point below 256. *)
Definition lower_char (c : ascii) : ascii :=
  let n := code c in
  if ((65 <=? n) && (n <=? 90)
      || (192 <=? n) && (n <=? 222) && negb (n =? 215))%N
  then ascii_of_N (n + 32) else c.

Fixpoint lower (s : string) : string :=
  match s with
  | EmptyString => EmptyString
  | String c s' => String (lower_char c) (lower s')
  end.

(** [s.lstrip('0')] *)
Fixpoint lstrip0 (s : string) : string :=
  match s with
  | EmptyString => EmptyString
  | String c s' => if (c =? "0")%char then lstrip0 s' else s
  end.

(** Lines 639-653 (and 975-989): the key the GTINs are read from. *)
Definition gtin_alt_keys : list string :=
  ["gtin"; "GTIN"; "gtinNumbers"; "gtins"; "ean"; "EAN"; "eans"; "EANs"].

Definition find_gtin_key (article : pydict) : option string :=
  match find (fun kv => (lower (fst kv) =? "gtins")%string) article with
  | Some (key, _) => Some key
  | None =>
      if dict_mem "GTINs" article then Some "GTINs"
      else find (fun alt_key => dict_mem alt_key article) gtin_alt_keys
  end.

(** Lines 655-661 (and 991-997): [gtin_data], [None] where the guard
    [if gtin_key and article.get(gtin_key)] fails. *)
Definition gtin_data_of (article : pydict) : pyval :=
  match find_gtin_key article with
  | Some gtin_key =>
      if negb (gtin_key =? "")%string
         && truthy (dict_get article gtin_key PNone)
      then
        match dict_get article gtin_key PNone with
        | PDict d =>
            if dict_mem "array" d then dict_get d "array" PNone
            else PDict d
        | gtin_data => gtin_data
        end
      else PNone
  | None => PNone
  end.

(** The sub-fields tried on a structured entry, lines 673-686. *)
Definition gtin_sub_fields : list string :=
  ["gtin"; "GTIN"; "ean"; "EAN"; "gtinNumber"; "gtinValue"; "eanNumber";
   "number"; "value"; "gtinCode"; "eanCode"].

(** [ref.get(f1) or ref.get(f2) or ... or ''] *)
Definition first_truthy (d : pydict) (fields : list string) : pyval :=
  fold_right (fun f rest => py_or (dict_get d f PNone) rest) (PStr "") fields.

(** Lines 666-688 (and 1002-1024): [gtin_number] for one entry of the
    list; a string, a number or an object with an aliased sub-field. *)
Definition gtin_number_of (ref : pyval) : string :=
  match ref with
  | PStr s => strip s
  | PInt _ | PBool _ => strip (py_str ref)
  | PDict d =>
      let v := first_truthy d gtin_sub_fields in
      if truthy v then strip (py_str v) else ""
  | _ => ""
  end.

(** The test of lines 695-698. *)
Definition gtin_matches (gtin_number target_gtin : string) : bool :=
  (lstrip0 gtin_number =? lstrip0 target_gtin)%string
  || (gtin_number =? target_gtin)%string
  || (gtin_number =? "0" ++ target_gtin)%string
  || (gtin_number =? lstrip0 target_gtin)%string.

(** Lines 664-708: the loop over the list, left at the first match. *)
Fixpoint specific_gtin_loop (article_id : pyval) (target_gtin : string)
  (refs : list pydict) (gtin_data : list pyval) : list pydict * bool :=
  match gtin_data with
  | [] => (refs, false)
  | ref :: rest =>
      let gtin_number := gtin_number_of ref in
      if negb (gtin_number =? "")%string
         && gtin_matches gtin_number target_gtin
      then ((refs ++ [reference_row article_id "EAN" (PStr gtin_number)
                        (PStr "")])%list, true)
      else specific_gtin_loop article_id target_gtin refs rest
  end.

(** [extract_specific_gtin]: the references after the call and the
    value returned. *)
Definition extract_specific_gtin (refs : list pydict)
  (article_id article target_gtin : pyval) : res (list pydict * bool) :=
  match target_gtin with
  | PStr target =>
      match article with
      | PDict d =>
          match gtin_data_of d with
          | PList gtin_data =>
              Ok (specific_gtin_loop article_id target refs gtin_data)
          | PStr s =>
              if truthy (PStr s) then
                let gtin_number := strip s in
                if gtin_matches gtin_number target
                then Ok ((refs ++ [reference_row article_id "EAN"
                                     (PStr gtin_number) (PStr "")])%list,
                         true)
                else Ok (refs, false)
              else Ok (refs, false)
          | _ => Ok (refs, false)
          end
      | _ => Raise
      end
  | _ => Raise
  end.

(** Lines 969-972: the numbers of the [EAN] rows of the parent. *)
Definition collect_existing_gtins (article_id : pyval) (refs : list pydict)
  : res (list pyval) :=
  foldM (fun acc ref =>
           if is_ean_of article_id ref then
             let number := dict_get ref "number" (PStr "") in
             if hashable number
             then Ok (if existsb (fun e => py_eqb e number) acc
                      then acc else (acc ++ [number])%list)
             else Raise
           else Ok acc)
        [] refs.

(** One pass of the test and the body of lines 1026-1036. *)
Definition add_gtin (article_id : pyval) (gtin_number : string)
  (st : list pydict * list pyval * Z) : list pydict * list pyval * Z :=
  let '(refs, existing_gtins, gtin_count) := st in
  if negb (gtin_number =? "")%string
     && negb (existsb (fun e => py_eqb e (PStr gtin_number)) existing_gtins)
  then ((refs ++ [reference_row article_id "EAN" (PStr gtin_number)
                    (PStr "")])%list,
        (existing_gtins ++ [PStr gtin_number])%list,
        gtin_count + 1)
  else st.

(** [extract_gtins_from_article]: the references after the call and the
    count returned. *)
Definition extract_gtins_from_article (refs : list pydict)
  (article_id article : pyval) : res (list pydict * Z) :=
  existing_gtins <- collect_existing_gtins article_id refs ;;
  match article with
  | PDict d =>
      match gtin_data_of d with
      | PList gtin_data =>
          let '(refs', _, gtin_count) :=
            fold_left (fun st ref => add_gtin article_id (gtin_number_of ref) st)
              gtin_data (refs, existing_gtins, 0) in
          Ok (refs', gtin_count)
      | PStr s =>
          if truthy (PStr s) then
            let '(refs', _, gtin_count) :=
              add_gtin article_id (strip s) (refs, existing_gtins, 0) in
            Ok (refs', gtin_count)
          else Ok (refs, 0)
      | _ => Ok (refs, 0)
      end
  | _ => Raise
  end.

(** The rows made of a list of numbers. *)
Definition ean_rows (article_id : pyval) (numbers : list string)
  : list pydict :=
  map (fun g => reference_row article_id "EAN" (PStr g) (PStr "")) numbers.

(** The records page [p] contributes when the loop accepts it. *)
Definition page_items (make_request : Z -> pyval) (p : Z) : list pyval :=
  match py_get (make_request p) "linkageTargets" (PList []) with
  | Ok page_targets =>
      match py_iter page_targets with
      | Ok items => items
      | Raise => []
      end
  | Raise => []
  end.

(* ------------------------------------------------------------------ *)
(** *** Batches of linkage pairs in [main] (lines 2239-2241) *)

Definition batch_size : nat := 25.

(** [range(0, n, batch_size)] *)
Definition batch_starts (n : nat) : list nat :=
  map (fun j => (j * batch_size)%nat)
      (seq 0 ((n + (batch_size - 1)) / batch_size)).

(** The slices [all_linkage_pairs[i:i+batch_size]] the loop of line 2240
    takes, in order. *)
Definition batches {A : Type} (all_linkage_pairs : list A) : list (list A) :=
  map (fun i => firstn batch_size (skipn i all_linkage_pairs))
      (batch_starts (List.length all_linkage_pairs)).

(* ------------------------------------------------------------------ *)
(** *** Category path: [_build_category_hierarchy_from_facets] *)

(** Lines 492-496: filling [node_map] reads every node with [.get] and
    hashes its id. *)
Definition check_nodes (counts : list pyval) : res (list pydict) :=
  mapM (fun node =>
          match node with
          | PDict d =>
              let node_id := dict_get d "assemblyGroupNodeId" PNone in
              if truthy node_id && negb (hashable node_id)
              then Raise else Ok d
          | _ => Raise
          end)
       counts.

(** Line 501: a node without parent. *)
Definition is_root (node : pydict) : bool :=
  match dict_find "parentNodeId" node with
  | None | Some PNone => true
  | _ => false
  end.

(** Line 522: a child of [current_id]. *)
Definition is_child_of (current_id : pyval) (node : pydict) : bool :=
  py_eqb (dict_get node "parentNodeId" PNone) current_id.

(** The [while True] loop of lines 519-530.  It has no bound of its own:
    [None] says the loop is still running when the fuel is used up. *)
Fixpoint follow_children (fuel : nat) (counts : list pydict)
  (current_id : pyval) (path_parts node_ids : list pyval)
  : option (list pyval * list pyval) :=
  match fuel with
  | O => None
  | S fuel' =>
      match find (is_child_of current_id) counts with
      | Some node =>
          follow_children fuel' counts
            (dict_get node "assemblyGroupNodeId" PNone)
            (path_parts ++ [dict_get node "assemblyGroupName" (PStr "")])
            (node_ids
               ++ [PStr (py_str (dict_get node "assemblyGroupNodeId"
                                   (PStr "")))])
      | None => Some (path_parts, node_ids)
      end
  end.

(** [_build_category_hierarchy_from_facets]: [None] when the call does
    not return within [fuel] rounds of the loop. *)
Definition _build_category_hierarchy_from_facets (fuel : nat)
  (facets_data : pyval) : option (res (string * string)) :=
  if negb (truthy facets_data) then Some (Ok ("", ""))
  else
    match py_in "counts" facets_data with
    | Raise => Some Raise
    | Ok false => Some (Ok ("", ""))
    | Ok true =>
        match py_get facets_data "counts" (PList []) with
        | Raise => Some Raise
        | Ok counts_v =>
            if negb (truthy counts_v) then Some (Ok ("", ""))
            else
              match (items <- py_iter counts_v ;; check_nodes items) with
              | Raise => Some Raise
              | Ok counts =>
                  match find is_root counts with
                  | None => Some (Ok ("", ""))
                  | Some [] => Some (Ok ("", ""))
                  | Some root_node =>
                      match follow_children fuel counts
                              (dict_get root_node "assemblyGroupNodeId" PNone)
                              [dict_get root_node "assemblyGroupName"
                                 (PStr "")]
                              [PStr (py_str
                                       (dict_get root_node
                                          "assemblyGroupNodeId" (PStr "")))]
                      with
                      | None => None
                      | Some (path_parts, node_ids) =>
                          Some (category_path <- join_values " > " path_parts ;;
                                category_node_ids <- join_values "|" node_ids ;;
                                Ok (category_path, category_node_ids))
                      end
                  end
              end
        end
    end.

(* ------------------------------------------------------------------ *)
(** *** Linkage pairs: [extract_linkage_pairs] and the map of [main] *)

(** Lines 328-332: the pair made of one link, when it has both ids. *)
Definition pair_of_link (link : pyval) : res (option pydict) :=
  has_link_id <- py_in "articleLinkId" link ;;
  if has_link_id then
    has_target_id <- py_in "linkingTargetId" link ;;
    if has_target_id then
      article_link_id <- py_item link "articleLinkId" ;;
      linking_target_id <- py_item link "linkingTargetId" ;;
      Ok (Some [("articleLinkId", article_link_id);
                ("linkingTargetId", linking_target_id)])
    else Ok None
  else Ok None.

(** Lines 324-332: the pairs of one item of [data['array']]. *)
Definition pairs_of_item (item : pyval) : res (list pydict) :=
  has_linkages <- py_in "articleLinkages" item ;;
  if has_linkages then
    article_linkages <- py_item item "articleLinkages" ;;
    match article_linkages with
    | PDict al =>
        match dict_find "array" al with
        | Some links_v =>
            links <- py_iter links_v ;;
            found <- mapM pair_of_link links ;;
            Ok (flat_map (fun o => match o with
                                   | Some linkage_pair => [linkage_pair]
                                   | None => []
                                   end) found)
        | None => Ok []
        end
    | _ => Ok []
    end
  else Ok [].

Definition extract_linkage_pairs (linkages_response : pyval)
  : res (list pydict) :=
  has_data <- py_in "data" linkages_response ;;
  if has_data then
    data <- py_item linkages_response "data" ;;
    has_array <- py_in "array" data ;;
    if has_array then
      array <- py_item data "array" ;;
      items <- py_iter array ;;
      per_item <- mapM pairs_of_item items ;;
      Ok (List.concat per_item)
    else Ok []
  else Ok [].

(** Line 2244 of [main]: the dict comprehension over one batch. *)
Definition linkage_pairs_map (batch : list pydict) : res (kdict pyval) :=
  foldM (fun m linkage_pair =>
           article_link_id <- py_item (PDict linkage_pair) "articleLinkId" ;;
           linking_target_id <-
             py_item (PDict linkage_pair) "linkingTargetId" ;;
           if hashable article_link_id
           then Ok (kset m article_link_id linking_target_id)
           else Raise)
        [] batch.

(** A link of the response: an element of [articleLinkages['array']] of
    an element of [data['array']]. *)
Definition link_of (linkages_response link : pyval) : Prop :=
  exists data array items item al links_v links,
    py_item linkages_response "data" = Ok data
    /\ py_item data "array" = Ok array
    /\ py_iter array = Ok items
    /\ In item items
    /\ py_item item "articleLinkages" = Ok (PDict al)
    /\ dict_find "array" al = Some links_v
    /\ py_iter links_v = Ok links
    /\ In link links.
(* ================================================================== *)
(** * Properties *)

(** ** Year fields *)

(** C8. A value whose string form is six digits is rendered with a
    separator after the fourth digit; one whose string form is four digits
    gets [-01] appended; a string of seven characters with a separator in
    it, which covers [YYYY-MM], is returned unchanged. *)
Theorem format_year_month_normalizes :
  (forall v, truthy v = true -> String.length (py_str v) = 6%nat ->
             isdigit (py_str v) = true ->
             _format_year_month v
             = substring 0 4 (py_str v) ++ "-" ++ substring 4 2 (py_str v))
  /\ (forall v, truthy v = true -> String.length (py_str v) = 4%nat ->
                isdigit (py_str v) = true ->
                _format_year_month v = py_str v ++ "-01")
  /\ (forall s, String.length s = 7%nat -> str_contains "-" s = true ->
                _format_year_month (PStr s) = s).
Proof.
  split; [| split].
  - intros v Ht Hl Hd. unfold _format_year_month.
    rewrite Ht, Hl, Hd. reflexivity.
  - intros v Ht Hl Hd. unfold _format_year_month.
    rewrite Ht, Hl, Hd. reflexivity.
  - intros s Hl Hc. unfold _format_year_month.
    assert (Ht : truthy (PStr s) = true) by (destruct s; [discriminate | reflexivity]).
    rewrite Ht. cbn [negb py_str]. rewrite Hl, Hc. reflexivity.
Qed.


(** ** Response envelopes *)

Lemma dict_find_some_truthy (d : pydict) (k : string) (v : pyval) :
  dict_find k d = Some v -> truthy (PDict d) = true.
Proof. destruct d; [discriminate | reflexivity]. Qed.

Lemma dict_mem_some (d : pydict) (k : string) (v : pyval) :
  dict_find k d = Some v -> dict_mem k d = true.
Proof. unfold dict_mem. intros ->. reflexivity. Qed.

Lemma dict_mem_none (d : pydict) (k : string) :
  dict_find k d = None -> dict_mem k d = false.
Proof. unfold dict_mem. intros ->. reflexivity. Qed.

Lemma truthy_list_iter (l : list pyval) :
  (if negb (truthy (PList l)) then Ok [] else py_iter (PList l)) = Ok l.
Proof. destruct l; reflexivity. Qed.

(** Both methods read a dict response through its [array] key alone when
    the key is present: no other key is looked at. *)
Lemma array_key_decides (d : pydict) (v : pyval) :
  dict_find "array" d = Some v ->
  process_vehicle_linkages_records (PDict d)
  = process_vehicle_linkages_records (PDict [("array", v)])
  /\ process_attributes_data_records (PDict d)
     = process_attributes_data_records (PDict [("array", v)]).
Proof.
  intros H.
  pose proof (dict_find_some_truthy _ _ _ H) as Ht.
  pose proof (dict_mem_some _ _ _ H) as Hm.
  unfold process_vehicle_linkages_records, process_attributes_data_records.
  rewrite Ht. cbn [negb py_in py_item bind truthy].
  rewrite Hm, H. split; reflexivity.
Qed.

(** C6, as the code has it. A dict response is read through the first key
    present, [array] before [data], and under [data] the nested [array]
    before a bare list; a list found there is the record list, and a dict
    with neither key yields the empty list, not an error.  There is no
    fall-through: once [array] is present the result depends on its value
    alone, whatever [data] holds. *)
Theorem envelope_first_present_key_decides :
  forall d : pydict,
    (forall l, dict_find "array" d = Some (PList l) ->
       process_vehicle_linkages_records (PDict d) = Ok l
       /\ process_attributes_data_records (PDict d) = Ok l)
    /\ (forall inner l,
          dict_find "array" d = None ->
          dict_find "data" d = Some (PDict inner) ->
          dict_find "array" inner = Some (PList l) ->
          process_vehicle_linkages_records (PDict d) = Ok l
          /\ process_attributes_data_records (PDict d) = Ok l)
    /\ (forall l,
          dict_find "array" d = None ->
          dict_find "data" d = Some (PList l) ->
          existsb (py_eqb (PStr "array")) l = false ->
          process_vehicle_linkages_records (PDict d) = Ok l
          /\ process_attributes_data_records (PDict d) = Ok l)
    /\ (dict_find "array" d = None -> dict_find "data" d = None ->
        process_vehicle_linkages_records (PDict d) = Ok []
        /\ process_attributes_data_records (PDict d) = Ok [])
    /\ (forall v, dict_find "array" d = Some v ->
          process_vehicle_linkages_records (PDict d)
          = process_vehicle_linkages_records (PDict [("array", v)])
          /\ process_attributes_data_records (PDict d)
             = process_attributes_data_records (PDict [("array", v)])).
Proof.
  intros d. split; [| split; [| split; [| split]]].
  - intros l H.
    destruct (array_key_decides d _ H) as [-> ->].
    split; [reflexivity |].
    unfold process_attributes_data_records.
    cbn [truthy negb py_in dict_mem dict_find String.eqb bind py_item py_len].
    cbn. destruct l; reflexivity.
  - intros inner l Ha Hd Hi.
    pose proof (dict_find_some_truthy _ _ _ Hd) as Ht.
    unfold process_vehicle_linkages_records, process_attributes_data_records.
    rewrite Ht. cbn [negb py_in py_item py_get bind].
    rewrite (dict_mem_none _ _ Ha), (dict_mem_some _ _ _ Hd).
    unfold dict_get. rewrite Hd. cbn [py_in py_item bind].
    rewrite (dict_mem_some _ _ _ Hi), Hi. cbn [bind py_len].
    split; [reflexivity | apply truthy_list_iter].
  - intros l Ha Hd Hl.
    pose proof (dict_find_some_truthy _ _ _ Hd) as Ht.
    unfold process_vehicle_linkages_records, process_attributes_data_records.
    rewrite Ht. cbn [negb py_in py_item py_get bind].
    rewrite (dict_mem_none _ _ Ha), (dict_mem_some _ _ _ Hd).
    unfold dict_get. rewrite Hd. cbn [py_in bind]. rewrite Hl.
    cbn [bind]. split; [reflexivity | apply truthy_list_iter].
  - intros Ha Hd.
    unfold process_vehicle_linkages_records, process_attributes_data_records.
    destruct (truthy (PDict d)) eqn:Ht; cbn [negb bind]; [| split; reflexivity].
    cbn [py_in bind].
    rewrite (dict_mem_none _ _ Ha), (dict_mem_none _ _ Hd).
    split; reflexivity.
  - intros v H. exact (array_key_decides d v H).
Qed.

(** ** Pagination *)

(** The fuel of [fetch_remaining] never runs out before the loop guard
    fails: one more unit changes nothing once [fuel] covers the pages up
    to [max_pages]. *)
Lemma fetch_remaining_fuel_enough (make_request : Z -> pyval) (total : Z) :
  forall fuel st,
    max_pages + 1 - ps_page st <= Z.of_nat fuel ->
    fetch_remaining make_request total (S fuel) st
    = fetch_remaining make_request total fuel st.
Proof.
  induction fuel as [| fuel IH]; intros st Hf.
  - cbn [fetch_remaining].
    replace (ps_page st <=? max_pages) with false
      by (symmetry; apply Z.leb_gt; unfold max_pages in *; lia).
    rewrite andb_false_r. reflexivity.
  - set (rhs := fetch_remaining make_request total (S fuel) st).
    remember (S fuel) as n eqn:Hn in |- *.
    cbn [fetch_remaining]. subst rhs. cbn [fetch_remaining].
    destruct ((ps_returned st <? total) && (ps_page st <=? max_pages));
      [| reflexivity].
    destruct (if truthy (make_request (ps_page st))
              then py_in "linkageTargets" (make_request (ps_page st))
              else Ok false) as [[|] |]; cbn [bind]; try reflexivity.
    destruct (py_get (make_request (ps_page st)) "linkageTargets" (PList []))
      as [page_targets |]; cbn [bind]; [| reflexivity].
    destruct (py_len page_targets) as [n' |]; cbn [bind]; [| reflexivity].
    destruct (n' =? 0); [reflexivity |].
    destruct (py_iter page_targets) as [items |]; cbn [bind]; [| reflexivity].
    destruct (py_extend (ps_all_targets st) items) as [all_targets |];
      cbn [bind]; [| reflexivity].
    subst n. apply IH. cbn [ps_page]. lia.
Qed.

Lemma pages_from_S (p : Z) (k : nat) :
  pages_from p (S k) = p :: pages_from (p + 1) k.
Proof.
  unfold pages_from. cbn [seq map]. rewrite Z.add_0_r. f_equal.
  rewrite <- seq_shift, map_map. apply map_ext. intros i. lia.
Qed.

Lemma pages_from_bounds (p : Z) (k : nat) (q : Z) :
  In q (pages_from p k) -> p <= q < p + Z.of_nat k.
Proof.
  unfold pages_from. rewrite in_map_iff. intros [i [<- Hi]].
  apply in_seq in Hi. lia.
Qed.

Lemma pages_from_NoDup (p : Z) (k : nat) : NoDup (pages_from p k).
Proof.
  revert p. induction k as [| k IH]; intros p.
  - constructor.
  - rewrite pages_from_S. constructor; [| apply IH].
    intros H. apply pages_from_bounds in H. lia.
Qed.

(** The loop requests consecutive pages, each once, none beyond
    [max_pages]. *)
Lemma fetch_remaining_trace (make_request : Z -> pyval) (total : Z) :
  forall fuel st st',
    fetch_remaining make_request total fuel st = Ok st' ->
    exists k, ps_requested st'
              = (ps_requested st ++ pages_from (ps_page st) k)%list
              /\ (k = 0%nat \/ ps_page st + Z.of_nat k <= max_pages + 1).
Proof.
  induction fuel as [| fuel IH]; intros st st' H.
  - cbn in H. injection H as <-. exists 0%nat.
    cbn. rewrite app_nil_r. auto.
  - cbn [fetch_remaining] in H.
    destruct (ps_returned st <? total); cbn [andb] in H;
      [| injection H as <-; exists 0%nat; cbn; rewrite app_nil_r; auto].
    destruct (ps_page st <=? max_pages) eqn:Hp;
      [| injection H as <-; exists 0%nat; cbn; rewrite app_nil_r; auto].
    apply Z.leb_le in Hp.
    assert (Hstop : exists k,
               (ps_requested st ++ [ps_page st])%list
               = (ps_requested st ++ pages_from (ps_page st) k)%list
               /\ (k = 0%nat \/ ps_page st + Z.of_nat k <= max_pages + 1)).
    { exists 1%nat. split; [rewrite pages_from_S; reflexivity | right; lia]. }
    destruct (if truthy (make_request (ps_page st))
              then py_in "linkageTargets" (make_request (ps_page st))
              else Ok false) as [[|] |]; cbn [bind] in H;
      [| injection H as <-; exact Hstop | discriminate].
    destruct (py_get (make_request (ps_page st)) "linkageTargets" (PList []))
      as [page_targets |]; cbn [bind] in H; [| discriminate].
    destruct (py_len page_targets) as [n |]; cbn [bind] in H; [| discriminate].
    destruct (n =? 0); [injection H as <-; exact Hstop |].
    destruct (py_iter page_targets) as [items |]; cbn [bind] in H;
      [| discriminate].
    destruct (py_extend (ps_all_targets st) items) as [all_targets |];
      cbn [bind] in H; [| discriminate].
    apply IH in H. cbn [ps_requested ps_page] in H.
    destruct H as [k [Hreq Hk]]. exists (S k). split.
    + rewrite Hreq, pages_from_S, <- app_assoc. reflexivity.
    + right. destruct Hk as [-> | Hk]; lia.
Qed.

(** A failed or empty page ends the loop on the spot: what was
    accumulated is kept and no error is raised. *)
Lemma fetch_remaining_stops (make_request : Z -> pyval) (total : Z)
  (fuel : nat) (st : page_state) :
  ps_returned st < total -> ps_page st <= max_pages ->
  page_stops (make_request (ps_page st)) ->
  fetch_remaining make_request total (S fuel) st
  = Ok {| ps_all_targets := ps_all_targets st;
          ps_returned := ps_returned st;
          ps_page := ps_page st;
          ps_requested := (ps_requested st ++ [ps_page st])%list |}.
Proof.
  intros Hr Hp Hs. cbn [fetch_remaining].
  apply Z.ltb_lt in Hr. apply Z.leb_le in Hp. rewrite Hr, Hp. cbn [andb].
  destruct Hs as [Hf | [[d [Hd Hn]] | [d [Hd He]]]].
  - rewrite Hf. reflexivity.
  - rewrite Hd. destruct (truthy (PDict d)); [| reflexivity].
    cbn [py_in bind]. rewrite (dict_mem_none _ _ Hn). reflexivity.
  - rewrite Hd. rewrite (dict_find_some_truthy _ _ _ He).
    cbn [py_in py_get bind]. rewrite (dict_mem_some _ _ _ He).
    unfold dict_get. rewrite He. reflexivity.
Qed.

(** With one record on every page the loop runs its fuel out. *)
Lemma fetch_remaining_one_per_page (make_request : Z -> pyval) (total : Z) :
  (forall p, one_record_page (make_request p)) ->
  forall fuel st l,
    ps_all_targets st = PList l ->
    ps_returned st + Z.of_nat fuel <= total ->
    ps_page st + Z.of_nat fuel <= max_pages + 1 ->
    exists st' l',
      fetch_remaining make_request total fuel st = Ok st'
      /\ ps_all_targets st' = PList l'
      /\ List.length l' = (List.length l + fuel)%nat
      /\ ps_requested st'
         = (ps_requested st ++ pages_from (ps_page st) fuel)%list.
Proof.
  intros Hone. induction fuel as [| fuel IH]; intros st l Hl Hr Hp.
  - exists st, l. cbn. rewrite app_nil_r, Nat.add_0_r. auto.
  - cbn [fetch_remaining].
    replace (ps_returned st <? total) with true
      by (symmetry; apply Z.ltb_lt; lia).
    replace (ps_page st <=? max_pages) with true
      by (symmetry; apply Z.leb_le; unfold max_pages in *; lia).
    cbn [andb].
    destruct (Hone (ps_page st)) as [d [r [Hd Hf]]].
    rewrite Hd, (dict_find_some_truthy _ _ _ Hf).
    cbn [py_in py_get bind]. rewrite (dict_mem_some _ _ _ Hf).
    unfold dict_get. rewrite Hf. cbn [py_len bind List.length Z.of_nat].
    cbn [Z.eqb Pos.of_succ_nat py_iter bind]. rewrite Hl. cbn [py_extend bind].
    edestruct (IH {| ps_all_targets := PList (l ++ [r]);
                     ps_returned := ps_returned st + 1;
                     ps_page := ps_page st + 1;
                     ps_requested := (ps_requested st ++ [ps_page st])%list |}
                  (l ++ [r])%list) as [st' [l' [Hrun [Hall [Hlen Hreq]]]]].
    + reflexivity.
    + cbn [ps_returned]. lia.
    + cbn [ps_page]. lia.
    + exists st', l'. split; [exact Hrun |]. split; [exact Hall |]. split.
      * rewrite Hlen, length_app. cbn. lia.
      * rewrite Hreq. cbn [ps_requested ps_page].
        rewrite pages_from_S, <- app_assoc. reflexivity.
Qed.

(** C5. The collector of [get_linkage_targets]:
    (1) with one record on every page and a declared total of 100000 it
    returns exactly 500 records, from the pages 1 to 500;
    (2) whatever the service answers, the pages it requests are 1, 2, ...
    in order, each once, and never more than 500, so no page is retried;
    (3) a failed page, or one with zero records, ends the loop there with
    everything accumulated so far and no error: after a first page of
    [n > 0] records out of a larger total, such a second page leaves
    exactly those [n] records;
    (4) and so at any later page: the loop state is returned as it is,
    with the page added to the requested ones. *)
Theorem get_linkage_targets_pagination :
  (forall make_request d1,
      (forall p, one_record_page (make_request p)) ->
      make_request 1 = PDict d1 ->
      dict_find "total" d1 = Some (PInt 100000) ->
      exists l,
        get_linkage_targets make_request
        = Ok (PDict (dict_set d1 "linkageTargets" (PList l)),
              pages_from 1 500)
        /\ List.length l = 500%nat)
  /\ (forall make_request response requested,
         get_linkage_targets make_request = Ok (response, requested) ->
         exists k, requested = pages_from 1 k
                   /\ (1 <= k <= 500)%nat /\ NoDup requested)
  /\ (forall make_request d1 first total,
         make_request 1 = PDict d1 ->
         dict_find "total" d1 = Some (PInt total) ->
         dict_find "linkageTargets" d1 = Some (PList first) ->
         first <> [] -> Z.of_nat (List.length first) < total ->
         page_stops (make_request 2) ->
         get_linkage_targets make_request
         = Ok (PDict (dict_set d1 "linkageTargets" (PList first)), [1; 2]))
  /\ (forall make_request total fuel st,
         ps_returned st < total -> ps_page st <= max_pages ->
         page_stops (make_request (ps_page st)) ->
         fetch_remaining make_request total (S fuel) st
         = Ok {| ps_all_targets := ps_all_targets st;
                 ps_returned := ps_returned st;
                 ps_page := ps_page st;
                 ps_requested := (ps_requested st ++ [ps_page st])%list |}).
Proof.
  split; [| split; [| split]];
    [| | | intros; apply fetch_remaining_stops; assumption].
  - intros make_request d1 Hone H1 Htot.
    destruct (Hone 1) as [d [r [Hd Hf]]].
    rewrite H1 in Hd. injection Hd as <-.
    destruct (fetch_remaining_one_per_page make_request 100000 Hone
                (Z.to_nat (max_pages - 1))
                {| ps_all_targets := PList [r]; ps_returned := 1;
                   ps_page := 2; ps_requested := [1] |} [r])
      as [st' [l' [Hrun [Hall [Hlen Hreq]]]]].
    + reflexivity.
    + cbn [ps_returned]. rewrite Z2Nat.id; unfold max_pages; lia.
    + cbn [ps_page]. rewrite Z2Nat.id; unfold max_pages; lia.
    + exists l'. split.
      * unfold get_linkage_targets. rewrite H1.
        rewrite (dict_find_some_truthy _ _ _ Hf).
        rewrite (dict_mem_some _ _ _ Hf).
        unfold dict_get at 1. rewrite Hf. cbn [py_len bind py_in py_get].
        rewrite (dict_mem_some _ _ _ Htot).
        unfold dict_get. rewrite Htot, Hf.
        cbn [bind py_len py_num List.length Z.of_nat Pos.of_succ_nat
               Z.gtb Z.compare Pos.compare Pos.compare_cont andb].
        rewrite Hrun. cbn [bind]. rewrite Hall, Hreq. reflexivity.
      * rewrite Hlen. reflexivity.
  - intros make_request response requested H.
    assert (Hone : exists k, [1] = pages_from 1 k /\ (1 <= k <= 500)%nat
                             /\ NoDup [1]).
    { exists 1%nat. split; [reflexivity |]. split; [lia |].
      constructor; [intros [] | constructor]. }
    unfold get_linkage_targets in H.
    destruct (if truthy (make_request 1) then _ else _) as [u |];
      cbn [bind] in H; [| discriminate].
    destruct (if truthy (make_request 1)
              then py_in "total" (make_request 1) else Ok false)
      as [[|] |]; cbn [bind] in H;
      [| injection H as <- <-; exact Hone | discriminate].
    destruct (py_get (make_request 1) "total" (PInt 0)) as [total_v |];
      cbn [bind] in H; [| discriminate].
    destruct (py_get (make_request 1) "linkageTargets" (PList []))
      as [first_targets |]; cbn [bind] in H; [| discriminate].
    destruct (py_len first_targets) as [returned |]; cbn [bind] in H;
      [| discriminate].
    destruct (py_num total_v) as [total |]; cbn [bind] in H; [| discriminate].
    destruct ((total >? returned) && (returned >? 0));
      [| injection H as <- <-; exact Hone].
    destruct (fetch_remaining make_request total (Z.to_nat (max_pages - 1)) _)
      as [st |] eqn:Hrun; cbn [bind] in H; [| discriminate].
    destruct (make_request 1); try discriminate. injection H as <- <-.
    apply fetch_remaining_trace in Hrun. cbn [ps_requested ps_page] in Hrun.
    destruct Hrun as [k [Hreq Hk]].
    exists (S k). rewrite pages_from_S. cbn [Z.add Pos.add].
    split; [exact Hreq |]. split.
    + unfold max_pages in Hk. lia.
    + rewrite Hreq. change (NoDup (1 :: pages_from (1 + 1) k)).
      rewrite <- pages_from_S. apply pages_from_NoDup.
  - intros make_request d1 first total H1 Htot Hf Hne Hlt Hstop.
    unfold get_linkage_targets. rewrite H1.
    rewrite (dict_find_some_truthy _ _ _ Hf), (dict_mem_some _ _ _ Hf).
    unfold dict_get at 1. rewrite Hf. cbn [py_len bind py_in py_get].
    rewrite (dict_mem_some _ _ _ Htot).
    unfold dict_get. rewrite Htot, Hf. cbn [bind py_len py_num].
    replace (total >? Z.of_nat (List.length first)) with true
      by (symmetry; apply Z.gtb_lt; lia).
    replace (Z.of_nat (List.length first) >? 0) with true
      by (symmetry; apply Z.gtb_lt; destruct first; [congruence | cbn; lia]).
    cbn [andb].
    change (Z.to_nat (max_pages - 1)) with (S 498).
    rewrite fetch_remaining_stops.
    + reflexivity.
    + cbn [ps_returned]. lia.
    + unfold max_pages. cbn [ps_page]. lia.
    + exact Hstop.
Qed.

(** ** References *)

Lemma foldM_preserves {A S : Type} (R : S -> S -> Prop)
  (f : S -> A -> res S) :
  (forall s, R s s) ->
  (forall s1 s2 s3, R s1 s2 -> R s2 s3 -> R s1 s3) ->
  (forall s x s', f s x = Ok s' -> R s s') ->
  forall l s s', foldM f s l = Ok s' -> R s s'.
Proof.
  intros Hrefl Htrans Hstep. induction l as [| x l IH]; intros s s' H.
  - injection H as <-. apply Hrefl.
  - cbn [foldM] in H. destruct (f s x) as [s1 |] eqn:Hf; [| discriminate].
    cbn [bind] in H. eapply Htrans; [eapply Hstep; eassumption | eauto].
Qed.

Lemma same_ean_refl (a : pyval) (st : ref_state) : same_ean a st st.
Proof. unfold same_ean. auto. Qed.

Lemma same_ean_trans (a : pyval) (s1 s2 s3 : ref_state) :
  same_ean a s1 s2 -> same_ean a s2 s3 -> same_ean a s1 s3.
Proof.
  unfold same_ean. intros [E1 [F1 N1]] [E2 [F2 N2]].
  split; [congruence |]. split; [congruence | auto].
Qed.

Lemma is_ean_of_reference_row (a : pyval) (ty : string) (n m : pyval) :
  is_ean_of a (reference_row a ty n m)
  = py_eqb a a && (ty =? "EAN")%string.
Proof. reflexivity. Qed.

(** A reference of another type leaves the [EAN] references alone. *)
Lemma add_reference_other (a : pyval) (ty : string) (n m : pyval)
  (st st' : ref_state) (added : bool) :
  (ty =? "EAN")%string = false ->
  add_reference a ty n m st = Ok (st', added) ->
  same_ean a st st'.
Proof.
  intros Hty H. unfold add_reference in H.
  destruct (refs_mem _ _) as [[|] |]; cbn [bind] in H; try discriminate.
  - injection H as <- _. apply same_ean_refl.
  - injection H as <- _. unfold same_ean. cbn [references ean_added existing_refs].
    split; [| split; [reflexivity |]].
    + unfold ean_references. rewrite filter_app. cbn [filter].
      rewrite is_ean_of_reference_row, Hty, andb_false_r.
      apply app_nil_r.
    + intros Hn. unfold no_ean_key in *. apply Forall_app. split; [exact Hn |].
      constructor; [| constructor]. cbn [fst py_eqb]. exact Hty.
Qed.

Lemma trade_loop_same_ean (a : pyval) (items : list pyval)
  (st st' : ref_state) :
  trade_loop a items st = Ok st' -> same_ean a st st'.
Proof.
  unfold trade_loop.
  apply foldM_preserves;
    [apply same_ean_refl | apply same_ean_trans |].
  intros s x s' H.
  destruct (negb (stripped_number x =? "")%string);
    [| injection H as <-; apply same_ean_refl].
  destruct (add_reference a "TRADE" _ _ s) as [[s1 b] |] eqn:Ha;
    cbn [bind fst] in H; [| discriminate].
  injection H as <-. eapply add_reference_other; [| exact Ha]. reflexivity.
Qed.

Lemma named_loop_same_ean (a : pyval) (ty : string) (items : list pyval)
  (st st' : ref_state) :
  (ty =? "EAN")%string = false ->
  named_loop a ty items st = Ok st' -> same_ean a st st'.
Proof.
  intros Hty. unfold named_loop.
  apply foldM_preserves;
    [apply same_ean_refl | apply same_ean_trans |].
  intros s x s' H.
  destruct (match x with
            | PDict d => (dict_get d "articleNumber" (PStr ""),
                          dict_get d "mfrName" (PStr ""))
            | _ => (PStr (stripped_number x), PStr "")
            end) as [number mfr_name].
  destruct (truthy number); [| injection H as <-; apply same_ean_refl].
  destruct (add_reference a ty number mfr_name s) as [[s1 b] |] eqn:Ha;
    cbn [bind fst] in H; [| discriminate].
  injection H as <-. eapply add_reference_other; eassumption.
Qed.

Lemma when_present_same_ean (a : pyval) (article : pydict) (field : string)
  (body : list pyval -> ref_state -> res ref_state) (st st' : ref_state) :
  (forall items s s', body items s = Ok s' -> same_ean a s s') ->
  when_present article field body st = Ok st' -> same_ean a st st'.
Proof.
  intros Hb H. unfold when_present in H.
  destruct (dict_mem field article && truthy (dict_get article field PNone));
    [| injection H as <-; apply same_ean_refl].
  destruct (py_iter _) as [items |]; cbn [bind] in H; [| discriminate].
  eauto.
Qed.

(** With no [EAN] key known, the loop over [gtins] adds the first
    non-blank value and nothing else. *)
Lemma ean_loop_first (a : pyval) :
  forall gtins st st',
    no_ean_key (existing_refs st) ->
    ean_loop a gtins st = Ok st' ->
    match filter (fun n => negb (n =? "")%string)
            (map stripped_number gtins) with
    | [] => st' = st
    | c :: _ =>
        references st'
        = (references st ++ [reference_row a "EAN" (PStr c) (PStr "")])%list
        /\ ean_added st' = true
    end.
Proof.
  induction gtins as [| g gtins IH]; intros st st' Hn H.
  - injection H as <-. reflexivity.
  - cbn [ean_loop] in H. cbn [map filter].
    destruct (negb (stripped_number g =? "")%string);
      [| exact (IH _ _ Hn H)].
    unfold add_reference in H. unfold refs_mem in H.
    cbn [ref_key_hashable hashable andb bind] in H.
    replace (existsb _ (existing_refs st)) with false in H.
    + cbn in H. injection H as <-. split; reflexivity.
    + symmetry. apply not_true_is_false. intros Hex.
      apply existsb_exists in Hex. destruct Hex as [[[t n] m] [Hin He]].
      unfold no_ean_key in Hn. rewrite Forall_forall in Hn.
      specialize (Hn _ Hin). cbn [fst] in Hn.
      cbn [ref_key_eqb] in He. rewrite Hn in He. discriminate.
Qed.

Lemma same_ean_chain5 (a : pyval) (s0 s1 s2 s3 s4 s5 : ref_state) :
  same_ean a s0 s1 -> same_ean a s1 s2 -> same_ean a s2 s3 ->
  same_ean a s3 s4 -> same_ean a s4 s5 -> same_ean a s0 s5.
Proof. eauto using same_ean_trans. Qed.

(** The five blocks after the [gtins] block keep the [EAN] references. *)
Lemma other_blocks_same_ean (a : pyval) (article : pydict)
  (s0 s5 : ref_state) :
  (st2 <- when_present article "tradeNumbers" (trade_loop a) s0 ;;
   st3 <- when_present article "oemNumbers" (named_loop a "OE") st2 ;;
   st4 <- when_present article "comparableNumbers"
            (named_loop a "COMPARABLE") st3 ;;
   st5 <- when_present article "replacesArticles"
            (named_loop a "REPLACEMENT") st4 ;;
   when_present article "replacedByArticles" (named_loop a "REPLACED") st5)
  = Ok s5 ->
  same_ean a s0 s5.
Proof.
  intros H.
  destruct (when_present article "tradeNumbers" _ s0) as [s1 |] eqn:H1;
    cbn [bind] in H; [| discriminate].
  destruct (when_present article "oemNumbers" _ s1) as [s2 |] eqn:H2;
    cbn [bind] in H; [| discriminate].
  destruct (when_present article "comparableNumbers" _ s2) as [s3 |] eqn:H3;
    cbn [bind] in H; [| discriminate].
  destruct (when_present article "replacesArticles" _ s3) as [s4 |] eqn:H4;
    cbn [bind] in H; [| discriminate].
  apply (same_ean_chain5 a s0 s1 s2 s3 s4 s5).
  - eapply when_present_same_ean; [| exact H1].
    intros items s s'. apply trade_loop_same_ean.
  - eapply when_present_same_ean; [| exact H2].
    intros items s s'. apply named_loop_same_ean. reflexivity.
  - eapply when_present_same_ean; [| exact H3].
    intros items s s'. apply named_loop_same_ean. reflexivity.
  - eapply when_present_same_ean; [| exact H4].
    intros items s s'. apply named_loop_same_ean. reflexivity.
  - eapply when_present_same_ean; [| exact H].
    intros items s s'. apply named_loop_same_ean. reflexivity.
Qed.

(** One article: with the flag set nothing changes for [EAN]; with the
    flag clear the first candidate of the article is added. *)
Lemma process_reference_article_ean (a sup num : pyval) (st st' : ref_state)
  (art : pyval) :
  py_eqb a a = true ->
  process_reference_article a sup num st art = Ok st' ->
  (ean_added st = true ->
   ean_references a (references st') = ean_references a (references st)
   /\ ean_added st' = true)
  /\ (ean_added st = false -> no_ean_key (existing_refs st) ->
      ean_references a (references st')
      = (ean_references a (references st)
           ++ first_ean a (article_candidates sup num art))%list
      /\ match article_candidates sup num art with
         | [] => ean_added st' = false /\ no_ean_key (existing_refs st')
         | _ :: _ => ean_added st' = true
         end).
Proof.
  intros Ha H. destruct art as [| | | | | article]; try discriminate.
  cbn [process_reference_article article_candidates] in *.
  destruct (article_accepted sup num article).
  2:{ injection H as <-. split; [auto |]. intros Hf Hn.
      cbn [first_ean]. rewrite app_nil_r. auto. }
  match type of H with
  | (st1 <- ?blk ;; _) = _ => destruct blk as [st1 |] eqn:Hblk
  end; cbn [bind] in H; [| discriminate].
  apply other_blocks_same_ean in H. destruct H as [He [Hf Hk]].
  split.
  - intros Hadded. rewrite Hadded in Hblk. cbn [negb] in Hblk.
    rewrite andb_false_r in Hblk. injection Hblk as <-.
    split; congruence.
  - intros Hadded Hn. rewrite Hadded in Hblk. cbn [negb] in Hblk.
    rewrite andb_true_r in Hblk. unfold gtin_candidates.
    destruct (dict_mem "gtins" article
              && truthy (dict_get article "gtins" PNone)).
    + destruct (py_iter (dict_get article "gtins" PNone)) as [gtins |];
        cbn [bind] in Hblk; [| discriminate].
      pose proof (ean_loop_first a gtins st st1 Hn Hblk) as Hl.
      destruct (filter _ (map stripped_number gtins)) as [| c cs].
      * subst st1. cbn [first_ean]. rewrite app_nil_r.
        split; [exact He |]. split; [congruence | auto].
      * destruct Hl as [Hr Hadd]. cbn [first_ean]. split; [| congruence].
        rewrite He, Hr. unfold ean_references. rewrite filter_app.
        cbn [filter]. rewrite is_ean_of_reference_row, Ha. reflexivity.
    + injection Hblk as <-. cbn [first_ean]. rewrite app_nil_r.
      split; [exact He |]. split; [congruence | auto].
Qed.

(** The loop over the articles adds the first candidate of the call, if
    the flag was clear, and no other [EAN]. *)
Lemma articles_loop_ean (a sup num : pyval) :
  py_eqb a a = true ->
  forall items st st',
    foldM (process_reference_article a sup num) st items = Ok st' ->
    (ean_added st = true ->
     ean_references a (references st') = ean_references a (references st))
    /\ (ean_added st = false -> no_ean_key (existing_refs st) ->
        ean_references a (references st')
        = (ean_references a (references st)
             ++ first_ean a (ean_candidates sup num items))%list).
Proof.
  intros Ha. induction items as [| x items IH]; intros st st' H.
  - injection H as <-. split; [reflexivity |]. intros _ _.
    cbn. rewrite app_nil_r. reflexivity.
  - cbn [foldM] in H.
    destruct (process_reference_article a sup num st x) as [s1 |] eqn:Hx;
      cbn [bind] in H; [| discriminate].
    destruct (process_reference_article_ean a sup num st s1 x Ha Hx)
      as [Ht Hf].
    destruct (IH s1 st' H) as [IHt IHf].
    split.
    + intros Hadded. destruct (Ht Hadded) as [E1 A1].
      rewrite (IHt A1). exact E1.
    + intros Hadded Hn. destruct (Hf Hadded Hn) as [E1 C1].
      unfold ean_candidates. cbn [flat_map].
      destruct (article_candidates sup num x) as [| c cs].
      * destruct C1 as [A1 N1]. cbn [app].
        rewrite (IHf A1 N1), E1. cbn [first_ean]. rewrite app_nil_r.
        reflexivity.
      * rewrite (IHt C1), E1. reflexivity.
Qed.

Lemma ean_references_nil (a : pyval) (refs : list pydict) :
  ean_references a refs = [] ->
  Forall (fun r => is_ean_of a r = false) refs.
Proof.
  unfold ean_references. induction refs as [| r refs IH]; intros H.
  - constructor.
  - cbn [filter] in H. destruct (is_ean_of a r) eqn:Hr; [discriminate |].
    constructor; auto.
Qed.

(** [existing_refs] starts without an [EAN] key when the parent has no
    [EAN] reference yet. *)
Lemma collect_existing_refs_no_ean (a : pyval) (refs : list pydict)
  (existing : list ref_key) :
  ean_references a refs = [] ->
  collect_existing_refs a refs = Ok existing ->
  no_ean_key existing.
Proof.
  intros Hnil. apply ean_references_nil in Hnil. unfold collect_existing_refs.
  assert (Hgen : forall acc, no_ean_key acc ->
            foldM (fun acc ref =>
                     if py_eqb (dict_get ref "article_id" PNone) a
                     then refs_add acc (dict_get ref "ref_type" PNone,
                                        dict_get ref "number" PNone,
                                        dict_get ref "mfr_name" (PStr ""))
                     else Ok acc) acc refs = Ok existing ->
            no_ean_key existing).
  { induction Hnil as [| r refs Hr _ IH]; intros acc Hacc H.
    - injection H as <-. exact Hacc.
    - cbn [foldM] in H. unfold is_ean_of in Hr.
      destruct (py_eqb (dict_get r "article_id" PNone) a).
      + cbn [andb] in Hr. unfold refs_add, refs_mem in H.
        destruct (ref_key_hashable _); cbn [bind] in H; [| discriminate].
        destruct (existsb _ acc); [eauto |].
        eapply IH; [| exact H].
        unfold no_ean_key. apply Forall_app. split; [exact Hacc |].
        constructor; [exact Hr | constructor].
      + cbn [bind] in H. eauto. }
  apply Hgen. constructor.
Qed.

(** C2, as the code has it. One call of [extract_all_reference_numbers]
    on a list that holds no [EAN] reference of the parent leaves at most
    one: the first candidate of the call in input order, when there is a
    candidate, and none otherwise. *)
Theorem ean_first_candidate_per_call :
  forall (refs refs' : list pydict)
         (article_id reference_response supplier_id article_number : pyval),
    hashable article_id = true ->
    ean_references article_id refs = [] ->
    extract_all_reference_numbers refs article_id reference_response
      supplier_id article_number = Ok refs' ->
    ean_references article_id refs'
    = first_ean article_id
        (ean_candidates supplier_id article_number
           (response_articles reference_response))
    /\ (List.length (ean_references article_id refs') <= 1)%nat.
Proof.
  intros refs refs' a resp sup num Hh Hnil H.
  assert (Ha : py_eqb a a = true).
  { destruct a as [| b | z | s | |]; try discriminate; cbn.
    - reflexivity.
    - apply Bool.eqb_reflx.
    - apply Z.eqb_refl.
    - apply String.eqb_refl. }
  assert (Hlen : forall cs, (List.length (first_ean a cs) <= 1)%nat).
  { intros [| c cs]; cbn; lia. }
  assert (Hmain : ean_references a refs'
                  = first_ean a (ean_candidates sup num
                                   (response_articles resp))).
  2:{ split; [exact Hmain | rewrite Hmain; apply Hlen]. }
  unfold extract_all_reference_numbers in H.
  destruct (truthy resp) eqn:Ht; cbn [negb] in H.
  2:{ injection H as <-. rewrite Hnil.
      destruct resp as [| | | | | d]; try reflexivity.
      destruct d; [reflexivity | discriminate]. }
  destruct (py_in "articles" resp) as [has |] eqn:Hin; cbn [bind] in H;
    [| discriminate].
  destruct has; cbn [negb] in H.
  2:{ injection H as <-. rewrite Hnil.
      destruct resp as [| | | | | d]; try reflexivity.
      cbn [py_in] in Hin. injection Hin as Hin.
      unfold response_articles, dict_get. unfold dict_mem in Hin.
      destruct (dict_find "articles" d); [discriminate | reflexivity]. }
  destruct resp as [| | | | | d]; try discriminate.
  cbn [py_get bind response_articles] in *.
  destruct (truthy (dict_get d "articles" (PList []))) eqn:Hta;
    cbn [negb] in H.
  2:{ injection H as <-. rewrite Hnil.
      destruct (dict_get d "articles" (PList [])) as [| | | s | l | d'];
        try reflexivity.
      - destruct s; [reflexivity | discriminate].
      - destruct l; [reflexivity | discriminate].
      - destruct d'; [reflexivity | discriminate]. }
  destruct (py_len _) as [n |]; cbn [bind] in H; [| discriminate].
  destruct (collect_existing_refs a refs) as [existing |] eqn:Hex;
    cbn [bind] in H; [| discriminate].
  destruct (py_iter (dict_get d "articles" (PList []))) as [items |];
    cbn [bind] in H; [| discriminate].
  destruct (foldM _ _ items) as [st |] eqn:Hfold; cbn [bind] in H;
    [| discriminate].
  injection H as <-.
  destruct (articles_loop_ean a sup num Ha items _ st Hfold) as [_ Hf].
  cbn [ean_added existing_refs references] in Hf.
  rewrite (Hf eq_refl (collect_existing_refs_no_ean a refs existing Hnil Hex)).
  rewrite Hnil. reflexivity.
Qed.

(** ** Deduplication *)

Lemma py_eqb_canon (a b : pyval) :
  hashable a = true -> hashable b = true ->
  (py_eqb a b = true <-> canon a = canon b).
Proof.
  destruct a as [| x | x | x | |], b as [| y | y | y | |];
    try discriminate; intros _ _; cbn [py_eqb canon];
    try (split; [discriminate | discriminate]);
    try (split; reflexivity).
  - rewrite Bool.eqb_true_iff. split; [congruence |].
    destruct x, y; try reflexivity; discriminate.
  - rewrite Z.eqb_eq. split; congruence.
  - rewrite Z.eqb_eq. split; congruence.
  - rewrite Z.eqb_eq. split; congruence.
  - rewrite String.eqb_eq. split; congruence.
Qed.

Lemma tuple_eqb_canon :
  forall k1 k2,
    forallb hashable k1 = true -> forallb hashable k2 = true ->
    (tuple_eqb k1 k2 = true <-> map canon k1 = map canon k2).
Proof.
  induction k1 as [| a k1 IH]; intros [| b k2] H1 H2; cbn [tuple_eqb map].
  - split; reflexivity.
  - split; discriminate.
  - split; discriminate.
  - cbn [forallb] in H1, H2.
    apply andb_true_iff in H1. apply andb_true_iff in H2.
    destruct H1 as [Ha H1]. destruct H2 as [Hb H2].
    rewrite andb_true_iff, (py_eqb_canon a b Ha Hb), (IH k2 H1 H2).
    split; [intros [-> ->]; reflexivity | intros E; injection E; auto].
Qed.

Lemma same_key_canon (v w : pydict) :
  key_hashable v = true -> key_hashable w = true ->
  (same_key v w = true <-> canon_key v = canon_key w).
Proof. apply tuple_eqb_canon. Qed.

Lemma seen_canon (out : list pydict) (v : pydict) :
  Forall (fun w => key_hashable w = true) out ->
  key_hashable v = true ->
  (seen (map unique_key out) (unique_key v) = true
   <-> In (canon_key v) (map canon_key out)).
Proof.
  intros Hout Hv. unfold seen. rewrite existsb_exists. split.
  - intros [s [Hin He]]. apply in_map_iff in Hin.
    destruct Hin as [w [<- Hw]].
    rewrite Forall_forall in Hout.
    apply (same_key_canon w v (Hout _ Hw) Hv) in He.
    apply in_map_iff. exists w. auto.
  - intros Hin. apply in_map_iff in Hin. destruct Hin as [w [He Hw]].
    exists (unique_key w). split; [apply in_map; exact Hw |].
    rewrite Forall_forall in Hout.
    apply (same_key_canon w v (Hout _ Hw) Hv). exact He.
Qed.

Lemma subseq_In {A : Type} (l1 l2 : list A) (x : A) :
  subseq l1 l2 -> In x l1 -> In x l2.
Proof.
  induction 1 as [| y l1 l2 _ IH | y l1 l2 _ IH]; intros Hin.
  - exact Hin.
  - destruct Hin as [-> | Hin]; [left; reflexivity | right; auto].
  - right; auto.
Qed.

(** The loop, started with the rows [out0] already kept and their keys
    seen, keeps on top of them the first row of every new key. *)
Lemma dedupe_loop_spec :
  forall data out0,
    Forall (fun v => key_hashable v = true) data ->
    Forall (fun v => key_hashable v = true) out0 ->
    exists out1,
      dedupe_loop data (map unique_key out0) out0 = Ok (out0 ++ out1)%list
      /\ subseq out1 data
      /\ (forall w, In w out1 -> ~ In (canon_key w) (map canon_key out0))
      /\ NoDup (map canon_key out1)
      /\ (forall v, In v data ->
                    In (canon_key v) (map canon_key (out0 ++ out1)%list))
      /\ (forall w, In w out1 ->
            exists pre post,
              data = (pre ++ w :: post)%list
              /\ ~ In (canon_key w) (map canon_key pre)).
Proof.
  induction data as [| v rest IH]; intros out0 Hdata Hout.
  - exists []. cbn [dedupe_loop]. rewrite app_nil_r.
    split; [reflexivity |]. split; [constructor |].
    split; [intros w [] |]. split; [constructor |].
    split; [intros w [] | intros w []].
  - inversion Hdata as [| v' rest' Hv Hrest]; subst v' rest'.
    cbn [dedupe_loop]. change (forallb hashable (unique_key v))
      with (key_hashable v). rewrite Hv.
    destruct (seen (map unique_key out0) (unique_key v)) eqn:Hseen.
    + apply (seen_canon out0 v Hout Hv) in Hseen.
      destruct (IH out0 Hrest Hout)
        as [out1 [Hrun [Hsub [Hnew [Hnd [Hcov Hfirst]]]]]].
      exists out1. split; [exact Hrun |].
      split; [constructor; exact Hsub |].
      split; [exact Hnew |]. split; [exact Hnd |]. split.
      * intros x [<- | Hx]; [| auto].
        rewrite map_app. apply in_or_app. left. exact Hseen.
      * intros w Hw. destruct (Hfirst w Hw) as [pre [post [-> Hpre]]].
        exists (v :: pre), post. split; [reflexivity |].
        cbn [map]. intros [He | Hin]; [| auto].
        apply (Hnew w Hw). rewrite <- He. exact Hseen.
    + assert (Hnotin : ~ In (canon_key v) (map canon_key out0)).
      { intros Hin. apply (seen_canon out0 v Hout Hv) in Hin. congruence. }
      assert (Hout' : Forall (fun v => key_hashable v = true)
                        (out0 ++ [v])%list).
      { apply Forall_app. split; [exact Hout | constructor; auto]. }
      destruct (IH (out0 ++ [v])%list Hrest Hout')
        as [out1 [Hrun [Hsub [Hnew [Hnd [Hcov Hfirst]]]]]].
      rewrite map_app in Hrun. cbn [map] in Hrun.
      rewrite <- app_assoc in Hrun. cbn [app] in Hrun.
      exists (v :: out1). split; [exact Hrun |].
      split; [constructor; exact Hsub |].
      assert (Hvnew : forall w, In w out1 -> canon_key w <> canon_key v).
      { intros w Hw He. apply (Hnew w Hw). rewrite map_app.
        apply in_or_app. right. left. symmetry. exact He. }
      split; [| split; [| split]].
      * intros w [<- | Hw]; [exact Hnotin |].
        intros Hin. apply (Hnew w Hw). rewrite map_app.
        apply in_or_app. left. exact Hin.
      * cbn [map]. constructor; [| exact Hnd].
        intros Hin. apply in_map_iff in Hin. destruct Hin as [w [He Hw]].
        exact (Hvnew w Hw He).
      * intros x [<- | Hx].
        -- rewrite map_app. apply in_or_app. right. left. reflexivity.
        -- specialize (Hcov x Hx). rewrite <- app_assoc in Hcov. exact Hcov.
      * intros w [<- | Hw].
        -- exists [], rest. split; [reflexivity | intros []].
        -- destruct (Hfirst w Hw) as [pre [post [-> Hpre]]].
           exists (v :: pre), post. split; [reflexivity |].
           cbn [map]. intros [He | Hin]; [| auto].
           exact (Hvnew w Hw (eq_sym He)).
Qed.

Lemma unique_key_ignores (v : pydict) (field : string) (x : pyval) :
  existsb (String.eqb field) key_fields = false ->
  unique_key (dict_set v field x) = unique_key v.
Proof.
  intros Hf. unfold unique_key. apply map_ext_in. intros f Hin.
  assert (Hne : (field =? f)%string = false).
  { destruct (field =? f)%string eqn:E; [| reflexivity].
    rewrite <- Hf. symmetry. apply existsb_exists. exists f. auto. }
  unfold dict_get. clear Hin Hf.
  induction v as [| [k w] v IH]; cbn [dict_set dict_find].
  - rewrite Hne. reflexivity.
  - destruct (k =? field)%string eqn:Ek.
    + apply String.eqb_eq in Ek. subst k. cbn [dict_find]. rewrite Hne.
      reflexivity.
    + cbn [dict_find]. destruct (k =? f)%string; [reflexivity | exact IH].
Qed.

(** Two keys built over the same fields are equal exactly when the rows
    agree, under [==], on each of the fields. *)
Lemma tuple_eqb_fields (fields : list string) (v w : pydict) :
  tuple_eqb (map (fun f => dict_get v f (PStr "")) fields)
            (map (fun f => dict_get w f (PStr "")) fields) = true
  <-> forall f, In f fields ->
                py_eqb (dict_get v f (PStr "")) (dict_get w f (PStr "")) = true.
Proof.
  induction fields as [| g fields IH]; cbn [map tuple_eqb].
  - split; [intros _ f [] | reflexivity].
  - rewrite andb_true_iff, IH. split.
    + intros [Hg Hrest] f [<- | Hf]; [exact Hg | exact (Hrest f Hf)].
    + intros H. split; [apply H; left; reflexivity |].
      intros f Hf. apply H. right. exact Hf.
Qed.

Lemma same_key_fields (v w : pydict) :
  same_key v w = true
  <-> forall f,
        In f ["article_id"; "vehicle_mfr_name"; "model_series_name";
              "type_name"; "year_from"; "year_to"; "engine_cc"; "power_hp";
              "fuel_type"; "body_style"; "drive_type"; "engine_code"] ->
        py_eqb (dict_get v f (PStr "")) (dict_get w f (PStr "")) = true.
Proof. exact (tuple_eqb_fields key_fields v w). Qed.

Lemma key_hashable_fields (v : pydict) :
  key_hashable v = true
  <-> forall f,
        In f ["article_id"; "vehicle_mfr_name"; "model_series_name";
              "type_name"; "year_from"; "year_to"; "engine_cc"; "power_hp";
              "fuel_type"; "body_style"; "drive_type"; "engine_code"] ->
        hashable (dict_get v f (PStr "")) = true.
Proof.
  unfold key_hashable, unique_key. rewrite forallb_forall. split.
  - intros H f Hf. apply H. apply in_map_iff. exists f. auto.
  - intros H x Hx. apply in_map_iff in Hx. destruct Hx as [f [<- Hf]].
    exact (H f Hf).
Qed.

Lemma dict_find_set_same (d : pydict) (k : string) (v : pyval) :
  dict_find k (dict_set d k v) = Some v.
Proof.
  induction d as [| [k' v'] d IH]; cbn [dict_set dict_find].
  - rewrite String.eqb_refl. reflexivity.
  - destruct (k' =? k)%string eqn:Ek; cbn [dict_find].
    + rewrite String.eqb_refl. reflexivity.
    + rewrite Ek. exact IH.
Qed.

Lemma dict_find_set_other (d : pydict) (k k' : string) (v : pyval) :
  (k =? k')%string = false ->
  dict_find k' (dict_set d k v) = dict_find k' d.
Proof.
  intros Hne. induction d as [| [k0 v0] d IH]; cbn [dict_set dict_find].
  - rewrite Hne. reflexivity.
  - destruct (k0 =? k)%string eqn:Ek; cbn [dict_find].
    + apply String.eqb_eq in Ek. subst k0. rewrite Hne. reflexivity.
    + destruct (k0 =? k')%string; [reflexivity | exact IH].
Qed.

Lemma dict_get_set_same (d : pydict) (k : string) (v default : pyval) :
  dict_get (dict_set d k v) k default = v.
Proof. unfold dict_get. rewrite dict_find_set_same. reflexivity. Qed.

Lemma dict_get_set_other (d : pydict) (k k' : string) (v default : pyval) :
  (k =? k')%string = false ->
  dict_get (dict_set d k v) k' default = dict_get d k' default.
Proof.
  intros H. unfold dict_get. rewrite (dict_find_set_other _ _ _ _ H).
  reflexivity.
Qed.

(** C3. The deduplication of [export_vehicles_csv], on rows whose twelve
    key fields are hashable (as the strings and numbers of the rows are).
    Two rows are the same vehicle when they agree, under [==] and with a
    missing field read as the empty string, on each of the twelve fields
    listed.  The loop returns a selection of the input in input order;
    every input row has a kept row that agrees with it on the twelve
    fields; no two kept rows agree on all twelve; and a kept row is the
    first row of the input that agrees with it.  [kba_numbers] and
    [other_restrictions] are no part of the key: a row followed by one
    that differs in those two alone collapses to the first row, which
    keeps its own [kba_numbers].  Each of the twelve fields is part of
    it: a row followed by one that differs in that field is kept, and so
    is the other. *)
Theorem dedupe_first_occurrence_wins :
  let fields :=
    ["article_id"; "vehicle_mfr_name"; "model_series_name"; "type_name";
     "year_from"; "year_to"; "engine_cc"; "power_hp"; "fuel_type";
     "body_style"; "drive_type"; "engine_code"] in
  let agree (v w : pydict) : Prop :=
    forall f, In f fields ->
      py_eqb (dict_get v f (PStr "")) (dict_get w f (PStr "")) = true in
  let hashable_key (v : pydict) : Prop :=
    forall f, In f fields -> hashable (dict_get v f (PStr "")) = true in
  (forall data,
      Forall hashable_key data ->
      exists out,
        deduplicate_vehicles data = Ok out
        /\ subseq out data
        /\ (forall v, In v data -> exists w, In w out /\ agree w v)
        /\ (forall pre w post,
               out = (pre ++ w :: post)%list ->
               forall x, In x pre -> ~ agree x w)
        /\ (forall w, In w out ->
               exists pre post,
                 data = (pre ++ w :: post)%list
                 /\ forall x, In x pre -> ~ agree x w))
  /\ (forall v kba restrictions,
         hashable_key v ->
         deduplicate_vehicles
           [v; dict_set (dict_set v "kba_numbers" kba)
                 "other_restrictions" restrictions]
         = Ok [v])
  /\ (forall v f x,
         hashable_key v -> In f fields -> hashable x = true ->
         py_eqb (dict_get v f (PStr "")) x = false ->
         deduplicate_vehicles [v; dict_set v f x]
         = Ok [v; dict_set v f x]).
Proof.
  cbv zeta. split; [| split].
  - intros data Hdata0.
    assert (Hdata : Forall (fun v => key_hashable v = true) data).
    { apply Forall_forall. intros v Hv. apply key_hashable_fields.
      rewrite Forall_forall in Hdata0. exact (Hdata0 v Hv). }
    clear Hdata0.
    destruct (dedupe_loop_spec data [] Hdata (Forall_nil _))
      as [out [Hrun [Hsub [_ [Hnd [Hcov Hfirst]]]]]].
    cbn [map app] in Hrun, Hcov.
    pose proof (proj1 (Forall_forall _ data) Hdata) as Hh.
    assert (Hho : forall w, In w out -> key_hashable w = true).
    { intros w Hw. apply Hh. eapply subseq_In; eassumption. }
    exists out. split; [exact Hrun |]. split; [exact Hsub |].
    split; [| split].
    + intros v Hv. specialize (Hcov v Hv). apply in_map_iff in Hcov.
      destruct Hcov as [w [He Hw]]. exists w. split; [exact Hw |].
      apply same_key_fields. apply same_key_canon; auto.
    + intros pre w post -> x Hx Hagree.
      rewrite map_app in Hnd. cbn [map] in Hnd.
      apply NoDup_remove_2 in Hnd.
      apply same_key_fields in Hagree.
      apply same_key_canon in Hagree;
        [| apply Hho, in_or_app; left; exact Hx
         | apply Hho, in_or_app; right; left; reflexivity].
      apply Hnd. apply in_or_app. left. rewrite <- Hagree.
      apply in_map. exact Hx.
    + intros w Hw. destruct (Hfirst w Hw) as [pre [post [Hd Hpre]]].
      exists pre, post. split; [exact Hd |]. intros x Hx Hagree.
      apply same_key_fields in Hagree.
      apply same_key_canon in Hagree;
        [| apply Hh; rewrite Hd; apply in_or_app; left; exact Hx
         | apply Hho; exact Hw].
      apply Hpre. rewrite <- Hagree. apply in_map. exact Hx.
  - intros v kba restrictions Hv0.
    pose proof (proj2 (key_hashable_fields v) Hv0) as Hv.
    unfold deduplicate_vehicles. cbn [dedupe_loop].
    rewrite !unique_key_ignores by reflexivity.
    change (forallb hashable (unique_key v)) with (key_hashable v).
    rewrite Hv. cbn [seen existsb app].
    replace (tuple_eqb (unique_key v) (unique_key v)) with true
      by (symmetry; apply (same_key_canon v v Hv Hv); reflexivity).
    reflexivity.
  - intros v f x Hv0 Hf Hx Hne.
    pose proof (proj2 (key_hashable_fields v) Hv0) as Hv.
    assert (Hv' : key_hashable (dict_set v f x) = true).
    { apply key_hashable_fields. intros g Hg.
      destruct (f =? g)%string eqn:E.
      - apply String.eqb_eq in E. subst g. rewrite dict_get_set_same.
        exact Hx.
      - rewrite (dict_get_set_other _ _ _ _ _ E). exact (Hv0 g Hg). }
    assert (Hdiff : tuple_eqb (unique_key v) (unique_key (dict_set v f x))
                    = false).
    { apply not_true_is_false. intros He.
      pose proof (proj1 (same_key_fields v (dict_set v f x)) He f Hf) as Hq.
      rewrite dict_get_set_same in Hq. congruence. }
    unfold deduplicate_vehicles. cbn [dedupe_loop].
    change (forallb hashable (unique_key v)) with (key_hashable v).
    change (forallb hashable (unique_key (dict_set v f x)))
      with (key_hashable (dict_set v f x)).
    rewrite Hv. cbn [seen existsb app]. rewrite Hv'.
    cbn [seen existsb]. rewrite Hdiff. reflexivity.
Qed.

(** ** Correlation *)

Lemma foldM_app {A S : Type} (f : S -> A -> res S) (l1 l2 : list A) (s : S) :
  foldM f s (l1 ++ l2)%list = (s' <- foldM f s l1 ;; foldM f s' l2).
Proof.
  revert s. induction l1 as [| x l1 IH]; intros s; cbn [foldM app bind].
  - reflexivity.
  - destruct (f s x) as [s1 |]; cbn [bind]; [apply IH | reflexivity].
Qed.

Lemma kset_truthy (lookup : kdict pyval) (k v : pyval) :
  Forall (fun kv => truthy (snd kv) = true) lookup ->
  truthy v = true ->
  Forall (fun kv => truthy (snd kv) = true) (kset lookup k v).
Proof.
  intros Hl Hv. induction Hl as [| [k' v'] lookup Hkv Hrest IH]; cbn [kset].
  - constructor; [exact Hv | constructor].
  - destruct (py_eqb k' k); constructor; auto.
Qed.

(** Every target stored in [linkage_targets_lookup] is truthy: it has the
    key [linkageTargetId]. *)
Lemma build_lookup_truthy (targets : list pyval) (lookup : kdict pyval) :
  build_lookup targets = Ok lookup ->
  Forall (fun kv => truthy (snd kv) = true) lookup.
Proof.
  unfold build_lookup.
  assert (Hgen : forall acc,
            Forall (fun kv => truthy (snd kv) = true) acc ->
            foldM lookup_target acc targets = Ok lookup ->
            Forall (fun kv => truthy (snd kv) = true) lookup).
  { induction targets as [| t targets IH]; intros acc Hacc H.
    - injection H as <-. exact Hacc.
    - cbn [foldM] in H.
      destruct (lookup_target acc t) as [acc' |] eqn:Ht; cbn [bind] in H;
        [| discriminate].
      apply (IH acc'); [| exact H].
      unfold lookup_target in Ht.
      destruct t as [| | | | | d]; try discriminate.
      cbn [py_get bind] in Ht.
      destruct (truthy (dict_get d "linkageTargetId" PNone)) eqn:Hid;
        [| injection Ht as <-; exact Hacc].
      destruct (hashable _); [| discriminate]. injection Ht as <-.
      apply kset_truthy; [exact Hacc |].
      destruct d; [discriminate Hid | reflexivity]. }
  apply Hgen. constructor.
Qed.

Lemma kfind_In {V : Type} (k : pyval) (d : kdict V) (v : V) :
  kfind k d = Some v -> exists k', In (k', v) d.
Proof.
  induction d as [| [k' v'] d IH]; cbn [kfind]; [discriminate |].
  destruct (py_eqb k' k).
  - intros [= ->]. exists k'. left. reflexivity.
  - intros H. destruct (IH H) as [k'' Hin]. exists k''. right. exact Hin.
Qed.

(** C1. A source record whose correlation hint is a key of the lookup
    built from the detail records takes that detail: the choice is the
    same whatever the description and specification indexes hold, and
    the row written is the merge of the source row with that detail. *)
Theorem direct_match_takes_precedence :
  forall (targets : list pyval) (lookup : kdict pyval)
         (linkage_target_id target : pyval) (info : vehicle_info),
    build_lookup targets = Ok lookup ->
    klookup linkage_target_id lookup = Ok (Some target) ->
    forall lookup_by_desc lookup_by_specs : sindex,
      select_target lookup lookup_by_desc lookup_by_specs
        linkage_target_id info = Ok target
      /\ enrich_vehicle lookup lookup_by_desc lookup_by_specs
           (linkage_target_id, info)
         = enrich_row (info_row info) target.
Proof.
  intros targets lookup id target info Hb Hk bd bs.
  assert (Ht : truthy target = true).
  { unfold klookup in Hk. destruct (hashable id); [| discriminate].
    injection Hk as Hk. apply kfind_In in Hk. destruct Hk as [k' Hin].
    pose proof (build_lookup_truthy _ _ Hb) as Hall.
    rewrite Forall_forall in Hall. exact (Hall _ Hin). }
  assert (Hs : select_target lookup bd bs id info = Ok target).
  { unfold select_target. rewrite Hk. cbn [bind]. rewrite Ht. reflexivity. }
  split; [exact Hs |].
  unfold enrich_vehicle. rewrite Hs. cbn [bind]. rewrite Ht. reflexivity.
Qed.

Lemma scan_accepts_string (type_name power_hp : string) (d : pydict)
  (ds : string) :
  dict_get d "description" (PStr "") = PStr ds ->
  scan_accepts type_name power_hp (PDict d)
  = Ok ((str_contains type_name ds || str_contains ds type_name)
        && (str_len type_name >? 5)
        && ((power_hp =? py_str (dict_get d "horsePowerFrom" (PStr "")))%string
            || (py_str (dict_get d "horsePowerFrom" (PStr "")) =? "")%string)).
Proof.
  intros Hd. unfold scan_accepts. cbn [py_get bind]. rewrite Hd.
  cbn [py_in bind].
  destruct (str_contains type_name ds); cbn [bind orb andb].
  - destruct (str_len type_name >? 5); reflexivity.
  - destruct (str_contains ds type_name); cbn [andb];
      [destruct (str_len type_name >? 5) |]; reflexivity.
Qed.

(** The scan returns the value it started with or the head of a bucket
    it accepted. *)
Lemma scan_descriptions_result (mfr_id : pyval) (type_name power_hp : string)
  (linkage_target : pyval) :
  forall items t,
    scan_descriptions mfr_id type_name power_hp items linkage_target = Ok t ->
    t = linkage_target
    \/ exists key rest,
         In (key, t :: rest) items
         /\ startswith key (py_str mfr_id ++ "_") = true
         /\ scan_accepts type_name power_hp t = Ok true.
Proof.
  induction items as [| [key targets] items IH]; intros t H.
  - injection H as <-. left. reflexivity.
  - cbn [scan_descriptions] in H.
    assert (Hrest : scan_descriptions mfr_id type_name power_hp items
                      linkage_target = Ok t ->
                    t = linkage_target
                    \/ exists key0 rest,
                         In (key0, t :: rest) ((key, targets) :: items)
                         /\ startswith key0 (py_str mfr_id ++ "_") = true
                         /\ scan_accepts type_name power_hp t = Ok true).
    { intros H'. destruct (IH t H') as [-> | [k [r [Hin Hok]]]];
        [left; reflexivity |].
      right. exists k, r. split; [right; exact Hin | exact Hok]. }
    destruct targets as [| target0 more]; [auto |].
    destruct (startswith key (py_str mfr_id ++ "_")) eqn:Hp; [| auto].
    destruct (scan_accepts type_name power_hp target0) as [[|] |] eqn:Ha;
      cbn [bind] in H; [| auto | discriminate].
    injection H as <-. right. exists key, more.
    split; [left; reflexivity | auto].
Qed.

(** C7, as the code has it. A bucket head with a string description is
    accepted by the scan exactly when the description is inside the
    source's [type_name] or the other way round, the source's [type_name]
    is longer than five characters, and the detail's power rating, as a
    string, equals the source's or is empty; and whatever the scan
    selects is the head of a bucket whose key starts with the source's
    manufacturer id and which passed that test. *)
Theorem scan_accepts_exactly_when :
  (forall (type_name power_hp : string) (d : pydict) (ds : string),
      dict_get d "description" (PStr "") = PStr ds ->
      let target_power := py_str (dict_get d "horsePowerFrom" (PStr "")) in
      scan_accepts type_name power_hp (PDict d) = Ok true
      <-> ((str_contains type_name ds = true
            \/ str_contains ds type_name = true)
           /\ 5 < str_len type_name
           /\ (power_hp = target_power \/ target_power = "")))
  /\ (forall (mfr_id : pyval) (type_name power_hp : string)
             (lookup_by_desc : sindex) (t : pyval),
         scan_descriptions mfr_id type_name power_hp lookup_by_desc
           (PDict []) = Ok t ->
         truthy t = true ->
         exists key rest,
           In (key, t :: rest) lookup_by_desc
           /\ startswith key (py_str mfr_id ++ "_") = true
           /\ scan_accepts type_name power_hp t = Ok true).
Proof.
  split.
  - intros type_name power_hp d ds Hd target_power.
    rewrite (scan_accepts_string type_name power_hp d ds Hd).
    fold target_power. split.
    + intros [= H]. apply andb_true_iff in H. destruct H as [H Hp].
      apply andb_true_iff in H. destruct H as [Hs Hl].
      apply orb_true_iff in Hs. apply orb_true_iff in Hp.
      split; [exact Hs |]. split; [apply Z.gtb_lt in Hl; lia |].
      destruct Hp as [Hp | Hp]; apply String.eqb_eq in Hp; auto.
    + intros [Hs [Hl Hp]]. f_equal.
      apply andb_true_iff. split; [apply andb_true_iff; split |].
      * apply orb_true_iff. exact Hs.
      * apply Z.gtb_lt. lia.
      * apply orb_true_iff.
        destruct Hp as [Hp | Hp]; [left | right]; apply String.eqb_eq; auto.
  - intros mfr_id type_name power_hp bd t H Ht.
    destruct (scan_descriptions_result _ _ _ _ _ _ H) as [-> | Hex];
      [discriminate Ht | exact Hex].
Qed.

Lemma sfind_sappend (d : sindex) (k key : string) (x : pyval) :
  sfind key (sappend d k x)
  = if (k =? key)%string
    then Some (match sfind k d with
               | Some b => (b ++ [x])%list
               | None => [x]
               end)
    else sfind key d.
Proof.
  induction d as [| [k' v] d IH]; cbn [sappend sfind].
  - reflexivity.
  - destruct (k' =? k)%string eqn:Ek; cbn [sfind].
    + apply String.eqb_eq in Ek. subst k'.
      destruct (k =? key)%string; reflexivity.
    + rewrite IH. destruct (k' =? key)%string eqn:Ekey; [| reflexivity].
      apply String.eqb_eq in Ekey. subst key.
      rewrite String.eqb_sym, Ek. reflexivity.
Qed.

Lemma keys_sappend (d : sindex) (k : string) (x : pyval) (key : string) :
  In key (map fst (sappend d k x)) -> key = k \/ In key (map fst d).
Proof.
  induction d as [| [k' v] d IH]; cbn [sappend map fst In].
  - intros [<- | []]. left. reflexivity.
  - destruct (k' =? k)%string; cbn [map fst In]; [auto |].
    intros [<- | H]; [auto |]. destruct (IH H); auto.
Qed.

Lemma NoDup_sappend (d : sindex) (k : string) (x : pyval) :
  NoDup (map fst d) -> NoDup (map fst (sappend d k x)).
Proof.
  induction d as [| [k' v] d IH]; cbn [sappend map fst]; intros Hnd.
  - constructor; [intros [] | constructor].
  - inversion Hnd as [| a l Hnotin Hrest]; subst a l.
    destruct (k' =? k)%string eqn:Ek; cbn [map fst].
    + constructor; assumption.
    + constructor; [| auto].
      intros Hin. apply keys_sappend in Hin. destruct Hin as [-> | Hin].
      * rewrite String.eqb_refl in Ek. discriminate.
      * contradiction.
Qed.

Lemma In_sfind (d : sindex) (k : string) (b : list pyval) :
  NoDup (map fst d) -> In (k, b) d -> sfind k d = Some b.
Proof.
  induction d as [| [k' v] d IH]; cbn [map fst sfind]; intros Hnd Hin.
  - destruct Hin.
  - inversion Hnd as [| a l Hnotin Hrest]; subst a l.
    destruct Hin as [[= -> ->] | Hin].
    + rewrite String.eqb_refl. reflexivity.
    + destruct (k' =? k)%string eqn:Ek; [| auto].
      apply String.eqb_eq in Ek. subst k'. exfalso. apply Hnotin.
      apply in_map_iff. exists (k, b). auto.
Qed.

Lemma sfind_In (d : sindex) (k : string) (b : list pyval) :
  sfind k d = Some b -> In (k, b) d.
Proof.
  induction d as [| [k' v] d IH]; cbn [sfind]; [discriminate |].
  destruct (k' =? k)%string eqn:Ek.
  - apply String.eqb_eq in Ek. subst k'. intros [= ->]. left. reflexivity.
  - intros H. right. auto.
Qed.

Lemma filter_head {A : Type} (p : A -> bool) :
  forall (l : list A) (x : A) (r : list A),
    filter p l = x :: r ->
    exists pre post,
      l = (pre ++ x :: post)%list /\ p x = true
      /\ forall y, In y pre -> p y = false.
Proof.
  induction l as [| a l IH]; intros x r H; [discriminate |].
  cbn [filter] in H. destruct (p a) eqn:Ha.
  - injection H as -> _. exists [], l.
    split; [reflexivity |]. split; [exact Ha | intros y []].
  - destruct (IH x r H) as [pre [post [-> [Hx Hpre]]]].
    exists (a :: pre), post. split; [reflexivity |]. split; [exact Hx |].
    intros y [<- | Hy]; auto.
Qed.

(** What [index_target] does to [lookup_by_desc]. *)
Lemma index_target_desc (bd bs bd' bs' : sindex) (t : pyval) :
  index_target (bd, bs) t = Ok (bd', bs') ->
  bd' = match target_desc_key t with
        | Some k => sappend bd k t
        | None => bd
        end.
Proof.
  unfold index_target, target_desc_key.
  destruct t as [| | | | | d]; try discriminate.
  cbn [py_get bind].
  destruct (dict_get d "description" (PStr "")) as [| | | s | |];
    try discriminate.
  cbn [py_strip bind].
  destruct (py_strip (dict_get d "vehicleModelSeriesName" (PStr "")));
    cbn [bind]; [| discriminate].
  intros [= <- _].
  destruct (negb (strip s =? "")%string
            && truthy (dict_get d "mfrId" (PStr ""))); reflexivity.
Qed.

Lemma groups_by_desc_step (seen_targets : list pyval) (bd bs bd' bs' : sindex)
  (t : pyval) :
  groups_by_desc seen_targets bd ->
  index_target (bd, bs) t = Ok (bd', bs') ->
  groups_by_desc (seen_targets ++ [t]) bd'.
Proof.
  intros [Hnd Hf] Hi. apply index_target_desc in Hi. subst bd'.
  unfold groups_by_desc, bucket_of.
  destruct (target_desc_key t) as [k |] eqn:Hk.
  - split; [apply NoDup_sappend; exact Hnd |].
    intros key. rewrite sfind_sappend, filter_app. cbn [filter].
    unfold has_desc_key at 2. rewrite Hk.
    destruct (k =? key)%string eqn:Ek.
    + apply String.eqb_eq in Ek. subst key. rewrite Hf. unfold bucket_of.
      destruct (filter (has_desc_key k) seen_targets); reflexivity.
    + rewrite app_nil_r. apply Hf.
  - split; [exact Hnd |].
    intros key. rewrite filter_app. cbn [filter].
    unfold has_desc_key at 2. rewrite Hk. rewrite app_nil_r. apply Hf.
Qed.

(** [lookup_by_desc], once built, groups all the targets by their key. *)
Lemma build_indexes_groups (targets : list pyval) (bd bs : sindex) :
  build_indexes targets = Ok (bd, bs) -> groups_by_desc targets bd.
Proof.
  unfold build_indexes.
  assert (Hgen : forall rest seen_targets idx idx',
            groups_by_desc seen_targets (fst idx) ->
            foldM index_target idx rest = Ok idx' ->
            groups_by_desc (seen_targets ++ rest) (fst idx')).
  { induction rest as [| t rest IH]; intros seen_targets idx idx' Hg H.
    - injection H as <-. rewrite app_nil_r. exact Hg.
    - cbn [foldM] in H.
      destruct (index_target idx t) as [[bd1 bs1] |] eqn:Ht;
        cbn [bind] in H; [| discriminate].
      destruct idx as [bd0 bs0]. cbn [fst] in Hg.
      pose proof (groups_by_desc_step _ _ _ _ _ _ Hg Ht) as Hg1.
      specialize (IH (seen_targets ++ [t])%list (bd1, bs1) idx' Hg1 H).
      rewrite <- app_assoc in IH. exact IH. }
  intros H.
  apply (Hgen targets [] ([], []) (bd, bs)); [| exact H].
  split; [constructor | intros key; reflexivity].
Qed.

(** C9. Whatever the description tier selects, by the exact key or by the
    scan, is the first detail of the input filed under its index key: a
    later detail of the same manufacturer id and description is never
    selected.  In the instance, the first of two such details fails the
    power guard of the scan and the second would pass it; the tier
    selects nothing. *)
Theorem description_tier_selects_first_of_group :
  (forall (targets : list pyval) (lookup_by_desc lookup_by_specs : sindex)
          (mfr_id : pyval) (type_name power_hp : string) (t : pyval),
      build_indexes targets = Ok (lookup_by_desc, lookup_by_specs) ->
      match_by_description lookup_by_desc mfr_id type_name power_hp
        (PDict []) = Ok t ->
      truthy t = true ->
      exists key pre post,
        targets = (pre ++ t :: post)%list
        /\ target_desc_key t = Some key
        /\ forall x, In x pre -> target_desc_key x <> Some key)
  /\ (let first := PDict [("mfrId", PInt 7); ("description", PStr "Panda 1.2");
                          ("horsePowerFrom", PInt 75)] in
      let second := PDict [("mfrId", PInt 7);
                           ("description", PStr "Panda 1.2");
                           ("horsePowerFrom", PInt 69)] in
      build_indexes [first; second]
      = Ok ([("7_Panda 1.2", [first; second])], [])
      /\ scan_accepts "Panda 1.2 Dynamic" "69" second = Ok true
      /\ match_by_description [("7_Panda 1.2", [first; second])] (PInt 7)
           "Panda 1.2 Dynamic" "69" (PDict []) = Ok (PDict [])).
Proof.
  split.
  - intros targets bd bs mfr_id type_name power_hp t Hb Hm Ht.
    destruct (build_indexes_groups _ _ _ Hb) as [Hnd Hf].
    assert (Hin : exists key rest, In (key, t :: rest) bd).
    { unfold match_by_description in Hm.
      destruct (truthy mfr_id && negb (type_name =? "")%string).
      2:{ injection Hm as <-. discriminate Ht. }
      destruct (sfind (desc_key mfr_id type_name) bd) as [[| t0 more] |]
        eqn:Hs.
      - apply scan_descriptions_result in Hm.
        destruct Hm as [-> | [k [r [Hin _]]]]; [discriminate Ht | eauto].
      - injection Hm as <-. apply sfind_In in Hs. eauto.
      - apply scan_descriptions_result in Hm.
        destruct Hm as [-> | [k [r [Hin _]]]]; [discriminate Ht | eauto]. }
    destruct Hin as [key [rest Hin]].
    apply (In_sfind _ _ _ Hnd) in Hin. rewrite Hf in Hin.
    unfold bucket_of in Hin.
    destruct (filter (has_desc_key key) targets) as [| t' r] eqn:Hfilter;
      [discriminate |].
    injection Hin as -> ->.
    destruct (filter_head _ _ _ _ Hfilter) as [pre [post [-> [Hx Hpre]]]].
    exists key, pre, post. split; [reflexivity |].
    unfold has_desc_key in Hx.
    destruct (target_desc_key t) as [k |] eqn:Hk; [| discriminate].
    apply String.eqb_eq in Hx. subst k. split; [reflexivity |].
    intros x Hxin Hkx. specialize (Hpre x Hxin).
    unfold has_desc_key in Hpre. rewrite Hkx, String.eqb_refl in Hpre.
    discriminate.
  - cbv zeta. split; [| split]; vm_compute; reflexivity.
Qed.

Lemma mapM_length {A B : Type} (f : A -> res B) :
  forall l r, mapM f l = Ok r -> List.length r = List.length l.
Proof.
  induction l as [| x l IH]; intros r H.
  - injection H as <-. reflexivity.
  - cbn [mapM] in H. destruct (f x) as [y |]; cbn [bind] in H;
      [| discriminate].
    destruct (mapM f l) as [ys |]; cbn [bind] in H; [| discriminate].
    injection H as <-. cbn [List.length]. f_equal. auto.
Qed.

Lemma mapM_In {A B : Type} (f : A -> res B) :
  forall l r x, mapM f l = Ok r -> In x l ->
                exists y, f x = Ok y /\ In y r.
Proof.
  induction l as [| a l IH]; intros r x H Hin; [destruct Hin |].
  cbn [mapM] in H. destruct (f a) as [y |] eqn:Hf; cbn [bind] in H;
    [| discriminate].
  destruct (mapM f l) as [ys |]; cbn [bind] in H; [| discriminate].
  injection H as <-. destruct Hin as [<- | Hin].
  - exists y. split; [exact Hf | left; reflexivity].
  - destruct (IH ys x eq_refl Hin) as [y' [Hy Hin']].
    exists y'. split; [exact Hy | right; exact Hin'].
Qed.

(** A record for which no linkage target is chosen keeps its row. *)
Lemma enrich_vehicle_unmatched (lookup : kdict pyval) (bd bs : sindex)
  (id : pyval) (info : vehicle_info) (t : pyval) :
  select_target lookup bd bs id info = Ok t -> truthy t = false ->
  enrich_vehicle lookup bd bs (id, info) = Ok (info_row info).
Proof.
  intros Hs Ht. unfold enrich_vehicle. rewrite Hs. cbn [bind].
  rewrite Ht. reflexivity.
Qed.

(** The correlation writes one row per source record, after the rows
    already there, and the row of an unmatched record is its own. *)
Lemma correlate_rows (c c' : client) (resp : pyval) :
  correlate c resp = Ok c' ->
  (exists rows,
      vehicles c' = (vehicles c ++ rows)%list
      /\ List.length rows = List.length (lookup_entries (vehicle_lookup c)))
  /\ forall id info,
       In (id, info) (lookup_entries (vehicle_lookup c)) ->
       all_tiers_fail resp id info ->
       In (info_row info) (vehicles c').
Proof.
  intros H. unfold correlate in H.
  destruct (py_get resp "linkageTargets" (PList [])) as [targets_v |] eqn:Hg;
    cbn [bind] in H; [| discriminate].
  destruct (py_iter targets_v) as [targets |] eqn:Hi; cbn [bind] in H;
    [| discriminate].
  destruct (build_lookup targets) as [lookup |] eqn:Hl; cbn [bind] in H;
    [| discriminate].
  destruct lookup as [| kv lookup].
  - injection H as <-. cbn [flush_unenriched vehicles]. split.
    + eexists. split; [reflexivity |]. apply length_map.
    + intros id info Hin _. apply in_or_app. right.
      apply in_map_iff. exists (id, info). auto.
  - destruct (build_indexes targets) as [[bd bs] |] eqn:Hb; cbn [bind] in H;
      [| discriminate].
    destruct (mapM _ (lookup_entries (vehicle_lookup c))) as [rows |] eqn:Hm;
      cbn [bind] in H; [| discriminate].
    injection H as <-. cbn [vehicles]. split.
    + exists rows. split; [reflexivity |]. eapply mapM_length; exact Hm.
    + intros id info Hin Hfail.
      destruct (Hfail _ _ _ _ _ Hg Hi Hl Hb) as [t [Hs Ht]].
      destruct (mapM_In _ _ _ _ Hm Hin) as [y [Hy Hiny]].
      rewrite (enrich_vehicle_unmatched _ _ _ _ _ _ Hs Ht) in Hy.
      injection Hy as <-. apply in_or_app. right. exact Hiny.
Qed.

(** The whole enrichment pass, early exits included, writes one row per
    source record held in [vehicle_lookup] and touches no earlier row. *)
Lemma enrich_vehicles_rows (ids_response : pyval) (make_request : Z -> pyval)
  (c c' : client) :
  enrich_vehicles_with_linkage_targets ids_response make_request c = Ok c' ->
  exists rows,
    vehicles c' = (vehicles c ++ rows)%list
    /\ List.length rows = List.length (lookup_entries (vehicle_lookup c)).
Proof.
  unfold enrich_vehicles_with_linkage_targets. intros H.
  destruct (vehicle_lookup c) as [| kv d] eqn:Hv.
  - injection H as <-. exists []. rewrite app_nil_r. auto.
  - rewrite <- Hv in *. clear Hv kv d.
    destruct (collect_mfr_ids (vehicle_lookup c)) as [mfr_ids |];
      cbn [bind] in H; [| discriminate].
    destruct mfr_ids as [| m mfr_ids].
    + injection H as <-. cbn [flush_unenriched vehicles].
      eexists. split; [reflexivity | apply length_map].
    + destruct (usable_ids_response ids_response).
      * apply correlate_rows in H. apply H.
      * destruct (get_linkage_targets make_request) as [r |];
          cbn [bind] in H; [| discriminate].
        match type of H with
        | (_ <- ?dbg ;; _) = _ => destruct dbg
        end; cbn [bind] in H; [| discriminate].
        apply correlate_rows in H. apply H.
Qed.

(** A vehicle with a hint is held in [vehicle_lookup] with the row built
    for it. *)
Lemma lookup_append_In (d : kdict (list vehicle_info)) (k : pyval)
  (info : vehicle_info) :
  exists k', In (k', info) (lookup_entries (lookup_append d k info)).
Proof.
  induction d as [| [k0 infos] d IH]; cbn [lookup_append].
  - exists k. left. reflexivity.
  - destruct (py_eqb k0 k).
    + exists k0. unfold lookup_entries. cbn [flat_map fst snd].
      apply in_or_app. left. apply in_map. apply in_or_app. right.
      left. reflexivity.
    + destruct IH as [k' Hin]. exists k'. unfold lookup_entries.
      cbn [flat_map]. apply in_or_app. right. exact Hin.
Qed.

(** C4. A source record for which no tier finds a linkage target is
    written all the same, with its own row: the step that handles it
    returns the row unchanged and raises nothing; the correlation writes
    one row per source record after the rows already there, among them
    the row of every unmatched record; and so does the whole pass, early
    exits included.  A source vehicle with a hint is held in
    [vehicle_lookup] with the row built for it, and that row has its
    enrichment-only fields empty and the construction-type hint as body
    style. *)
Theorem unmatched_record_passes_through :
  (forall lookup lookup_by_desc lookup_by_specs id info t,
      select_target lookup lookup_by_desc lookup_by_specs id info = Ok t ->
      truthy t = false ->
      enrich_vehicle lookup lookup_by_desc lookup_by_specs (id, info)
      = Ok (info_row info))
  /\ (forall c response c',
         correlate c response = Ok c' ->
         (exists rows,
             vehicles c' = (vehicles c ++ rows)%list
             /\ List.length rows
                = List.length (lookup_entries (vehicle_lookup c)))
         /\ forall id info,
              In (id, info) (lookup_entries (vehicle_lookup c)) ->
              all_tiers_fail response id info ->
              In (info_row info) (vehicles c'))
  /\ (forall ids_response make_request c c',
         enrich_vehicles_with_linkage_targets ids_response make_request c
         = Ok c' ->
         exists rows,
           vehicles c' = (vehicles c ++ rows)%list
           /\ List.length rows
              = List.length (lookup_entries (vehicle_lookup c)))
  /\ (forall article_id c vehicle,
         truthy (vehicle_hint vehicle) = true ->
         hashable (vehicle_hint vehicle) = true ->
         exists c' k,
           process_vehicle article_id c vehicle = Ok c'
           /\ In (k, vehicle_info_of article_id vehicle)
                (lookup_entries (vehicle_lookup c'))
           /\ info_row (vehicle_info_of article_id vehicle)
              = vehicle_row article_id vehicle)
  /\ (forall article_id vehicle,
         let row := vehicle_row article_id vehicle in
         dict_get row "fuel_type" PNone = PStr ""
         /\ dict_get row "drive_type" PNone = PStr ""
         /\ dict_get row "kba_numbers" PNone = PStr ""
         /\ dict_get row "engine_code" PNone = PStr ""
         /\ dict_get row "other_restrictions" PNone = PStr ""
         /\ dict_get row "body_style" PNone
            = vehicle_construction_type vehicle).
Proof.
  split; [| split; [| split; [| split]]].
  - intros. eapply enrich_vehicle_unmatched; eassumption.
  - intros c response c' H. exact (correlate_rows c c' response H).
  - intros ids_response make_request c c' H.
    exact (enrich_vehicles_rows ids_response make_request c c' H).
  - intros article_id c vehicle Ht Hh. unfold process_vehicle.
    rewrite Ht, Hh.
    destruct (lookup_append_In (vehicle_lookup c) (vehicle_hint vehicle)
                (vehicle_info_of article_id vehicle)) as [k Hin].
    eexists. exists k. split; [reflexivity |]. split; [exact Hin |].
    reflexivity.
  - intros article_id vehicle. cbv zeta. repeat split.
Qed.

(** ** Source records without a correlation hint *)

(** Processing source vehicles only appends to the vehicle rows. *)
Lemma process_vehicles_appends (article_id : pyval) :
  forall l c c',
    foldM (process_vehicle article_id) c l = Ok c' ->
    exists rows, vehicles c' = (vehicles c ++ rows)%list.
Proof.
  apply (foldM_preserves
           (fun c c' => exists rows, vehicles c' = (vehicles c ++ rows)%list)).
  - intros c. exists []. rewrite app_nil_r. reflexivity.
  - intros c1 c2 c3 [r1 H1] [r2 H2]. exists (r1 ++ r2)%list.
    rewrite H2, H1, app_assoc. reflexivity.
  - intros c v c' H. unfold process_vehicle in H.
    destruct (truthy (vehicle_hint v)).
    + destruct (hashable (vehicle_hint v)); [| discriminate].
      injection H as <-. exists []. cbn [vehicles].
      rewrite app_nil_r. reflexivity.
    + injection H as <-. eexists. reflexivity.
Qed.

(** C10. A linked vehicle whose item has no (or a falsy)
    [linkingTargetId] and which has no (or a falsy) [carId] of its own
    carries no hint once tagged; processing it adds its row to the
    vehicle rows and leaves [vehicle_lookup] as it was; and the vehicles
    processed after it and the enrichment pass only append, so the row
    stays where it was put. *)
Theorem hintless_vehicle_bypasses_lookup :
  forall (article_id : pyval) (c : client)
         (article_link_id linking_target_id : pyval) (v : pydict),
    truthy linking_target_id = false ->
    truthy (dict_get v "carId" (PStr "")) = false ->
    exists tagged,
      tag_vehicle article_link_id linking_target_id (PDict v) = Ok tagged
      /\ truthy (vehicle_hint tagged) = false
      /\ process_vehicle article_id c tagged
         = Ok {| vehicles :=
                   (vehicles c ++ [vehicle_row article_id tagged])%list;
                 vehicle_lookup := vehicle_lookup c |}
      /\ forall more c1 ids_response make_request c2,
           foldM (process_vehicle article_id)
             {| vehicles :=
                  (vehicles c ++ [vehicle_row article_id tagged])%list;
                vehicle_lookup := vehicle_lookup c |} more = Ok c1 ->
           enrich_vehicles_with_linkage_targets ids_response make_request c1
           = Ok c2 ->
           exists rows,
             vehicles c2
             = (vehicles c ++ vehicle_row article_id tagged :: rows)%list.
Proof.
  intros article_id c alid ltid v Hl Hc.
  eexists. split; [reflexivity |].
  match goal with
  | |- truthy (vehicle_hint ?t) = false /\ _ =>
      assert (Hhint : truthy (vehicle_hint t) = false)
  end.
  { unfold vehicle_hint, py_or, dict_get.
    rewrite (dict_find_set_other _ "_constructionType" "_linkingTargetId")
      by reflexivity.
    rewrite dict_find_set_same. rewrite Hl.
    rewrite !dict_find_set_other by reflexivity. exact Hc. }
  split; [exact Hhint |]. split.
  - unfold process_vehicle. rewrite Hhint. reflexivity.
  - intros more c1 ids_response make_request c2 Hmore Henrich.
    apply process_vehicles_appends in Hmore. destruct Hmore as [r1 H1].
    apply enrich_vehicles_rows in Henrich. destruct Henrich as [r2 [H2 _]].
    cbn [vehicles] in H1. exists (r1 ++ r2)%list.
    rewrite H2, H1, <- !app_assoc. reflexivity.
Qed.

(* ================================================================== *)
(** * Further properties *)

(** ** Vehicle rows and their columns *)

Lemma dict_set_keeps_keys (d : pydict) (k : string) (v : pyval) :
  In k (map fst d) -> map fst (dict_set d k v) = map fst d.
Proof.
  induction d as [| [k' v'] d IH]; cbn [map fst dict_set In].
  - intros [].
  - intros Hin. destruct (k' =? k)%string eqn:Ek; cbn [map fst].
    + apply String.eqb_eq in Ek. subst k'. reflexivity.
    + f_equal. apply IH. destruct Hin as [-> | Hin]; [| exact Hin].
      rewrite String.eqb_refl in Ek. discriminate.
Qed.

Lemma dict_set_same_value (d : pydict) (k : string) (v : pyval) :
  dict_find k d = Some v -> dict_set d k v = d.
Proof.
  induction d as [| [k' v'] d IH]; cbn [dict_find dict_set];
    [discriminate |].
  destruct (k' =? k)%string eqn:Ek.
  - apply String.eqb_eq in Ek. subst k'. intros [= ->]. reflexivity.
  - intros H. f_equal. auto.
Qed.

Lemma dict_find_in_keys (d : pydict) (k : string) :
  In k (map fst d) -> exists v, dict_find k d = Some v.
Proof.
  induction d as [| [k' v'] d IH]; cbn [map fst In dict_find].
  - intros [].
  - intros Hin. destruct (k' =? k)%string eqn:Ek; [eauto |].
    destruct Hin as [-> | Hin]; [| auto].
    rewrite String.eqb_refl in Ek. discriminate.
Qed.

(** The chain of assignments of lines 1856-1865, read off one run of
    [enrich_row]. *)
Lemma enrich_row_steps (vehicle_row : pydict) (linkage_target : pyval)
  (row' : pydict) :
  enrich_row vehicle_row linkage_target = Ok row' ->
  exists d kba_numbers engine_codes restrictions kba codes others,
    linkage_target = PDict d
    /\ kba_numbers_of linkage_target = Ok kba_numbers
    /\ engine_codes_of linkage_target = Ok engine_codes
    /\ restrictions_of linkage_target = Ok restrictions
    /\ let r1 := dict_set vehicle_row "fuel_type"
                   (py_or (dict_get d "fuelType" (PStr ""))
                      (dict_get vehicle_row "fuel_type" (PStr ""))) in
       let r2 := if truthy (dict_get d "bodyStyle" (PStr ""))
                 then dict_set r1 "body_style"
                        (dict_get d "bodyStyle" (PStr ""))
                 else r1 in
       let r3 := dict_set r2 "drive_type"
                   (py_or (dict_get d "driveType" (PStr ""))
                      (dict_get r2 "drive_type" (PStr ""))) in
       let r4 := dict_set r3 "kba_numbers" kba in
       let r5 := dict_set r4 "engine_code" codes in
       joined_or_kept kba_numbers r3 "kba_numbers" = Ok kba
       /\ joined_or_kept engine_codes r4 "engine_code" = Ok codes
       /\ joined_or_kept restrictions r5 "other_restrictions" = Ok others
       /\ row' = dict_set r5 "other_restrictions" others.
Proof.
  unfold enrich_row. intros H.
  destruct (kba_numbers_of linkage_target) as [kba_numbers |] eqn:Hk;
    cbn [bind] in H; [| discriminate].
  destruct (engine_codes_of linkage_target) as [engine_codes |] eqn:He;
    cbn [bind] in H; [| discriminate].
  destruct (restrictions_of linkage_target) as [restrictions |] eqn:Hr;
    cbn [bind] in H; [| discriminate].
  destruct linkage_target as [| | | | | d]; try discriminate.
  cbn [py_get bind] in H.
  match type of H with
  | (kba <- ?j ;; _) = _ => destruct j as [kba |] eqn:Hj1
  end; cbn [bind] in H; [| discriminate].
  match type of H with
  | (codes <- ?j ;; _) = _ => destruct j as [codes |] eqn:Hj2
  end; cbn [bind] in H; [| discriminate].
  match type of H with
  | (others <- ?j ;; _) = _ => destruct j as [others |] eqn:Hj3
  end; cbn [bind] in H; [| discriminate].
  injection H as <-.
  exists d, kba_numbers, engine_codes, restrictions, kba, codes, others.
  cbv zeta. repeat (split; [first [reflexivity | assumption] |]).
  reflexivity.
Qed.

(** X1. Every row written for a source vehicle has exactly the fourteen
    columns of vehicles.csv, in the order of the file: the row built from
    the vehicle has them, the merge of a linkage target keeps them, and
    so does whatever the correlation writes for the record. *)
Theorem vehicle_rows_have_csv_columns :
  (forall article_id vehicle,
      map fst (vehicle_row article_id vehicle) = vehicles_columns)
  /\ (forall row linkage_target row',
         map fst row = vehicles_columns ->
         enrich_row row linkage_target = Ok row' ->
         map fst row' = vehicles_columns)
  /\ (forall lookup lookup_by_desc lookup_by_specs id article_id vehicle row,
         enrich_vehicle lookup lookup_by_desc lookup_by_specs
           (id, vehicle_info_of article_id vehicle) = Ok row ->
         map fst row = vehicles_columns).
Proof.
  assert (Hmerge : forall row linkage_target row',
             map fst row = vehicles_columns ->
             enrich_row row linkage_target = Ok row' ->
             map fst row' = vehicles_columns).
  { intros row t row' Hcols H.
    destruct (enrich_row_steps _ _ _ H)
      as [d [kn [ec [rs [kba [codes [others [_ [_ [_ [_ Hs]]]]]]]]]]].
    cbv zeta in Hs. destruct Hs as [_ [_ [_ ->]]].
    assert (Hset : forall r k v, map fst r = vehicles_columns ->
                     In k vehicles_columns ->
                     map fst (dict_set r k v) = vehicles_columns).
    { intros r k v Hr Hk. rewrite dict_set_keeps_keys; [exact Hr |].
      rewrite Hr. exact Hk. }
    assert (H2 : map fst
                   (if truthy (dict_get d "bodyStyle" (PStr ""))
                    then dict_set
                           (dict_set row "fuel_type"
                              (py_or (dict_get d "fuelType" (PStr ""))
                                 (dict_get row "fuel_type" (PStr ""))))
                           "body_style" (dict_get d "bodyStyle" (PStr ""))
                    else dict_set row "fuel_type"
                           (py_or (dict_get d "fuelType" (PStr ""))
                              (dict_get row "fuel_type" (PStr ""))))
                 = vehicles_columns).
    { destruct (truthy (dict_get d "bodyStyle" (PStr "")));
        repeat apply Hset; try exact Hcols; cbn; tauto. }
    repeat apply Hset; try exact H2; cbn; tauto. }
  split; [| split].
  - intros article_id vehicle. reflexivity.
  - exact Hmerge.
  - intros lookup bd bs id article_id vehicle row H.
    unfold enrich_vehicle in H.
    destruct (select_target _ _ _ _ _) as [t |]; cbn [bind] in H;
      [| discriminate].
    destruct (truthy t).
    + eapply Hmerge; [| exact H]. reflexivity.
    + injection H as <-. reflexivity.
Qed.

Lemma joined_or_kept_nil (vehicle_row : pydict) (field : string) :
  joined_or_kept [] vehicle_row field
  = Ok (dict_get vehicle_row field (PStr "")).
Proof. reflexivity. Qed.

(** X2. The merge of a linkage target into a row (lines 1856-1865)
    changes the six enrichable fields only, and an empty detail value
    never overwrites what the row has: fuel type and drive type take the
    detail's value when it is truthy and keep the row's otherwise, body
    style likewise, and the three list fields keep the row's value when
    the detail lists nothing.  A detail without any enrichment data
    leaves a row with the columns of vehicles.csv exactly as it was. *)
Theorem enrich_row_merge_policy :
  forall (row : pydict) (d : pydict) (row' : pydict),
    enrich_row row (PDict d) = Ok row' ->
    let fuel := dict_get d "fuelType" (PStr "") in
    let body := dict_get d "bodyStyle" (PStr "") in
    let drive := dict_get d "driveType" (PStr "") in
    (forall f, existsb (String.eqb f) enrichable_fields = false ->
               dict_find f row' = dict_find f row)
    /\ dict_find "fuel_type" row'
       = Some (if truthy fuel then fuel
               else dict_get row "fuel_type" (PStr ""))
    /\ dict_find "drive_type" row'
       = Some (if truthy drive then drive
               else dict_get row "drive_type" (PStr ""))
    /\ dict_find "body_style" row'
       = (if truthy body then Some body else dict_find "body_style" row)
    /\ (kba_numbers_of (PDict d) = Ok [] ->
        dict_find "kba_numbers" row'
        = Some (dict_get row "kba_numbers" (PStr "")))
    /\ (engine_codes_of (PDict d) = Ok [] ->
        dict_find "engine_code" row'
        = Some (dict_get row "engine_code" (PStr "")))
    /\ (restrictions_of (PDict d) = Ok [] ->
        dict_find "other_restrictions" row'
        = Some (dict_get row "other_restrictions" (PStr "")))
    /\ (map fst row = vehicles_columns ->
        truthy fuel = false -> truthy body = false ->
        truthy drive = false ->
        kba_numbers_of (PDict d) = Ok [] ->
        engine_codes_of (PDict d) = Ok [] ->
        restrictions_of (PDict d) = Ok [] ->
        row' = row).
Proof.
  intros row d row' H fuel body drive.
  destruct (enrich_row_steps _ _ _ H)
    as [d0 [kn [ec [rs [kba [codes [others [Hd [Hkn [Hec [Hrs Hs]]]]]]]]]]].
  injection Hd as <-. cbv zeta in Hs.
  fold fuel body drive in Hs.
  set (r1 := dict_set row "fuel_type"
               (py_or fuel (dict_get row "fuel_type" (PStr "")))) in *.
  set (r2 := if truthy body then dict_set r1 "body_style" body else r1) in *.
  set (r3 := dict_set r2 "drive_type"
               (py_or drive (dict_get r2 "drive_type" (PStr "")))) in *.
  destruct Hs as [Hkba [Hcodes [Hothers ->]]].
  (* lookups through the chain *)
  assert (F1 : forall f, ("fuel_type" =? f)%string = false ->
                         dict_find f r1 = dict_find f row).
  { intros f Hf. unfold r1. apply dict_find_set_other. exact Hf. }
  assert (F2 : forall f, ("body_style" =? f)%string = false ->
                         dict_find f r2 = dict_find f r1).
  { intros f Hf. unfold r2. destruct (truthy body); [| reflexivity].
    apply dict_find_set_other. exact Hf. }
  assert (F3 : forall f, ("drive_type" =? f)%string = false ->
                         dict_find f r3 = dict_find f r2).
  { intros f Hf. unfold r3. apply dict_find_set_other. exact Hf. }
  assert (Hdrive2 : dict_get r2 "drive_type" (PStr "")
                    = dict_get row "drive_type" (PStr "")).
  { unfold dict_get. rewrite F2, F1 by reflexivity. reflexivity. }
  assert (Hkba3 : dict_get r3 "kba_numbers" (PStr "")
                  = dict_get row "kba_numbers" (PStr "")).
  { unfold dict_get. rewrite F3, F2, F1 by reflexivity. reflexivity. }
  assert (Hcode4 : dict_get (dict_set r3 "kba_numbers" kba) "engine_code"
                     (PStr "")
                   = dict_get row "engine_code" (PStr "")).
  { unfold dict_get. rewrite dict_find_set_other by reflexivity.
    rewrite F3, F2, F1 by reflexivity. reflexivity. }
  assert (Hoth5 : dict_get (dict_set (dict_set r3 "kba_numbers" kba)
                              "engine_code" codes)
                    "other_restrictions" (PStr "")
                  = dict_get row "other_restrictions" (PStr "")).
  { unfold dict_get. rewrite !dict_find_set_other by reflexivity.
    rewrite F3, F2, F1 by reflexivity. reflexivity. }
  assert (Pfuel : dict_find "fuel_type"
                    (dict_set (dict_set (dict_set r3 "kba_numbers" kba)
                                 "engine_code" codes)
                       "other_restrictions" others)
                  = Some (if truthy fuel then fuel
                          else dict_get row "fuel_type" (PStr ""))).
  { rewrite !dict_find_set_other by reflexivity.
    rewrite F3, F2 by reflexivity. unfold r1.
    rewrite dict_find_set_same. reflexivity. }
  assert (Pdrive : dict_find "drive_type"
                     (dict_set (dict_set (dict_set r3 "kba_numbers" kba)
                                  "engine_code" codes)
                        "other_restrictions" others)
                   = Some (if truthy drive then drive
                           else dict_get row "drive_type" (PStr ""))).
  { rewrite !dict_find_set_other by reflexivity. unfold r3.
    rewrite dict_find_set_same, Hdrive2. reflexivity. }
  assert (Pbody : dict_find "body_style"
                    (dict_set (dict_set (dict_set r3 "kba_numbers" kba)
                                 "engine_code" codes)
                       "other_restrictions" others)
                  = (if truthy body then Some body
                     else dict_find "body_style" row)).
  { rewrite !dict_find_set_other by reflexivity.
    rewrite F3 by reflexivity. unfold r2.
    destruct (truthy body).
    - apply dict_find_set_same.
    - apply F1. reflexivity. }
  assert (Pkba : kn = [] ->
                 dict_find "kba_numbers"
                   (dict_set (dict_set (dict_set r3 "kba_numbers" kba)
                                "engine_code" codes)
                      "other_restrictions" others)
                 = Some (dict_get row "kba_numbers" (PStr ""))).
  { intros ->. rewrite joined_or_kept_nil in Hkba. injection Hkba as <-.
    rewrite !dict_find_set_other by reflexivity.
    rewrite dict_find_set_same, Hkba3. reflexivity. }
  assert (Pcodes : ec = [] ->
                   dict_find "engine_code"
                     (dict_set (dict_set (dict_set r3 "kba_numbers" kba)
                                  "engine_code" codes)
                        "other_restrictions" others)
                   = Some (dict_get row "engine_code" (PStr ""))).
  { intros ->. rewrite joined_or_kept_nil in Hcodes.
    injection Hcodes as <-.
    rewrite !dict_find_set_other by reflexivity.
    rewrite dict_find_set_same, Hcode4. reflexivity. }
  assert (Pothers : rs = [] ->
                    dict_find "other_restrictions"
                      (dict_set (dict_set (dict_set r3 "kba_numbers" kba)
                                   "engine_code" codes)
                         "other_restrictions" others)
                    = Some (dict_get row "other_restrictions" (PStr ""))).
  { intros ->. rewrite joined_or_kept_nil in Hothers.
    injection Hothers as <-.
    rewrite dict_find_set_same, Hoth5. reflexivity. }
  split; [| split; [| split; [| split; [| split; [| split; [| split]]]]]].
  - intros f Hf. cbn [existsb enrichable_fields] in Hf.
    repeat (apply orb_false_iff in Hf; destruct Hf as [? Hf]).
    rewrite !dict_find_set_other by (rewrite String.eqb_sym; assumption).
    rewrite F3, F2, F1 by (rewrite String.eqb_sym; assumption).
    reflexivity.
  - exact Pfuel.
  - exact Pdrive.
  - exact Pbody.
  - intros E. rewrite Hkn in E. injection E as E. exact (Pkba E).
  - intros E. rewrite Hec in E. injection E as E. exact (Pcodes E).
  - intros E. rewrite Hrs in E. injection E as E. exact (Pothers E).
  - intros Hcols Hf Hb Hdr Ek Ee Er.
    rewrite Hkn in Ek. injection Ek as ->.
    rewrite Hec in Ee. injection Ee as ->.
    rewrite Hrs in Er. injection Er as ->.
    rewrite joined_or_kept_nil in Hkba, Hcodes, Hothers.
    injection Hkba as <-. injection Hcodes as <-. injection Hothers as <-.
    assert (Hkey : forall k, In k vehicles_columns ->
                     dict_find k row = Some (dict_get row k (PStr ""))).
    { intros k Hk. rewrite <- Hcols in Hk.
      destruct (dict_find_in_keys _ _ Hk) as [v Hv].
      unfold dict_get. rewrite Hv. reflexivity. }
    assert (E1 : r1 = row).
    { unfold r1, py_or. rewrite Hf. apply dict_set_same_value.
      apply Hkey. cbn. tauto. }
    assert (E2 : r2 = row).
    { unfold r2. rewrite Hb. exact E1. }
    assert (E3 : r3 = row).
    { unfold r3, py_or. rewrite Hdr, E2. apply dict_set_same_value.
      apply Hkey. cbn. tauto. }
    rewrite Hoth5, Hcode4, Hkba3, E3.
    rewrite (dict_set_same_value row "kba_numbers") by (apply Hkey; cbn; tauto).
    rewrite (dict_set_same_value row "engine_code") by (apply Hkey; cbn; tauto).
    apply dict_set_same_value. apply Hkey. cbn. tauto.
Qed.

(** ** Source records between the fetch and the output *)

Lemma lookup_append_entries (d : kdict (list vehicle_info)) (k : pyval)
  (info : vehicle_info) :
  List.length (lookup_entries (lookup_append d k info))
  = S (List.length (lookup_entries d)).
Proof.
  induction d as [| [k0 infos] d IH]; cbn [lookup_append].
  - reflexivity.
  - unfold lookup_entries in *. destruct (py_eqb k0 k); cbn [flat_map fst snd].
    + rewrite !length_app, !length_map, length_app. cbn. lia.
    + rewrite !length_app, IH. lia.
Qed.

Lemma process_vehicle_held (article_id : pyval) (c c' : client)
  (vehicle : pydict) :
  process_vehicle article_id c vehicle = Ok c' ->
  held_records c' = S (held_records c).
Proof.
  unfold process_vehicle, held_records.
  destruct (truthy (vehicle_hint vehicle)).
  - destruct (hashable (vehicle_hint vehicle)); [| discriminate].
    intros [= <-]. cbn [vehicles vehicle_lookup].
    rewrite lookup_append_entries. lia.
  - intros [= <-]. cbn [vehicles vehicle_lookup].
    rewrite length_app. cbn. lia.
Qed.

Lemma process_vehicles_held (article_id : pyval) :
  forall l c c',
    foldM (process_vehicle article_id) c l = Ok c' ->
    held_records c' = (held_records c + List.length l)%nat.
Proof.
  induction l as [| v l IH]; intros c c' H.
  - injection H as <-. cbn. lia.
  - cbn [foldM] in H.
    destruct (process_vehicle article_id c v) as [c1 |] eqn:Hv;
      cbn [bind] in H; [| discriminate].
    rewrite (IH _ _ H), (process_vehicle_held _ _ _ _ Hv). cbn. lia.
Qed.

Lemma enrich_vehicles_clears (ids_response : pyval)
  (make_request : Z -> pyval) (c c' : client) :
  enrich_vehicles_with_linkage_targets ids_response make_request c = Ok c' ->
  vehicle_lookup c' = [].
Proof.
  assert (Hcorr : forall resp, correlate c resp = Ok c' ->
                               vehicle_lookup c' = []).
  { intros resp H. unfold correlate in H.
    destruct (py_get resp "linkageTargets" (PList [])) as [tv |];
      cbn [bind] in H; [| discriminate].
    destruct (py_iter tv) as [targets |]; cbn [bind] in H; [| discriminate].
    destruct (build_lookup targets) as [[| kv lookup] |]; cbn [bind] in H;
      [injection H as <-; reflexivity | | discriminate].
    destruct (build_indexes targets) as [[bd bs] |]; cbn [bind] in H;
      [| discriminate].
    destruct (mapM _ _) as [rows |]; cbn [bind] in H; [| discriminate].
    injection H as <-. reflexivity. }
  unfold enrich_vehicles_with_linkage_targets. intros H.
  destruct (vehicle_lookup c) as [| kv d] eqn:Hv.
  - injection H as <-. exact Hv.
  - destruct (collect_mfr_ids (kv :: d)) as [[| m ms] |]; cbn [bind] in H;
      [injection H as <-; reflexivity | | discriminate].
    destruct (usable_ids_response ids_response); [eauto |].
    destruct (get_linkage_targets make_request) as [r |]; cbn [bind] in H;
      [| discriminate].
    match type of H with
    | (_ <- ?dbg ;; _) = _ => destruct dbg
    end; cbn [bind] in H; [eauto | discriminate].
Qed.

(** X3. No linked vehicle is lost or written twice on the way to the
    output. After [process_vehicle_linkages] every linked vehicle of the
    batch is held once, as a row or in [vehicle_lookup]; and after the
    enrichment pass that follows, the rows have grown by the records
    that were waiting plus the linked vehicles of the batch. *)
Theorem linked_vehicles_conserved :
  forall (c c1 : client) (article_id linkages_response : pyval),
    process_vehicle_linkages c article_id linkages_response = Ok c1 ->
    exists actual_vehicles,
      actual_vehicles_of linkages_response = Ok actual_vehicles
      /\ held_records c1
         = (held_records c + List.length actual_vehicles)%nat
      /\ forall ids_response make_request c2,
           enrich_vehicles_with_linkage_targets ids_response make_request c1
           = Ok c2 ->
           vehicle_lookup c2 = []
           /\ List.length (vehicles c2)
              = (held_records c + List.length actual_vehicles)%nat.
Proof.
  intros c c1 article_id resp H.
  unfold process_vehicle_linkages in H. unfold actual_vehicles_of.
  destruct (process_vehicle_linkages_records resp) as [data |];
    cbn [bind] in *; [| discriminate].
  destruct (mapM linked_vehicles_of data) as [batches |]; cbn [bind] in *;
    [| discriminate].
  exists (List.concat batches). split; [reflexivity |].
  pose proof (process_vehicles_held _ _ _ _ H) as Hheld.
  split; [exact Hheld |].
  intros ids_response make_request c2 He.
  split; [eapply enrich_vehicles_clears; exact He |].
  destruct (enrich_vehicles_rows _ _ _ _ He) as [rows [Hv Hl]].
  rewrite Hv, length_app, Hl, <- Hheld. reflexivity.
Qed.

(** X4. The enrichment pass empties [vehicle_lookup] whenever it
    returns, so a second pass, whatever the service answers then, changes
    nothing: no record is written twice. *)
Theorem enrichment_pass_runs_once :
  forall (ids_response : pyval) (make_request : Z -> pyval) (c c' : client),
    enrich_vehicles_with_linkage_targets ids_response make_request c = Ok c' ->
    vehicle_lookup c' = []
    /\ forall ids_response' make_request',
         enrich_vehicles_with_linkage_targets ids_response' make_request' c'
         = Ok c'.
Proof.
  intros ids_response make_request c c' H.
  pose proof (enrich_vehicles_clears _ _ _ _ H) as Hc.
  split; [exact Hc |].
  intros ids' mr'. unfold enrich_vehicles_with_linkage_targets.
  rewrite Hc. reflexivity.
Qed.

Lemma flush_no_lookup (c : client) :
  vehicle_lookup c = [] -> flush_unenriched c = c.
Proof.
  destruct c as [vs d]. cbn. intros ->. unfold flush_unenriched. cbn.
  rewrite app_nil_r. reflexivity.
Qed.

(** X5. When both detail queries fail ([make_request] answers the empty
    dict, see lines 76-77) the pass raises nothing and writes every
    waiting record with its own row, in lookup order, after the rows
    already there. *)
Theorem failed_detail_queries_export_unenriched :
  forall (ids_response : pyval) (make_request : Z -> pyval) (c : client)
         (mfr_ids : list pyval),
    collect_mfr_ids (vehicle_lookup c) = Ok mfr_ids ->
    usable_ids_response ids_response = false ->
    make_request 1 = PDict [] ->
    enrich_vehicles_with_linkage_targets ids_response make_request c
    = Ok (flush_unenriched c).
Proof.
  intros ids_response make_request c mfr_ids Hm Hu H1.
  unfold enrich_vehicles_with_linkage_targets.
  destruct (vehicle_lookup c) as [| kv d] eqn:Hv.
  - rewrite (flush_no_lookup c Hv). reflexivity.
  - rewrite Hm. cbn [bind]. destruct mfr_ids as [| m ms]; [reflexivity |].
    rewrite Hu. unfold get_linkage_targets. rewrite H1. reflexivity.
Qed.

(** X6. When no waiting record has a truthy manufacturer id, the pass
    asks the service nothing: whatever the two queries would answer, the
    records are written with their own rows. *)
Theorem no_manufacturer_ids_no_query :
  forall (c : client),
    Forall (fun e => truthy (info_mfr_id (snd e)) = false)
           (lookup_entries (vehicle_lookup c)) ->
    forall ids_response make_request,
      enrich_vehicles_with_linkage_targets ids_response make_request c
      = Ok (flush_unenriched c).
Proof.
  intros c Hall ids_response make_request.
  assert (Hm : collect_mfr_ids (vehicle_lookup c) = Ok []).
  { unfold collect_mfr_ids.
    induction Hall as [| e l He _ IH]; [reflexivity |].
    cbn [foldM]. rewrite He. cbn [bind]. exact IH. }
  unfold enrich_vehicles_with_linkage_targets.
  destruct (vehicle_lookup c) as [| kv d] eqn:Hv.
  - rewrite (flush_no_lookup c Hv). reflexivity.
  - rewrite Hm. reflexivity.
Qed.

(** ** The specification tier *)

(** What [index_target] does to [lookup_by_specs]. *)
Lemma index_target_specs (bd bs bd' bs' : sindex) (t : pyval) :
  index_target (bd, bs) t = Ok (bd', bs') ->
  bs' = match target_specs_key t with
        | Some k => sappend bs k t
        | None => bs
        end.
Proof.
  unfold index_target, target_specs_key.
  destruct t as [| | | | | d]; try discriminate.
  cbn [py_get bind].
  destruct (py_strip (dict_get d "description" (PStr ""))); cbn [bind];
    [| discriminate].
  destruct (dict_get d "vehicleModelSeriesName" (PStr ""))
    as [| | | s | |]; try discriminate.
  cbn [py_strip bind]. intros [= _ <-].
  destruct (truthy (dict_get d "mfrId" (PStr ""))
            && negb (strip s =? "")%string
            && truthy (dict_get d "horsePowerFrom" (PStr ""))
            && truthy (dict_get d "capacityCC" (PStr ""))); reflexivity.
Qed.

Lemma groups_by_specs_step (seen_targets : list pyval)
  (bd bs bd' bs' : sindex) (t : pyval) :
  groups_by_specs seen_targets bs ->
  index_target (bd, bs) t = Ok (bd', bs') ->
  groups_by_specs (seen_targets ++ [t]) bs'.
Proof.
  intros [Hnd Hf] Hi. apply index_target_specs in Hi. subst bs'.
  unfold groups_by_specs.
  destruct (target_specs_key t) as [k |] eqn:Hk.
  - split; [apply NoDup_sappend; exact Hnd |].
    intros key. rewrite sfind_sappend, filter_app. cbn [filter].
    unfold has_specs_key at 2. rewrite Hk.
    destruct (k =? key)%string eqn:Ek.
    + apply String.eqb_eq in Ek. subst key. rewrite Hf.
      destruct (filter (has_specs_key k) seen_targets); reflexivity.
    + rewrite app_nil_r. apply Hf.
  - split; [exact Hnd |].
    intros key. rewrite filter_app. cbn [filter].
    unfold has_specs_key at 2. rewrite Hk. rewrite app_nil_r. apply Hf.
Qed.

Lemma build_indexes_groups_specs (targets : list pyval) (bd bs : sindex) :
  build_indexes targets = Ok (bd, bs) -> groups_by_specs targets bs.
Proof.
  unfold build_indexes.
  assert (Hgen : forall rest seen_targets idx idx',
            groups_by_specs seen_targets (snd idx) ->
            foldM index_target idx rest = Ok idx' ->
            groups_by_specs (seen_targets ++ rest) (snd idx')).
  { induction rest as [| t rest IH]; intros seen_targets idx idx' Hg H.
    - injection H as <-. rewrite app_nil_r. exact Hg.
    - cbn [foldM] in H.
      destruct (index_target idx t) as [[bd1 bs1] |] eqn:Ht;
        cbn [bind] in H; [| discriminate].
      destruct idx as [bd0 bs0]. cbn [snd] in Hg.
      pose proof (groups_by_specs_step _ _ _ _ _ _ Hg Ht) as Hg1.
      specialize (IH (seen_targets ++ [t])%list (bd1, bs1) idx' Hg1 H).
      rewrite <- app_assoc in IH. exact IH. }
  intros H.
  apply (Hgen targets [] ([], []) (bd, bs)); [| exact H].
  split; [constructor | intros key; reflexivity].
Qed.

(** X7. The specification tier comes after the description tier and
    takes the first entry: a truthy choice of the description tier is
    final whatever the specification index holds; otherwise the detail
    chosen is the first of the input filed under exactly the source's
    composite key of manufacturer id, model series, power and
    displacement. *)
Theorem specs_tier_selects_first_of_group :
  (forall (lookup_by_specs : sindex) (mfr_id : pyval)
          (model_series power_hp engine_cc : string) (t2 : pyval),
      truthy t2 = true ->
      match_by_specs lookup_by_specs mfr_id model_series power_hp engine_cc
        t2 = t2)
  /\ (forall (targets : list pyval) (lookup_by_desc lookup_by_specs : sindex)
             (mfr_id : pyval) (model_series power_hp engine_cc : string)
             (t : pyval),
         build_indexes targets = Ok (lookup_by_desc, lookup_by_specs) ->
         match_by_specs lookup_by_specs mfr_id model_series power_hp
           engine_cc (PDict []) = t ->
         truthy t = true ->
         exists pre post,
           targets = (pre ++ t :: post)%list
           /\ target_specs_key t
              = Some (specs_key mfr_id model_series power_hp engine_cc)
           /\ forall x, In x pre ->
                target_specs_key x
                <> Some (specs_key mfr_id model_series power_hp engine_cc)).
Proof.
  split.
  - intros bs mfr_id ms php cc t2 Ht. unfold match_by_specs.
    rewrite Ht. reflexivity.
  - intros targets bd bs mfr_id ms php cc t Hb Hm Ht.
    destruct (build_indexes_groups_specs _ _ _ Hb) as [_ Hf].
    unfold match_by_specs in Hm.
    destruct (negb (truthy (PDict [])) && truthy mfr_id
              && negb (ms =? "")%string && negb (php =? "")%string
              && negb (cc =? "")%string).
    2:{ subst t. discriminate Ht. }
    rewrite Hf in Hm.
    destruct (filter (has_specs_key (specs_key mfr_id ms php cc)) targets)
      as [| t0 r] eqn:Hfilter.
    { subst t. discriminate Ht. }
    subst t0.
    destruct (filter_head _ _ _ _ Hfilter) as [pre [post [-> [Hx Hpre]]]].
    exists pre, post. split; [reflexivity |].
    unfold has_specs_key in Hx.
    destruct (target_specs_key t) as [k |] eqn:Hk; [| discriminate].
    apply String.eqb_eq in Hx. subst k. split; [reflexivity |].
    intros x Hxin Hkx. specialize (Hpre x Hxin).
    unfold has_specs_key in Hpre. rewrite Hkx, String.eqb_refl in Hpre.
    discriminate.
Qed.

(** ** References: no duplicates, nothing but appends *)

Lemma ref_key_eqb_canon (e k : ref_key) :
  ref_key_hashable e = true -> ref_key_hashable k = true ->
  (ref_key_eqb e k = true <-> canon_ref e = canon_ref k).
Proof.
  destruct e as [[t1 n1] m1], k as [[t2 n2] m2].
  cbn [ref_key_hashable ref_key_eqb canon_ref]. intros He Hk.
  apply andb_true_iff in He. destruct He as [He Hm1].
  apply andb_true_iff in He. destruct He as [Ht1 Hn1].
  apply andb_true_iff in Hk. destruct Hk as [Hk Hm2].
  apply andb_true_iff in Hk. destruct Hk as [Ht2 Hn2].
  rewrite !andb_true_iff.
  rewrite (py_eqb_canon t1 t2 Ht1 Ht2), (py_eqb_canon n1 n2 Hn1 Hn2),
    (py_eqb_canon m1 m2 Hm1 Hm2).
  split; [intros [[-> ->] ->]; reflexivity | intros [= -> -> ->]; auto].
Qed.

Lemma fresh_rows_snoc (a : pyval) :
  forall added earlier r,
    fresh_rows a earlier added ->
    (forall e, In e (earlier ++ added)%list -> of_parent a e = true ->
               ref_key_eqb (row_key e) (row_key r) = false) ->
    fresh_rows a earlier (added ++ [r])%list.
Proof.
  induction added as [| x added IH]; intros earlier r Hf Hr;
    cbn [app fresh_rows] in *.
  - rewrite app_nil_r in Hr. auto.
  - destruct Hf as [Hx Hrest]. split; [exact Hx |].
    apply IH; [exact Hrest |].
    intros e He. apply Hr. rewrite <- app_assoc in He. exact He.
Qed.

(** A membership test that fails separates the probe from every row of
    the parent. *)
Lemma not_seen_is_fresh (a : pyval) (refs0 : list pydict) (st : ref_state)
  (k : ref_key) :
  refs_invariant a refs0 st ->
  refs_mem k (existing_refs st) = Ok false ->
  ref_key_hashable k = true
  /\ forall e, In e (references st) -> of_parent a e = true ->
               ref_key_eqb (row_key e) k = false.
Proof.
  intros [Hh [Hrows _]] Hm. unfold refs_mem in Hm.
  destruct (ref_key_hashable k) eqn:Hk; [| discriminate].
  injection Hm as Hm. split; [reflexivity |].
  intros e He Hp. destruct (Hrows e He Hp) as [Hhe Hin].
  apply not_true_is_false. intros Heq.
  apply (ref_key_eqb_canon _ _ Hhe Hk) in Heq.
  apply in_map_iff in Hin. destruct Hin as [e' [Hc Hin']].
  rewrite Forall_forall in Hh.
  assert (Hx : ref_key_eqb e' k = true).
  { apply (ref_key_eqb_canon _ _ (Hh _ Hin') Hk). congruence. }
  assert (Hex : existsb (fun e0 => ref_key_eqb e0 k) (existing_refs st)
                = true).
  { apply existsb_exists. exists e'. auto. }
  congruence.
Qed.

Lemma add_reference_invariant (a : pyval) (refs0 : list pydict)
  (ty : string) (n m : pyval) (st st' : ref_state) (added : bool) :
  py_eqb a a = true ->
  In ty reference_types -> truthy n = true ->
  refs_invariant a refs0 st ->
  add_reference a ty n m st = Ok (st', added) ->
  refs_invariant a refs0 st'.
Proof.
  intros Ha Hty Hn Hinv H. unfold add_reference in H.
  destruct (refs_mem (PStr ty, n, m) (existing_refs st)) as [[|] |] eqn:Hm;
    cbn [bind] in H; try discriminate.
  - injection H as <- _. exact Hinv.
  - injection H as <- _.
    destruct (not_seen_is_fresh a refs0 st _ Hinv Hm) as [Hk Hfresh].
    destruct Hinv as [Hh [Hrows [old [Hrefs [Hw Hf]]]]].
    unfold refs_invariant. cbn [references existing_refs].
    split; [| split].
    + apply Forall_app. split; [exact Hh | constructor; auto].
    + intros row Hin Hp. rewrite map_app. apply in_app_or in Hin.
      destruct Hin as [Hin | [<- | []]].
      * destruct (Hrows row Hin Hp) as [H1 H2]. split; [exact H1 |].
        apply in_or_app. left. exact H2.
      * split; [exact Hk |]. apply in_or_app. right. left. reflexivity.
    + exists (old ++ [reference_row a ty n m])%list.
      split; [rewrite Hrefs, app_assoc; reflexivity |]. split.
      * apply Forall_app. split; [exact Hw |]. constructor; [| constructor].
        exists ty, n, m. split; [reflexivity |]. split; assumption.
      * apply fresh_rows_snoc; [exact Hf |]. rewrite <- Hrefs. exact Hfresh.
Qed.

Lemma nonempty_truthy (s : string) :
  negb (s =? "")%string = true -> truthy (PStr s) = true.
Proof. intros H. exact H. Qed.

Lemma ean_loop_invariant (a : pyval) (refs0 : list pydict) :
  py_eqb a a = true ->
  forall gtins st st',
    refs_invariant a refs0 st ->
    ean_loop a gtins st = Ok st' ->
    refs_invariant a refs0 st'.
Proof.
  intros Ha. induction gtins as [| g gtins IH]; intros st st' Hinv H.
  - injection H as <-. exact Hinv.
  - cbn [ean_loop] in H.
    destruct (negb (stripped_number g =? "")%string) eqn:Hne; [| eauto].
    destruct (add_reference a "EAN" _ _ st) as [[s1 b] |] eqn:Hadd;
      cbn [bind] in H; [| discriminate].
    pose proof (add_reference_invariant a refs0 "EAN" _ _ st s1 b Ha
                  (or_introl eq_refl) (nonempty_truthy _ Hne) Hinv Hadd)
      as Hinv1.
    destruct b; [| eauto].
    injection H as <-. exact Hinv1.
Qed.

Lemma trade_loop_invariant (a : pyval) (refs0 : list pydict) :
  py_eqb a a = true ->
  forall items st st',
    refs_invariant a refs0 st ->
    trade_loop a items st = Ok st' ->
    refs_invariant a refs0 st'.
Proof.
  intros Ha. unfold trade_loop.
  induction items as [| x items IH]; intros st st' Hinv H.
  - injection H as <-. exact Hinv.
  - cbn [foldM] in H.
    destruct (negb (stripped_number x =? "")%string) eqn:Hne;
      cbn [bind] in H; [| eauto].
    destruct (add_reference a "TRADE" _ _ st) as [[s1 b] |] eqn:Hadd;
      cbn [bind fst] in H; [| discriminate].
    apply (IH s1 st'); [| exact H].
    eapply (add_reference_invariant a refs0 "TRADE");
      [exact Ha | cbn; tauto | exact (nonempty_truthy _ Hne)
       | exact Hinv | exact Hadd].
Qed.

Lemma named_loop_invariant (a : pyval) (refs0 : list pydict) (ty : string) :
  py_eqb a a = true -> In ty reference_types ->
  forall items st st',
    refs_invariant a refs0 st ->
    named_loop a ty items st = Ok st' ->
    refs_invariant a refs0 st'.
Proof.
  intros Ha Hty. unfold named_loop.
  induction items as [| x items IH]; intros st st' Hinv H.
  - injection H as <-. exact Hinv.
  - cbn [foldM] in H.
    destruct (match x with
              | PDict d => (dict_get d "articleNumber" (PStr ""),
                            dict_get d "mfrName" (PStr ""))
              | _ => (PStr (stripped_number x), PStr "")
              end) as [number mfr_name].
    destruct (truthy number) eqn:Hn; cbn [bind] in H; [| eauto].
    destruct (add_reference a ty number mfr_name st) as [[s1 b] |] eqn:Hadd;
      cbn [bind fst] in H; [| discriminate].
    apply (IH s1 st'); [| exact H].
    eapply add_reference_invariant; eassumption.
Qed.

Lemma when_present_invariant (a : pyval) (refs0 : list pydict)
  (article : pydict) (field : string)
  (body : list pyval -> ref_state -> res ref_state) (st st' : ref_state) :
  (forall items s s', refs_invariant a refs0 s -> body items s = Ok s' ->
                      refs_invariant a refs0 s') ->
  refs_invariant a refs0 st ->
  when_present article field body st = Ok st' ->
  refs_invariant a refs0 st'.
Proof.
  intros Hb Hinv H. unfold when_present in H.
  destruct (dict_mem field article && truthy (dict_get article field PNone));
    [| injection H as <-; exact Hinv].
  destruct (py_iter _) as [items |]; cbn [bind] in H; [| discriminate].
  eauto.
Qed.

Lemma process_reference_article_invariant (a sup num : pyval)
  (refs0 : list pydict) (st st' : ref_state) (art : pyval) :
  py_eqb a a = true ->
  refs_invariant a refs0 st ->
  process_reference_article a sup num st art = Ok st' ->
  refs_invariant a refs0 st'.
Proof.
  intros Ha Hinv H. destruct art as [| | | | | article]; try discriminate.
  cbn [process_reference_article] in H.
  destruct (article_accepted sup num article);
    [| injection H as <-; exact Hinv].
  match type of H with
  | (st1 <- ?blk ;; _) = _ => destruct blk as [s1 |] eqn:Hblk
  end; cbn [bind] in H; [| discriminate].
  assert (H1 : refs_invariant a refs0 s1).
  { destruct (dict_mem "gtins" article
              && truthy (dict_get article "gtins" PNone)
              && negb (ean_added st));
      [| injection Hblk as <-; exact Hinv].
    destruct (py_iter _) as [gtins |]; cbn [bind] in Hblk; [| discriminate].
    eapply ean_loop_invariant; eassumption. }
  destruct (when_present article "tradeNumbers" _ s1) as [s2 |] eqn:E2;
    cbn [bind] in H; [| discriminate].
  destruct (when_present article "oemNumbers" _ s2) as [s3 |] eqn:E3;
    cbn [bind] in H; [| discriminate].
  destruct (when_present article "comparableNumbers" _ s3) as [s4 |] eqn:E4;
    cbn [bind] in H; [| discriminate].
  destruct (when_present article "replacesArticles" _ s4) as [s5 |] eqn:E5;
    cbn [bind] in H; [| discriminate].
  assert (Hnamed : forall ty, In ty reference_types ->
            forall items s s', refs_invariant a refs0 s ->
              named_loop a ty items s = Ok s' -> refs_invariant a refs0 s').
  { intros ty Hty items s s'. apply named_loop_invariant; assumption. }
  assert (H2 : refs_invariant a refs0 s2).
  { eapply when_present_invariant; [| exact H1 | exact E2].
    intros items s s'. apply trade_loop_invariant. exact Ha. }
  assert (H3 : refs_invariant a refs0 s3).
  { eapply when_present_invariant; [| exact H2 | exact E3].
    apply Hnamed. cbn; tauto. }
  assert (H4 : refs_invariant a refs0 s4).
  { eapply when_present_invariant; [| exact H3 | exact E4].
    apply Hnamed. cbn; tauto. }
  assert (H5 : refs_invariant a refs0 s5).
  { eapply when_present_invariant; [| exact H4 | exact E5].
    apply Hnamed. cbn; tauto. }
  eapply when_present_invariant; [| exact H5 | exact H].
  apply Hnamed. cbn; tauto.
Qed.

(** The state the loop starts from satisfies the invariant. *)
Lemma collect_existing_refs_invariant (a : pyval) (refs : list pydict)
  (existing : list ref_key) :
  collect_existing_refs a refs = Ok existing ->
  refs_invariant a refs
    {| references := refs; existing_refs := existing; ean_added := false |}.
Proof.
  intros H. unfold refs_invariant. cbn [references existing_refs].
  assert (Hgen : forall l acc out,
            Forall (fun k => ref_key_hashable k = true) acc ->
            foldM (fun acc ref =>
                     if py_eqb (dict_get ref "article_id" PNone) a
                     then refs_add acc (dict_get ref "ref_type" PNone,
                                        dict_get ref "number" PNone,
                                        dict_get ref "mfr_name" (PStr ""))
                     else Ok acc) acc l = Ok out ->
            Forall (fun k => ref_key_hashable k = true) out
            /\ (forall c, In c (map canon_ref acc) ->
                          In c (map canon_ref out))
            /\ forall row, In row l -> of_parent a row = true ->
                 ref_key_hashable (row_key row) = true
                 /\ In (canon_ref (row_key row)) (map canon_ref out)).
  { induction l as [| r l IH]; intros acc out Hacc Hf.
    - injection Hf as <-. split; [exact Hacc |]. split; [auto |].
      intros row [].
    - cbn [foldM] in Hf. fold (of_parent a r) in Hf.
      destruct (of_parent a r) eqn:Hp.
      + fold (row_key r) in Hf. unfold refs_add, refs_mem in Hf.
        destruct (ref_key_hashable (row_key r)) eqn:Hk; cbn [bind] in Hf;
          [| discriminate].
        destruct (existsb (fun e => ref_key_eqb e (row_key r)) acc) eqn:Hex.
        * destruct (IH acc out Hacc Hf) as [H1 [H2 H3]].
          split; [exact H1 |]. split; [exact H2 |].
          intros row [<- | Hin] Hrow; [| auto].
          split; [exact Hk |]. apply H2.
          apply existsb_exists in Hex. destruct Hex as [e [Hin He]].
          rewrite Forall_forall in Hacc.
          apply (ref_key_eqb_canon _ _ (Hacc _ Hin) Hk) in He.
          rewrite <- He. apply in_map. exact Hin.
        * assert (Hacc' : Forall (fun k => ref_key_hashable k = true)
                            (acc ++ [row_key r])%list).
          { apply Forall_app. split; [exact Hacc | constructor; auto]. }
          destruct (IH _ out Hacc' Hf) as [H1 [H2 H3]].
          split; [exact H1 |]. split.
          -- intros c Hc. apply H2. rewrite map_app. apply in_or_app.
             left. exact Hc.
          -- intros row [<- | Hin] Hrow; [| auto].
             split; [exact Hk |]. apply H2. rewrite map_app.
             apply in_or_app. right. left. reflexivity.
      + cbn [bind] in Hf. destruct (IH acc out Hacc Hf) as [H1 [H2 H3]].
        split; [exact H1 |]. split; [exact H2 |].
        intros row [<- | Hin] Hrow; [congruence | auto]. }
  destruct (Hgen refs [] existing (Forall_nil _) H) as [H1 [_ H3]].
  split; [exact H1 |]. split; [exact H3 |].
  exists []. rewrite app_nil_r. split; [reflexivity |].
  split; constructor.
Qed.

(** The whole call keeps the list it is given and the rows it adds obey
    the invariant. *)
Lemma extract_all_reference_numbers_added (refs refs' : list pydict)
  (a resp sup num : pyval) :
  hashable a = true ->
  extract_all_reference_numbers refs a resp sup num = Ok refs' ->
  exists added,
    refs' = (refs ++ added)%list
    /\ Forall (written_row a) added
    /\ fresh_rows a refs added.
Proof.
  intros Hh H.
  assert (Ha : py_eqb a a = true).
  { destruct a as [| b | z | s | |]; try discriminate; cbn.
    - reflexivity.
    - apply Bool.eqb_reflx.
    - apply Z.eqb_refl.
    - apply String.eqb_refl. }
  assert (Hnone : exists added,
             refs = (refs ++ added)%list /\ Forall (written_row a) added
             /\ fresh_rows a refs added).
  { exists []. rewrite app_nil_r. split; [reflexivity |].
    split; constructor. }
  unfold extract_all_reference_numbers in H.
  destruct (negb (truthy resp)); [injection H as <-; exact Hnone |].
  destruct (py_in "articles" resp) as [has |]; cbn [bind] in H;
    [| discriminate].
  destruct (negb has); [injection H as <-; exact Hnone |].
  destruct (py_get resp "articles" (PList [])) as [articles |];
    cbn [bind] in H; [| discriminate].
  destruct (negb (truthy articles)); [injection H as <-; exact Hnone |].
  destruct (py_len articles); cbn [bind] in H; [| discriminate].
  destruct (collect_existing_refs a refs) as [existing |] eqn:Hex;
    cbn [bind] in H; [| discriminate].
  destruct (py_iter articles) as [items |]; cbn [bind] in H; [| discriminate].
  destruct (foldM _ _ items) as [st |] eqn:Hfold; cbn [bind] in H;
    [| discriminate].
  injection H as <-.
  assert (Hinv : refs_invariant a refs st).
  { revert Hfold.
    generalize (collect_existing_refs_invariant a refs existing Hex).
    generalize {| references := refs; existing_refs := existing;
                  ean_added := false |}.
    induction items as [| x items IH]; intros s0 Hs0 Hfold.
    - injection Hfold as <-. exact Hs0.
    - cbn [foldM] in Hfold.
      destruct (process_reference_article a sup num s0 x) as [s1 |] eqn:Hx;
        cbn [bind] in Hfold; [| discriminate].
      apply (IH s1); [| exact Hfold].
      eapply process_reference_article_invariant; eassumption. }
  destruct Hinv as [_ [_ Hadded]]. exact Hadded.
Qed.

(** X8. [extract_all_reference_numbers] never writes a duplicate: the
    call keeps the list it is given, and every row it appends has a key
    [(ref_type, number, mfr_name)] different from the key of each row of
    the parent before it, those the call found and those it added. *)
Theorem extract_all_reference_numbers_no_duplicate :
  forall (refs refs' : list pydict)
         (article_id reference_response supplier_id article_number : pyval),
    hashable article_id = true ->
    extract_all_reference_numbers refs article_id reference_response
      supplier_id article_number = Ok refs' ->
    exists added,
      refs' = (refs ++ added)%list /\ fresh_rows article_id refs added.
Proof.
  intros refs refs' a resp sup num Hh H.
  destruct (extract_all_reference_numbers_added _ _ _ _ _ _ Hh H)
    as [added [E [_ F]]].
  exists added. auto.
Qed.

(** X9. Every row [extract_all_reference_numbers] appends is made of
    the four reference columns [article_id], [ref_type], [number] and
    [mfr_name], in that order and with no other: it has the parent the
    call was made for, one of the six reference types and a truthy (so
    non-empty) number; no existing row is changed or removed. *)
Theorem extract_all_reference_numbers_rows :
  forall (refs refs' : list pydict)
         (article_id reference_response supplier_id article_number : pyval),
    hashable article_id = true ->
    extract_all_reference_numbers refs article_id reference_response
      supplier_id article_number = Ok refs' ->
    exists added,
      refs' = (refs ++ added)%list
      /\ Forall (fun ref =>
                   exists ty number mfr_name,
                     ref = [("article_id", article_id);
                            ("ref_type", PStr ty);
                            ("number", number);
                            ("mfr_name", mfr_name)]
                     /\ In ty ["EAN"; "TRADE"; "OE"; "COMPARABLE";
                               "REPLACEMENT"; "REPLACED"]
                     /\ truthy number = true)
           added.
Proof.
  intros refs refs' a resp sup num Hh H.
  destruct (extract_all_reference_numbers_added _ _ _ _ _ _ Hh H)
    as [added [E [W _]]].
  exists added. auto.
Qed.

(** X10. The filter comes first: an article of another supplier or with
    another article number is as if it were absent.  Dropping the
    rejected articles from a response does not change what a call that
    returns leaves in the list. *)
Theorem rejected_articles_are_ignored :
  forall (refs refs' : list pydict)
         (article_id supplier_id article_number : pyval)
         (articles : list pyval),
    extract_all_reference_numbers refs article_id
      (PDict [("articles", PList articles)]) supplier_id article_number
    = Ok refs' ->
    extract_all_reference_numbers refs article_id
      (PDict [("articles",
               PList (filter (passes_filter supplier_id article_number)
                        articles))])
      supplier_id article_number
    = Ok refs'.
Proof.
  intros refs refs' a sup num articles H.
  assert (Hfold : forall l st,
             foldM (process_reference_article a sup num) st
               (filter (passes_filter sup num) l)
             = foldM (process_reference_article a sup num) st l).
  { induction l as [| x l IH]; intros st; [reflexivity |].
    cbn [filter]. destruct (passes_filter sup num x) eqn:Hp.
    - cbn [foldM].
      destruct (process_reference_article a sup num st x); cbn [bind];
        [apply IH | reflexivity].
    - rewrite IH. cbn [foldM]. destruct x as [| | | | | d]; try discriminate.
      cbn [passes_filter] in Hp. cbn [process_reference_article].
      rewrite Hp. reflexivity. }
  unfold extract_all_reference_numbers in *.
  cbn [truthy negb py_in dict_mem dict_find String.eqb Ascii.eqb Bool.eqb
         bind py_get dict_get] in *.
  destruct articles as [| x articles].
  - exact H.
  - cbn [truthy negb py_len bind py_iter] in H.
    destruct (collect_existing_refs a refs) as [existing |] eqn:Hex;
      cbn [bind] in H; [| discriminate].
    rewrite <- Hfold in H.
    destruct (filter (passes_filter sup num) (x :: articles))
      as [| y kept] eqn:Hk.
    + cbn [foldM bind references] in H. exact H.
    + cbn [truthy negb py_len bind py_iter]. exact H.
Qed.

(** ** GTIN extraction *)

Lemma lstrip0_idempotent (s : string) : lstrip0 (lstrip0 s) = lstrip0 s.
Proof.
  induction s as [| c s IH]; [reflexivity |].
  cbn [lstrip0]. destruct (c =? "0")%char eqn:Ec; [exact IH |].
  cbn [lstrip0]. rewrite Ec. reflexivity.
Qed.

(** Of the four tests of lines 695-698 the first decides. *)
Lemma gtin_matches_leading_zeros (g t : string) :
  gtin_matches g t = (lstrip0 g =? lstrip0 t)%string.
Proof.
  unfold gtin_matches.
  destruct (lstrip0 g =? lstrip0 t)%string eqn:E; [reflexivity |].
  cbn [orb].
  assert (H1 : (g =? t)%string = false).
  { apply not_true_is_false. intros H. apply String.eqb_eq in H. subst g.
    rewrite String.eqb_refl in E. discriminate. }
  assert (H2 : (g =? "0" ++ t)%string = false).
  { apply not_true_is_false. intros H. apply String.eqb_eq in H. subst g.
    cbn in E. rewrite String.eqb_refl in E. discriminate. }
  assert (H3 : (g =? lstrip0 t)%string = false).
  { apply not_true_is_false. intros H. apply String.eqb_eq in H. subst g.
    rewrite lstrip0_idempotent, String.eqb_refl in E. discriminate. }
  rewrite H1, H2, H3. reflexivity.
Qed.

Lemma specific_gtin_loop_result (a : pyval) (t : string)
  (refs : list pydict) :
  forall gtin_data refs' found,
    specific_gtin_loop a t refs gtin_data = (refs', found) ->
    (found = false /\ refs' = refs
     /\ forall ref, In ref gtin_data ->
          gtin_number_of ref = ""
          \/ lstrip0 (gtin_number_of ref) <> lstrip0 t)
    \/ (found = true
        /\ exists g,
             refs' = (refs ++ [reference_row a "EAN" (PStr g) (PStr "")])%list
             /\ g <> "" /\ lstrip0 g = lstrip0 t).
Proof.
  induction gtin_data as [| ref rest IH]; intros refs' found H.
  - injection H as <- <-. left. split; [reflexivity |].
    split; [reflexivity | intros ref []].
  - cbn [specific_gtin_loop] in H.
    rewrite gtin_matches_leading_zeros in H.
    destruct (negb (gtin_number_of ref =? "")%string) eqn:Hne.
    + destruct (lstrip0 (gtin_number_of ref) =? lstrip0 t)%string eqn:Hm;
        cbn [andb] in H.
      * injection H as <- <-. right. split; [reflexivity |].
        exists (gtin_number_of ref). split; [reflexivity |].
        split; [| apply String.eqb_eq; exact Hm].
        intros E. rewrite E in Hne. discriminate.
      * destruct (IH _ _ H) as [[Hf [Hr Hall]] | Hfound]; [| right; exact Hfound].
        left. split; [exact Hf |]. split; [exact Hr |].
        intros x [<- | Hx]; [| auto].
        right. intros E. rewrite E, String.eqb_refl in Hm. discriminate.
    + cbn [andb] in H.
      destruct (IH _ _ H) as [[Hf [Hr Hall]] | Hfound]; [| right; exact Hfound].
      left. split; [exact Hf |]. split; [exact Hr |].
      intros x [<- | Hx]; [| auto].
      left. apply negb_false_iff in Hne. apply String.eqb_eq. exact Hne.
Qed.

(** X11. [extract_specific_gtin] accepts a GTIN exactly when it equals
    the target up to leading zeros (the three other tests of lines
    695-698 add nothing); it appends one [EAN] row and returns [True], or
    appends nothing and returns [False]; and over a list it returns
    [False] only when no non-empty entry equals the target up to leading
    zeros. *)
Theorem extract_specific_gtin_matches_leading_zeros :
  (forall g t, gtin_matches g t = (lstrip0 g =? lstrip0 t)%string)
  /\ (forall refs article_id article target_gtin refs' found,
         extract_specific_gtin refs article_id article target_gtin
         = Ok (refs', found) ->
         exists t,
           target_gtin = PStr t
           /\ ((found = false /\ refs' = refs)
               \/ (found = true
                   /\ exists g,
                        refs' = (refs ++ [reference_row article_id "EAN"
                                            (PStr g) (PStr "")])%list
                        /\ lstrip0 g = lstrip0 t)))
  /\ (forall refs article_id d t gtin_data refs',
         gtin_data_of d = PList gtin_data ->
         extract_specific_gtin refs article_id (PDict d) (PStr t)
         = Ok (refs', false) ->
         forall ref, In ref gtin_data ->
           gtin_number_of ref = ""
           \/ lstrip0 (gtin_number_of ref) <> lstrip0 t).
Proof.
  split; [exact gtin_matches_leading_zeros | split].
  - intros refs a article target refs' found H.
    unfold extract_specific_gtin in H.
    destruct target as [| | | t | |]; try discriminate.
    exists t. split; [reflexivity |].
    destruct article as [| | | | | d]; try discriminate.
    destruct (gtin_data_of d) as [| | | s | items |];
      try (injection H as <- <-; left; auto).
    + destruct (truthy (PStr s)); [| injection H as <- <-; left; auto].
      rewrite gtin_matches_leading_zeros in H.
      destruct (lstrip0 (strip s) =? lstrip0 t)%string eqn:Hm;
        injection H as <- <-; [| left; auto].
      right. split; [reflexivity |]. exists (strip s).
      split; [reflexivity | apply String.eqb_eq; exact Hm].
    + injection H as H.
      destruct (specific_gtin_loop_result _ _ _ _ _ _ H)
        as [[Hf [Hr _]] | [Hf [g [Hr [_ Hg]]]]]; [left; auto |].
      right. split; [exact Hf |]. exists g. auto.
  - intros refs a d t gtin_data refs' Hd H.
    unfold extract_specific_gtin in H. rewrite Hd in H. injection H as H.
    destruct (specific_gtin_loop_result _ _ _ _ _ _ H)
      as [[_ [_ Hall]] | [Hf _]]; [exact Hall | discriminate].
Qed.

Lemma add_gtin_step (a : pyval) (refs0 : list pydict) (ex0 : list pyval)
  (g : string) (numbers : list string) :
  NoDup numbers ->
  (forall n, In n numbers ->
             n <> "" /\ forall e, In e ex0 -> py_eqb e (PStr n) = false) ->
  exists numbers',
    add_gtin a g
      ((refs0 ++ ean_rows a numbers)%list,
       (ex0 ++ map PStr numbers)%list,
       Z.of_nat (List.length numbers))
    = ((refs0 ++ ean_rows a numbers')%list,
       (ex0 ++ map PStr numbers')%list,
       Z.of_nat (List.length numbers'))
    /\ NoDup numbers'
    /\ (forall n, In n numbers' ->
                  n <> "" /\ forall e, In e ex0 -> py_eqb e (PStr n) = false).
Proof.
  intros Hnd Hall. unfold add_gtin.
  destruct (negb (g =? "")%string) eqn:Hne; cbn [andb];
    [| exists numbers; auto].
  destruct (existsb (fun e => py_eqb e (PStr g)) (ex0 ++ map PStr numbers))
    eqn:Hex; cbn [negb]; [exists numbers; auto |].
  exists (numbers ++ [g])%list. split.
  - unfold ean_rows. rewrite !map_app, !app_assoc, length_app.
    cbn [map List.length]. f_equal. lia.
  - assert (Hnot : forall e, In e (ex0 ++ map PStr numbers)%list ->
                             py_eqb e (PStr g) = false).
    { intros e He. apply not_true_is_false. intros Hp.
      assert (existsb (fun e => py_eqb e (PStr g)) (ex0 ++ map PStr numbers)
              = true) by (apply existsb_exists; eauto).
      congruence. }
    split.
    + apply NoDup_app; [exact Hnd | constructor; [intros [] | constructor] |].
      intros x Hx [E | []]. subst x.
      assert (Hin : In (PStr g) (ex0 ++ map PStr numbers)%list)
        by (apply in_or_app; right; apply in_map; exact Hx).
      specialize (Hnot _ Hin). cbn [py_eqb] in Hnot.
      rewrite String.eqb_refl in Hnot. discriminate.
    + intros n Hn. apply in_app_or in Hn. destruct Hn as [Hn | [<- | []]];
        [auto |].
      split.
      * intros E. rewrite E in Hne. discriminate.
      * intros e He. apply Hnot. apply in_or_app. left. exact He.
Qed.

(** The numbers of the [EAN] rows of the parent are all in
    [existing_gtins], up to [==]. *)
Lemma collect_existing_gtins_covers (a : pyval) (refs : list pydict)
  (existing : list pyval) :
  collect_existing_gtins a refs = Ok existing ->
  forall r, In r refs -> is_ean_of a r = true ->
    exists e, In e existing
              /\ py_eqb e (dict_get r "number" (PStr "")) = true.
Proof.
  unfold collect_existing_gtins.
  assert (Hgen : forall l acc out,
            Forall (fun e => hashable e = true) acc ->
            foldM (fun acc ref =>
                     if is_ean_of a ref then
                       let number := dict_get ref "number" (PStr "") in
                       if hashable number
                       then Ok (if existsb (fun e => py_eqb e number) acc
                                then acc else (acc ++ [number])%list)
                       else Raise
                     else Ok acc) acc l = Ok out ->
            (forall e, In e acc -> In e out)
            /\ forall r, In r l -> is_ean_of a r = true ->
                 exists e, In e out
                           /\ py_eqb e (dict_get r "number" (PStr "")) = true).
  { induction l as [| x l IH]; intros acc out Hacc H.
    - injection H as <-. split; [auto | intros r []].
    - cbn [foldM] in H. destruct (is_ean_of a x) eqn:Hx.
      + cbv zeta in H.
        destruct (hashable (dict_get x "number" (PStr ""))) eqn:Hh;
          cbn [bind] in H; [| discriminate].
        destruct (existsb (fun e => py_eqb e (dict_get x "number" (PStr "")))
                    acc) eqn:Hex.
        * destruct (IH acc out Hacc H) as [H1 H2].
          split; [exact H1 |]. intros r [<- | Hr] He; [| auto].
          apply existsb_exists in Hex. destruct Hex as [e [Hin Hp]].
          exists e. auto.
        * assert (Hacc' : Forall (fun e => hashable e = true)
                            (acc ++ [dict_get x "number" (PStr "")])%list).
          { apply Forall_app. split; [exact Hacc | constructor; auto]. }
          destruct (IH _ out Hacc' H) as [H1 H2].
          split; [intros e He; apply H1, in_or_app; left; exact He |].
          intros r [<- | Hr] He; [| auto].
          exists (dict_get x "number" (PStr "")). split.
          -- apply H1, in_or_app. right. left. reflexivity.
          -- apply (py_eqb_canon _ _ Hh Hh). reflexivity.
      + cbn [bind] in H. destruct (IH acc out Hacc H) as [H1 H2].
        split; [exact H1 |]. intros r [<- | Hr] He; [congruence | auto]. }
  intros H. apply (Hgen refs [] existing (Forall_nil _) H).
Qed.

(** X12. [extract_gtins_from_article] appends one [EAN] row of the parent
    per number it accepts and returns how many it appended; the numbers
    are non-empty, pairwise different, and none of them is the number of
    an [EAN] row the parent already had. *)
Theorem extract_gtins_from_article_adds_new_numbers :
  forall (refs : list pydict) (article_id article : pyval)
         (refs' : list pydict) (gtin_count : Z),
    extract_gtins_from_article refs article_id article
    = Ok (refs', gtin_count) ->
    exists numbers,
      refs' = (refs ++ ean_rows article_id numbers)%list
      /\ gtin_count = Z.of_nat (List.length numbers)
      /\ NoDup numbers
      /\ forall g, In g numbers ->
           g <> ""
           /\ forall r, In r refs -> is_ean_of article_id r = true ->
                dict_get r "number" (PStr "") <> PStr g.
Proof.
  intros refs a article refs' cnt H.
  unfold extract_gtins_from_article in H.
  destruct (collect_existing_gtins a refs) as [ex0 |] eqn:Hex;
    cbn [bind] in H; [| discriminate].
  pose proof (collect_existing_gtins_covers a refs ex0 Hex) as Hcov.
  assert (Hfinal : forall numbers,
             NoDup numbers ->
             (forall n, In n numbers ->
                n <> "" /\ forall e, In e ex0 -> py_eqb e (PStr n) = false) ->
             NoDup numbers
             /\ forall g, In g numbers ->
                  g <> ""
                  /\ forall r, In r refs -> is_ean_of a r = true ->
                       dict_get r "number" (PStr "") <> PStr g).
  { intros numbers Hnd Hall. split; [exact Hnd |].
    intros g Hg. destruct (Hall g Hg) as [Hne Hnot]. split; [exact Hne |].
    intros r Hr He Heq. destruct (Hcov r Hr He) as [e [Hin Hp]].
    rewrite Heq in Hp. rewrite (Hnot e Hin) in Hp. discriminate. }
  assert (Hnone : exists numbers,
             refs = (refs ++ ean_rows a numbers)%list
             /\ 0 = Z.of_nat (List.length numbers)
             /\ NoDup numbers
             /\ forall g, In g numbers ->
                  g <> ""
                  /\ forall r, In r refs -> is_ean_of a r = true ->
                       dict_get r "number" (PStr "") <> PStr g).
  { exists []. cbn. rewrite app_nil_r. split; [reflexivity |].
    split; [reflexivity |]. split; [constructor | intros g []]. }
  assert (Hstart : (refs, ex0, 0)
                   = ((refs ++ ean_rows a [])%list,
                      (ex0 ++ map PStr [])%list,
                      Z.of_nat (List.length (@nil string)))).
  { cbn. rewrite !app_nil_r. reflexivity. }
  destruct article as [| | | | | d]; try discriminate.
  destruct (gtin_data_of d) as [| | | s | items |];
    try (injection H as <- <-; exact Hnone).
  - destruct (truthy (PStr s)); [| injection H as <- <-; exact Hnone].
    rewrite Hstart in H.
    destruct (add_gtin_step a refs ex0 (strip s) [] (NoDup_nil _))
      as [numbers [Hstep [Hnd Hall]]]; [intros n [] |].
    rewrite Hstep in H. injection H as <- <-.
    exists numbers. split; [reflexivity |]. split; [reflexivity |].
    apply Hfinal; assumption.
  - assert (Hfold : forall l numbers,
               NoDup numbers ->
               (forall n, In n numbers ->
                  n <> ""
                  /\ forall e, In e ex0 -> py_eqb e (PStr n) = false) ->
               exists numbers',
                 fold_left
                   (fun st ref => add_gtin a (gtin_number_of ref) st) l
                   ((refs ++ ean_rows a numbers)%list,
                    (ex0 ++ map PStr numbers)%list,
                    Z.of_nat (List.length numbers))
                 = ((refs ++ ean_rows a numbers')%list,
                    (ex0 ++ map PStr numbers')%list,
                    Z.of_nat (List.length numbers'))
                 /\ NoDup numbers'
                 /\ (forall n, In n numbers' ->
                       n <> ""
                       /\ forall e, In e ex0 ->
                            py_eqb e (PStr n) = false)).
    { induction l as [| x l IH]; intros numbers Hnd Hall.
      - exists numbers. auto.
      - cbn [fold_left].
        destruct (add_gtin_step a refs ex0 (gtin_number_of x) numbers Hnd
                    Hall) as [n1 [Hstep [Hnd1 Hall1]]].
        rewrite Hstep. apply IH; assumption. }
    rewrite Hstart in H.
    destruct (Hfold items [] (NoDup_nil _)) as [numbers [Hrun [Hnd Hall]]];
      [intros n [] |].
    rewrite Hrun in H. injection H as <- <-.
    exists numbers. split; [reflexivity |]. split; [reflexivity |].
    apply Hfinal; assumption.
Qed.

(** ** Pagination: what is accumulated *)

Lemma chars_length (s : string) : List.length (chars s) = String.length s.
Proof. induction s as [| c s IH]; cbn; [reflexivity | f_equal; exact IH]. Qed.

Lemma py_len_iter (v : pyval) (n : Z) (items : list pyval) :
  py_len v = Ok n -> py_iter v = Ok items ->
  n = Z.of_nat (List.length items).
Proof.
  destruct v as [| | | s | l | d]; try discriminate; cbn [py_len py_iter];
    intros [= <-] [= <-].
  - unfold str_len. rewrite chars_length. reflexivity.
  - reflexivity.
  - rewrite length_map. reflexivity.
Qed.

Lemma pages_from_snoc (p : Z) (k : nat) :
  pages_from p (S k) = (pages_from p k ++ [p + Z.of_nat k])%list.
Proof.
  unfold pages_from. rewrite seq_S, map_app. reflexivity.
Qed.

(** The loop, read as a whole: the pages it accepted, whether it then
    requested one more page that stopped it, and why it ended. *)
Lemma fetch_remaining_pages (make_request : Z -> pyval) (total : Z) :
  forall fuel st st' l,
    max_pages + 1 - ps_page st <= Z.of_nat fuel ->
    ps_all_targets st = PList l ->
    fetch_remaining make_request total fuel st = Ok st' ->
    exists (k : nat) (stopped : bool),
      let got := flat_map (page_items make_request)
                   (pages_from (ps_page st) k) in
      ps_all_targets st' = PList (l ++ got)
      /\ ps_returned st' = ps_returned st + Z.of_nat (List.length got)
      /\ ps_requested st'
         = (ps_requested st
              ++ pages_from (ps_page st) (k + if stopped then 1 else 0))%list
      /\ (stopped = false ->
          total <= ps_returned st' \/ max_pages < ps_page st + Z.of_nat k)
      /\ (stopped = true ->
          page_items make_request (ps_page st + Z.of_nat k) = []).
Proof.
  induction fuel as [| fuel IH]; intros st st' l Hfuel Hl H.
  - cbn in H. injection H as <-. exists 0%nat, false. cbn.
    rewrite !app_nil_r, !Z.add_0_r.
    split; [exact Hl |]. split; [reflexivity |]. split; [reflexivity |].
    split; [| discriminate].
    intros _. right. unfold max_pages in *. lia.
  - cbn [fetch_remaining] in H.
    assert (Hend : (ps_returned st <? total) && (ps_page st <=? max_pages)
                   = false ->
                   Ok st = Ok st' ->
                   exists (k : nat) (stopped : bool),
                     let got := flat_map (page_items make_request)
                                  (pages_from (ps_page st) k) in
                     ps_all_targets st' = PList (l ++ got)
                     /\ ps_returned st'
                        = ps_returned st + Z.of_nat (List.length got)
                     /\ ps_requested st'
                        = (ps_requested st
                             ++ pages_from (ps_page st)
                                  (k + if stopped then 1 else 0))%list
                     /\ (stopped = false ->
                         total <= ps_returned st'
                         \/ max_pages < ps_page st + Z.of_nat k)
                     /\ (stopped = true ->
                         page_items make_request (ps_page st + Z.of_nat k)
                         = [])).
    { intros Hg [= <-]. exists 0%nat, false. cbn.
      rewrite !app_nil_r, !Z.add_0_r.
      split; [exact Hl |]. split; [reflexivity |]. split; [reflexivity |].
      split; [| discriminate].
      intros _. apply andb_false_iff in Hg.
      destruct Hg as [Hg | Hg]; [left; apply Z.ltb_ge in Hg; lia |].
      right. apply Z.leb_gt in Hg. exact Hg. }
    destruct ((ps_returned st <? total) && (ps_page st <=? max_pages))
      eqn:Hguard; [| exact (Hend eq_refl H)].
    clear Hend.
    assert (Hstop : page_items make_request (ps_page st) = [] ->
              exists (k : nat) (stopped : bool),
                let got := flat_map (page_items make_request)
                             (pages_from (ps_page st) k) in
                PList l = PList (l ++ got)
                /\ ps_returned st
                   = ps_returned st + Z.of_nat (List.length got)
                /\ (ps_requested st ++ [ps_page st])%list
                   = (ps_requested st
                        ++ pages_from (ps_page st)
                             (k + if stopped then 1 else 0))%list
                /\ (stopped = false ->
                    total <= ps_returned st
                    \/ max_pages < ps_page st + Z.of_nat k)
                /\ (stopped = true ->
                    page_items make_request (ps_page st + Z.of_nat k) = [])).
    { intros Hempty. exists 0%nat, true. cbn.
      rewrite !app_nil_r, !Z.add_0_r.
      split; [reflexivity |]. split; [reflexivity |].
      split; [reflexivity |].
      split; [discriminate | intros _; exact Hempty]. }
    destruct (truthy (make_request (ps_page st))) eqn:Htruthy.
    2:{ cbn [bind] in H. injection H as <-.
        cbn [ps_all_targets ps_returned ps_requested]. rewrite Hl.
        apply Hstop. unfold page_items.
        destruct (make_request (ps_page st)) as [| | | | | d];
          try reflexivity.
        destruct d; [reflexivity | discriminate]. }
    destruct (py_in "linkageTargets" (make_request (ps_page st)))
      as [[|] |] eqn:Hin; cbn [bind] in H; [| | discriminate].
    2:{ injection H as <-.
        cbn [ps_all_targets ps_returned ps_requested]. rewrite Hl.
        apply Hstop. unfold page_items.
        destruct (make_request (ps_page st)) as [| | | | | d];
          try reflexivity.
        cbn [py_in] in Hin. injection Hin as Hin.
        cbn [py_get]. unfold dict_get. unfold dict_mem in Hin.
        destruct (dict_find "linkageTargets" d); [discriminate | reflexivity]. }
    destruct (py_get (make_request (ps_page st)) "linkageTargets" (PList []))
      as [page_targets |] eqn:Hget; cbn [bind] in H; [| discriminate].
    destruct (py_len page_targets) as [n |] eqn:Hlen; cbn [bind] in H;
      [| discriminate].
    destruct (n =? 0) eqn:Hn0.
    { injection H as <-.
      cbn [ps_all_targets ps_returned ps_requested]. rewrite Hl.
      apply Hstop. unfold page_items. rewrite Hget.
      destruct (py_iter page_targets) as [items |] eqn:Hit; [| reflexivity].
      pose proof (py_len_iter _ _ _ Hlen Hit) as E.
      apply Z.eqb_eq in Hn0. destruct items; [reflexivity |].
      cbn in E. lia. }
    destruct (py_iter page_targets) as [items |] eqn:Hit; cbn [bind] in H;
      [| discriminate].
    rewrite Hl in H. cbn [py_extend bind] in H.
    apply andb_true_iff in Hguard. destruct Hguard as [_ Hpage].
    apply Z.leb_le in Hpage.
    apply IH with (l := (l ++ items)%list) in H;
      [| cbn [ps_page]; lia | reflexivity].
    cbn [ps_all_targets ps_returned ps_page ps_requested] in H.
    destruct H as [k [stopped H]]. cbv zeta in H.
    destruct H as [Hall [Hret [Hreq [Hnot Hyes]]]].
    assert (Hitems : page_items make_request (ps_page st) = items).
    { unfold page_items. rewrite Hget, Hit. reflexivity. }
    exists (S k), stopped. cbv zeta.
    rewrite pages_from_S. cbn [flat_map]. rewrite Hitems.
    replace (ps_page st + Z.of_nat (S k))
      with (ps_page st + 1 + Z.of_nat k) by lia.
    split; [rewrite Hall, <- app_assoc; reflexivity |].
    split.
    { rewrite Hret, length_app, (py_len_iter _ _ _ Hlen Hit). lia. }
    split.
    { rewrite Hreq, <- app_assoc. cbn [plus].
      rewrite pages_from_S. reflexivity. }
    split; assumption.
Qed.

(** X13. What [get_linkage_targets] returns after a first page that is a
    list: the first page followed, in page order, by every record of the
    pages 2 to [k+1] it accepted, with the other keys of the first
    response untouched.  It requested those pages and at most one more,
    and one more only when that page failed or had no records. *)
Theorem get_linkage_targets_concatenates_pages :
  forall (make_request : Z -> pyval) (d1 : pydict) (first : list pyval)
         (response : pyval) (requested : list Z),
    make_request 1 = PDict d1 ->
    dict_find "linkageTargets" d1 = Some (PList first) ->
    get_linkage_targets make_request = Ok (response, requested) ->
    exists (d' : pydict) (k : nat) (stopped : bool),
      response = PDict d'
      /\ dict_find "linkageTargets" d'
         = Some (PList (first
                          ++ flat_map (page_items make_request)
                               (pages_from 2 k)))
      /\ (forall f, ("linkageTargets" =? f)%string = false ->
                    dict_find f d' = dict_find f d1)
      /\ requested = pages_from 1 (S k + if stopped then 1 else 0)
      /\ (stopped = true ->
          page_items make_request (2 + Z.of_nat k) = []).
Proof.
  intros make_request d1 first response requested H1 Hf H.
  assert (Hsame : Ok (PDict d1, [1]) = Ok (response, requested) ->
            exists (d' : pydict) (k : nat) (stopped : bool),
              response = PDict d'
              /\ dict_find "linkageTargets" d'
                 = Some (PList (first
                                  ++ flat_map (page_items make_request)
                                       (pages_from 2 k)))
              /\ (forall f, ("linkageTargets" =? f)%string = false ->
                            dict_find f d' = dict_find f d1)
              /\ requested = pages_from 1 (S k + if stopped then 1 else 0)
              /\ (stopped = true ->
                  page_items make_request (2 + Z.of_nat k) = [])).
  { intros [= <- <-]. exists d1, 0%nat, false. cbn.
    rewrite app_nil_r.
    split; [reflexivity |]. split; [exact Hf |]. split; [reflexivity |].
    split; [reflexivity | discriminate]. }
  unfold get_linkage_targets in H. rewrite H1 in H.
  rewrite (dict_find_some_truthy _ _ _ Hf) in H.
  rewrite (dict_mem_some _ _ _ Hf) in H.
  unfold dict_get at 1 in H. rewrite Hf in H. cbn [py_len bind py_in] in H.
  destruct (dict_mem "total" d1); [| exact (Hsame H)].
  cbn [py_get bind] in H.
  replace (dict_get d1 "linkageTargets" (PList [])) with (PList first) in H
    by (unfold dict_get; rewrite Hf; reflexivity).
  cbn [py_len bind] in H.
  destruct (py_num (dict_get d1 "total" (PInt 0))) as [total |];
    cbn [bind] in H; [| discriminate].
  destruct ((total >? Z.of_nat (List.length first))
            && (Z.of_nat (List.length first) >? 0)); [| exact (Hsame H)].
  destruct (fetch_remaining make_request total (Z.to_nat (max_pages - 1)) _)
    as [st |] eqn:Hrun; cbn [bind] in H; [| discriminate].
  injection H as <- <-.
  apply fetch_remaining_pages with (l := first) in Hrun;
    [| cbn [ps_page]; rewrite Z2Nat.id; unfold max_pages; lia | reflexivity].
  cbn [ps_page ps_requested ps_returned] in Hrun.
  destruct Hrun as [k [stopped Hrun]]. cbv zeta in Hrun.
  destruct Hrun as [Hall [_ [Hreq [_ Hyes]]]].
  exists (dict_set d1 "linkageTargets" (ps_all_targets st)), k, stopped.
  split; [reflexivity |]. split.
  { rewrite dict_find_set_same, Hall. reflexivity. }
  split.
  { intros f Hne. apply dict_find_set_other. exact Hne. }
  split; [| exact Hyes].
  rewrite Hreq. cbn [plus]. rewrite pages_from_S. reflexivity.
Qed.

(** X14. A first page that declares no total, or holds all the records
    its total declares, or holds none, is returned as it came after that
    one request. *)
Theorem get_linkage_targets_single_page :
  forall (make_request : Z -> pyval) (d1 : pydict) (first : list pyval),
    make_request 1 = PDict d1 ->
    dict_find "linkageTargets" d1 = Some (PList first) ->
    (dict_find "total" d1 = None
     \/ (exists total,
            dict_find "total" d1 = Some (PInt total)
            /\ (total <= Z.of_nat (List.length first) \/ first = []))) ->
    get_linkage_targets make_request = Ok (PDict d1, [1]).
Proof.
  intros make_request d1 first H1 Hf Hcase.
  unfold get_linkage_targets. rewrite H1.
  rewrite (dict_find_some_truthy _ _ _ Hf), (dict_mem_some _ _ _ Hf).
  unfold dict_get at 1. rewrite Hf. cbn [py_len bind py_in].
  destruct Hcase as [Hnone | [total [Ht Hc]]].
  - rewrite (dict_mem_none _ _ Hnone). reflexivity.
  - rewrite (dict_mem_some _ _ _ Ht). cbn [py_get bind].
    unfold dict_get. rewrite Ht, Hf. cbn [py_len py_num bind].
    replace ((total >? Z.of_nat (List.length first))
             && (Z.of_nat (List.length first) >? 0)) with false;
      [reflexivity |].
    symmetry. apply andb_false_iff. destruct Hc as [Hc | ->].
    + left. rewrite Z.gtb_ltb. apply Z.ltb_ge. exact Hc.
    + right. reflexivity.
Qed.

(** ** Deduplication, again *)

Lemma subseq_length {A : Type} (l1 l2 : list A) :
  subseq l1 l2 -> (List.length l1 <= List.length l2)%nat.
Proof.
  induction 1 as [| y l1 l2 _ IH | y l1 l2 _ IH]; cbn [List.length]; lia.
Qed.

(** Rows with pairwise different keys all pass the loop. *)
Lemma dedupe_loop_distinct :
  forall data out0,
    Forall (fun v => key_hashable v = true) (out0 ++ data)%list ->
    NoDup (map canon_key (out0 ++ data)%list) ->
    dedupe_loop data (map unique_key out0) out0 = Ok (out0 ++ data)%list.
Proof.
  induction data as [| v rest IH]; intros out0 Hh Hnd.
  - cbn [dedupe_loop]. rewrite app_nil_r. reflexivity.
  - pose proof (proj1 (Forall_app _ _ _) Hh) as [Hout Hdata].
    inversion Hdata as [| v' rest' Hv Hrest]; subst v' rest'.
    cbn [dedupe_loop]. change (forallb hashable (unique_key v))
      with (key_hashable v). rewrite Hv.
    destruct (seen (map unique_key out0) (unique_key v)) eqn:Hseen.
    + apply (seen_canon out0 v Hout Hv) in Hseen.
      rewrite map_app in Hnd. cbn [map] in Hnd.
      apply NoDup_remove_2 in Hnd. exfalso. apply Hnd.
      apply in_or_app. left. exact Hseen.
    + replace (map unique_key out0 ++ [unique_key v])%list
        with (map unique_key (out0 ++ [v])%list)
        by (rewrite map_app; reflexivity).
      rewrite IH; rewrite <- app_assoc; cbn [app]; auto.
Qed.

Lemma distinct_keys_NoDup (data : list pydict) :
  Forall (fun v => key_hashable v = true) data ->
  (forall pre w post,
      data = (pre ++ w :: post)%list ->
      forall x, In x pre -> same_key x w = false) ->
  NoDup (map canon_key data).
Proof.
  induction data as [| w data IH] using rev_ind; intros Hh Hd.
  - constructor.
  - apply Forall_app in Hh. destruct Hh as [Hh Hw].
    inversion Hw as [| w' l' Hw' _]; subst w' l'.
    rewrite map_app. apply NoDup_app.
    + apply IH; [exact Hh |].
      intros pre y post -> x Hx.
      apply (Hd pre y (post ++ [w])%list); [| exact Hx].
      rewrite <- app_assoc. reflexivity.
    + cbn [map]. constructor; [intros [] | constructor].
    + intros k Hk [<- | []]. apply in_map_iff in Hk.
      destruct Hk as [x [He Hx]].
      rewrite Forall_forall in Hh.
      apply (same_key_canon x w (Hh _ Hx) Hw') in He.
      rewrite (Hd data w [] eq_refl x Hx) in He. discriminate.
Qed.

(** X15. Deduplicating twice is deduplicating once, the result is never
    longer than the input, and rows whose natural keys are pairwise
    different all survive, in their order. *)
Theorem deduplicate_vehicles_idempotent :
  forall data,
    Forall (fun v => key_hashable v = true) data ->
    exists out,
      deduplicate_vehicles data = Ok out
      /\ deduplicate_vehicles out = Ok out
      /\ (List.length out <= List.length data)%nat
      /\ ((forall pre w post,
              data = (pre ++ w :: post)%list ->
              forall x, In x pre -> same_key x w = false) ->
          out = data).
Proof.
  intros data Hdata.
  destruct (dedupe_loop_spec data [] Hdata (Forall_nil _))
    as [out [Hrun [Hsub [_ [Hnd _]]]]].
  cbn [map app] in Hrun.
  assert (Hout : Forall (fun v => key_hashable v = true) out).
  { apply Forall_forall. intros w Hw.
    rewrite Forall_forall in Hdata. apply Hdata.
    eapply subseq_In; eassumption. }
  exists out. split; [exact Hrun |].
  split; [exact (dedupe_loop_distinct out [] Hout Hnd) |].
  split; [apply subseq_length; exact Hsub |].
  intros Hd.
  pose proof (dedupe_loop_distinct data [] Hdata
                (distinct_keys_NoDup data Hdata Hd)) as Hrun'.
  cbn [map app] in Hrun'. unfold deduplicate_vehicles in Hrun.
  congruence.
Qed.

(** ** Year fields, again *)

Lemma length_append (a b : string) :
  String.length (a ++ b) = (String.length a + String.length b)%nat.
Proof.
  induction a as [| c a IH]; cbn [String.append String.length];
    [reflexivity | rewrite IH; reflexivity].
Qed.

Lemma str_contains_append (needle a b : string) :
  str_contains needle b = true -> str_contains needle (a ++ b) = true.
Proof.
  intros H. induction a as [| c a IH]; cbn [String.append str_contains];
    [exact H | rewrite IH; apply orb_true_r].
Qed.

Lemma format_year_month_str (s : string) :
  _format_year_month (PStr s)
  = if (s =? "")%string then ""
    else if (String.length s =? 7)%nat && str_contains "-" s then s
    else if (String.length s =? 6)%nat && isdigit s
    then substring 0 4 s ++ "-" ++ substring 4 2 s
    else if (String.length s =? 4)%nat && isdigit s then s ++ "-01"
    else s.
Proof. destruct s; reflexivity. Qed.

(** A string made of digits has no separator in it. *)
Lemma all_digits_no_dash (s : string) :
  all_chars is_digit s = true -> str_contains "-" s = false.
Proof.
  induction s as [| c s IH]; [reflexivity |].
  cbn [all_chars]. intros H. apply andb_true_iff in H.
  destruct H as [Hc Hs]. cbn [str_contains]. rewrite (IH Hs), orb_false_r.
  cbn [prefix].
  destruct (ascii_dec "-" c) as [<- | _]; [discriminate | reflexivity].
Qed.

(** X16. [_format_year_month] is idempotent: formatting a formatted value
    changes nothing.  What it returns is empty, or has seven characters
    with a separator among them, or is the string form of the input, to
    which no rule applied. *)
Theorem format_year_month_idempotent :
  forall v,
    _format_year_month (PStr (_format_year_month v)) = _format_year_month v
    /\ (_format_year_month v = ""
        \/ (String.length (_format_year_month v) = 7%nat
            /\ str_contains "-" (_format_year_month v) = true)
        \/ _format_year_month v = py_str v).
Proof.
  intros v.
  assert (Hshape :
            _format_year_month v = ""
            \/ (String.length (_format_year_month v) = 7%nat
                /\ str_contains "-" (_format_year_month v) = true)
            \/ (_format_year_month v = py_str v
                /\ _format_year_month (PStr (py_str v)) = py_str v)).
  { unfold _format_year_month at 1 2 3 4.
    destruct (truthy v); cbn [negb]; [| left; reflexivity].
    right. set (s := py_str v).
    destruct ((String.length s =? 7)%nat && str_contains "-" s) eqn:H7.
    { left. apply andb_true_iff in H7. destruct H7 as [Hl Hc].
      apply Nat.eqb_eq in Hl. auto. }
    destruct ((String.length s =? 6)%nat && isdigit s) eqn:H6.
    { left. apply andb_true_iff in H6. destruct H6 as [Hl _].
      apply Nat.eqb_eq in Hl.
      do 7 (destruct s as [| ? s]; try discriminate Hl).
      split; [reflexivity |].
      cbn [substring String.append].
      apply (str_contains_append "-" (String _ (String _ (String _
               (String _ ""))))). reflexivity. }
    destruct ((String.length s =? 4)%nat && isdigit s) eqn:H4.
    { left. apply andb_true_iff in H4. destruct H4 as [Hl _].
      apply Nat.eqb_eq in Hl. split.
      - rewrite length_append, Hl. reflexivity.
      - apply str_contains_append. reflexivity. }
    right. split; [reflexivity |].
    rewrite format_year_month_str, H7, H6, H4.
    destruct (s =? "")%string eqn:E; [| reflexivity].
    apply String.eqb_eq in E. symmetry. exact E. }
  split.
  - destruct Hshape as [E | [[Hl Hc] | [E Hfix]]].
    + rewrite E. reflexivity.
    + rewrite format_year_month_str, Hl, Hc.
      destruct (_format_year_month v); [discriminate Hl | reflexivity].
    + rewrite E. exact Hfix.
  - destruct Hshape as [E | [H | [E _]]]; auto.
Qed.

(** ** Batches of linkage pairs *)

Lemma batches_count (n : nat) :
  n <> 0%nat ->
  ((n + (batch_size - 1)) / batch_size
   = S ((n - batch_size + (batch_size - 1)) / batch_size))%nat.
Proof.
  unfold batch_size. change (25 - 1)%nat with 24%nat. intros Hn.
  destruct (Nat.le_gt_cases n 25) as [Hle | Hgt].
  - replace (n - 25)%nat with 0%nat by lia.
    change ((0 + 24) / 25)%nat with 0%nat.
    symmetry. apply (Nat.div_unique _ _ _ (n - 1)); lia.
  - replace (n + 24)%nat with ((n - 25 + 24) + 1 * 25)%nat by lia.
    rewrite Nat.div_add by lia. lia.
Qed.

Lemma batches_nil {A : Type} : batches (@nil A) = [].
Proof. reflexivity. Qed.

(** The first slice, then the slices of what is behind it. *)
Lemma batches_cons {A : Type} (l : list A) :
  l <> [] ->
  batches l = firstn batch_size l :: batches (skipn batch_size l).
Proof.
  intros Hl. unfold batches, batch_starts.
  rewrite length_skipn.
  rewrite (batches_count (List.length l))
    by (destruct l; [congruence | discriminate]).
  set (k := ((List.length l - batch_size + (batch_size - 1)) / batch_size)%nat).
  cbn [seq map]. f_equal.
  rewrite <- seq_shift, !map_map. apply map_ext. intros j.
  rewrite skipn_skipn. f_equal. f_equal. unfold batch_size. lia.
Qed.

(** X17. The batches [main] sends to the detail query cut the list of
    linkage pairs into consecutive pieces: put end to end they are the
    list, each holds at least one and at most 25 pairs, every one before
    the last holds exactly 25, and their number is the total the progress
    line announces. *)
Theorem batches_partition :
  forall (A : Type) (all_linkage_pairs : list A),
    List.concat (batches all_linkage_pairs) = all_linkage_pairs
    /\ Forall (fun batch => (1 <= List.length batch <= batch_size)%nat)
         (batches all_linkage_pairs)
    /\ Forall (fun batch => List.length batch = batch_size)
         (removelast (batches all_linkage_pairs))
    /\ (all_linkage_pairs <> [] ->
        List.length (batches all_linkage_pairs)
        = ((List.length all_linkage_pairs - 1) / batch_size + 1)%nat).
Proof.
  intros A l.
  assert (Hind : forall n (l : list A),
             (List.length l <= n)%nat ->
             List.concat (batches l) = l
             /\ Forall (fun b => (1 <= List.length b <= batch_size)%nat)
                  (batches l)
             /\ Forall (fun b => List.length b = batch_size)
                  (removelast (batches l))).
  { clear l. induction n as [| n IH]; intros l Hn.
    - destruct l; [| cbn in Hn; lia]. rewrite batches_nil.
      split; [reflexivity |]. split; constructor.
    - destruct l as [| x l]; [rewrite batches_nil;
                               split; [reflexivity |]; split; constructor |].
      rewrite batches_cons by discriminate.
      destruct (IH (skipn batch_size (x :: l))) as [Hc [Hs Hf]].
      { rewrite length_skipn. unfold batch_size. cbn [List.length] in *. lia. }
      split; [| split].
      + cbn [List.concat]. rewrite Hc. apply firstn_skipn.
      + constructor; [| exact Hs].
        rewrite length_firstn. unfold batch_size. cbn [List.length]. lia.
      + destruct (skipn batch_size (x :: l)) as [| y rest] eqn:Hsk.
        * rewrite batches_nil. constructor.
        * rewrite batches_cons by discriminate.
          rewrite batches_cons in Hf by discriminate.
          cbn [removelast]. cbn [removelast] in Hf.
          constructor; [| exact Hf].
          rewrite length_firstn.
          assert (Hlen : List.length (skipn batch_size (x :: l)) <> 0%nat)
            by (rewrite Hsk; discriminate).
          rewrite length_skipn in Hlen. lia. }
  destruct (Hind _ l (le_n _)) as [Hc [Hs Hf]].
  split; [exact Hc |]. split; [exact Hs |]. split; [exact Hf |].
  intros Hl. unfold batches, batch_starts.
  rewrite !length_map, length_seq.
  assert (Hn : List.length l <> 0%nat)
    by (destruct l; [congruence | discriminate]).
  unfold batch_size. change (25 - 1)%nat with 24%nat.
  replace (List.length l + 24)%nat
    with ((List.length l - 1) + 1 * 25)%nat by lia.
  apply Nat.div_add. lia.
Qed.

(** ** Category path *)

Lemma py_eqb_None (v : pyval) : py_eqb v PNone = true <-> v = PNone.
Proof.
  destruct v; cbn [py_eqb]; split; congruence.
Qed.

(** With no current id, the test of line 522 is the test of line 501. *)
Lemma is_child_of_None (node : pydict) :
  is_child_of PNone node = is_root node.
Proof.
  unfold is_child_of, is_root, dict_get.
  destruct (dict_find "parentNodeId" node) as [v |]; [| reflexivity].
  destruct v; reflexivity.
Qed.

Lemma find_is_child_of_None (counts : list pydict) :
  find (is_child_of PNone) counts = find is_root counts.
Proof.
  induction counts as [| node counts IH]; [reflexivity |].
  cbn [find]. rewrite is_child_of_None, IH. reflexivity.
Qed.

Lemma follow_children_no_id (counts : list pydict) (root_node : pydict) :
  find is_root counts = Some root_node ->
  dict_get root_node "assemblyGroupNodeId" PNone = PNone ->
  forall fuel path_parts node_ids,
    follow_children fuel counts PNone path_parts node_ids = None.
Proof.
  intros Hroot Hid. induction fuel as [| fuel IH]; intros path ids.
  - reflexivity.
  - cbn [follow_children].
    rewrite find_is_child_of_None, Hroot.
    rewrite Hid. apply IH.
Qed.

(** X18. [_build_category_hierarchy_from_facets] does not return when
    the root it finds, the first node without a parent, has no
    [assemblyGroupNodeId] or has [None] there: every round of the loop
    of lines 519-530 finds the root again as its own child. *)
Theorem category_path_needs_root_id :
  forall (d : pydict) (nodes : list pyval) (counts : list pydict)
         (root_node : pydict),
    d <> [] ->
    dict_find "counts" d = Some (PList nodes) ->
    check_nodes nodes = Ok counts ->
    find is_root counts = Some root_node ->
    root_node <> [] ->
    dict_get root_node "assemblyGroupNodeId" PNone = PNone ->
    forall fuel,
      _build_category_hierarchy_from_facets fuel (PDict d) = None.
Proof.
  intros d nodes counts root_node Hd Hc Hn Hroot Hne Hid fuel.
  unfold _build_category_hierarchy_from_facets.
  assert (Ht : truthy (PDict d) = true) by (destruct d; [congruence | reflexivity]).
  rewrite Ht. cbn [negb py_in]. rewrite (dict_mem_some _ _ _ Hc).
  cbn [py_get].
  replace (dict_get d "counts" (PList [])) with (PList nodes)
    by (unfold dict_get; rewrite Hc; reflexivity).
  destruct nodes as [| n0 nodes].
  { cbn in Hn. injection Hn as <-. discriminate Hroot. }
  cbn [truthy negb py_iter bind]. rewrite Hn, Hroot.
  destruct root_node as [| kv root_node]; [congruence |].
  rewrite Hid.
  rewrite (follow_children_no_id counts (kv :: root_node) Hroot Hid).
  reflexivity.
Qed.

(** ** Linkage pairs *)

Lemma mapM_from {A B : Type} (f : A -> res B) :
  forall l r y, mapM f l = Ok r -> In y r ->
                exists x, In x l /\ f x = Ok y.
Proof.
  induction l as [| a l IH]; intros r y H Hin.
  - injection H as <-. destruct Hin.
  - cbn [mapM] in H. destruct (f a) as [b |] eqn:Hf; cbn [bind] in H;
      [| discriminate].
    destruct (mapM f l) as [bs |]; cbn [bind] in H; [| discriminate].
    injection H as <-. destruct Hin as [<- | Hin].
    + exists a. split; [left; reflexivity | exact Hf].
    + destruct (IH bs y eq_refl Hin) as [x [Hx Hy]].
      exists x. split; [right; exact Hx | exact Hy].
Qed.

(** A pair as [extract_linkage_pairs] builds it. *)
Lemma pair_of_link_shape (link : pyval) (linkage_pair : pydict) :
  pair_of_link link = Ok (Some linkage_pair) ->
  exists article_link_id linking_target_id,
    linkage_pair = [("articleLinkId", article_link_id);
                    ("linkingTargetId", linking_target_id)]
    /\ py_item link "articleLinkId" = Ok article_link_id
    /\ py_item link "linkingTargetId" = Ok linking_target_id.
Proof.
  unfold pair_of_link. intros H.
  destruct (py_in "articleLinkId" link) as [[|] |]; cbn [bind] in H;
    try discriminate.
  destruct (py_in "linkingTargetId" link) as [[|] |]; cbn [bind] in H;
    try discriminate.
  destruct (py_item link "articleLinkId") as [a |]; cbn [bind] in H;
    [| discriminate].
  destruct (py_item link "linkingTargetId") as [t |]; cbn [bind] in H;
    [| discriminate].
  injection H as <-. exists a, t. auto.
Qed.

Lemma py_item_in (v : pyval) (k : string) (x : pyval) :
  py_item v k = Ok x -> py_in k v = Ok true.
Proof.
  destruct v as [| | | | | d]; try discriminate. cbn [py_item py_in].
  unfold dict_mem. destruct (dict_find k d); [reflexivity | discriminate].
Qed.

Lemma pair_of_link_both (link article_link_id linking_target_id : pyval) :
  py_item link "articleLinkId" = Ok article_link_id ->
  py_item link "linkingTargetId" = Ok linking_target_id ->
  pair_of_link link
  = Ok (Some [("articleLinkId", article_link_id);
              ("linkingTargetId", linking_target_id)]).
Proof.
  intros Ha Ht. unfold pair_of_link.
  rewrite (py_item_in _ _ _ Ha). cbn [bind].
  rewrite (py_item_in _ _ _ Ht). cbn [bind].
  rewrite Ha, Ht. reflexivity.
Qed.

(** The pairs of one item are made of its links, and of all of them that
    have both ids. *)
Lemma pairs_of_item_shape (item : pyval) (pairs : list pydict) :
  pairs_of_item item = Ok pairs ->
  forall linkage_pair, In linkage_pair pairs ->
    exists al links_v links link,
      py_item item "articleLinkages" = Ok (PDict al)
      /\ dict_find "array" al = Some links_v
      /\ py_iter links_v = Ok links
      /\ In link links
      /\ pair_of_link link = Ok (Some linkage_pair).
Proof.
  unfold pairs_of_item. intros H p Hp.
  destruct (py_in "articleLinkages" item) as [[|] |]; cbn [bind] in H;
    try discriminate; [| injection H as <-; destruct Hp].
  destruct (py_item item "articleLinkages") as [al |] eqn:Hal;
    cbn [bind] in H; [| discriminate].
  destruct al as [| | | | | al]; try (injection H as <-; destruct Hp).
  destruct (dict_find "array" al) as [links_v |] eqn:Hfind;
    [| injection H as <-; destruct Hp].
  destruct (py_iter links_v) as [links |] eqn:Hit; cbn [bind] in H;
    [| discriminate].
  destruct (mapM pair_of_link links) as [found |] eqn:Hm; cbn [bind] in H;
    [| discriminate].
  injection H as <-. apply in_flat_map in Hp.
  destruct Hp as [o [Ho Hp]]. destruct o as [q |]; [| destruct Hp].
  destruct Hp as [<- | []].
  destruct (mapM_from _ _ _ _ Hm Ho) as [link [Hin Hl]].
  exists al, links_v, links, link.
  repeat (split; [assumption || reflexivity |]). exact Hl.
Qed.

Lemma pairs_of_item_complete (item : pyval) (pairs : list pydict)
  (al : pydict) (links_v : pyval) (links : list pyval)
  (link article_link_id linking_target_id : pyval) :
  pairs_of_item item = Ok pairs ->
  py_item item "articleLinkages" = Ok (PDict al) ->
  dict_find "array" al = Some links_v ->
  py_iter links_v = Ok links ->
  In link links ->
  py_item link "articleLinkId" = Ok article_link_id ->
  py_item link "linkingTargetId" = Ok linking_target_id ->
  In [("articleLinkId", article_link_id);
      ("linkingTargetId", linking_target_id)] pairs.
Proof.
  intros H Hal Harr Hit Hin Ha Ht. unfold pairs_of_item in H.
  rewrite (py_item_in _ _ _ Hal) in H. cbn [bind] in H.
  rewrite Hal in H. cbn [bind] in H. rewrite Harr, Hit in H.
  cbn [bind] in H.
  destruct (mapM pair_of_link links) as [found |] eqn:Hm; cbn [bind] in H;
    [| discriminate].
  injection H as <-.
  destruct (mapM_In _ _ _ _ Hm Hin) as [o [Ho Hfound]].
  rewrite (pair_of_link_both _ _ _ Ha Ht) in Ho. injection Ho as <-.
  apply in_flat_map. eexists. split; [exact Hfound | left; reflexivity].
Qed.

Lemma extract_linkage_pairs_shape (linkages_response : pyval)
  (pairs : list pydict) :
  extract_linkage_pairs linkages_response = Ok pairs ->
  forall linkage_pair, In linkage_pair pairs ->
    exists link,
      link_of linkages_response link
      /\ pair_of_link link = Ok (Some linkage_pair).
Proof.
  unfold extract_linkage_pairs. intros H p Hp.
  destruct (py_in "data" linkages_response) as [[|] |]; cbn [bind] in H;
    try discriminate; [| injection H as <-; destruct Hp].
  destruct (py_item linkages_response "data") as [data |] eqn:Hdata;
    cbn [bind] in H; [| discriminate].
  destruct (py_in "array" data) as [[|] |]; cbn [bind] in H;
    try discriminate; [| injection H as <-; destruct Hp].
  destruct (py_item data "array") as [arr |] eqn:Harr; cbn [bind] in H;
    [| discriminate].
  destruct (py_iter arr) as [items |] eqn:Hitems; cbn [bind] in H;
    [| discriminate].
  destruct (mapM pairs_of_item items) as [per_item |] eqn:Hm;
    cbn [bind] in H; [| discriminate].
  injection H as <-. apply in_concat in Hp.
  destruct Hp as [ps [Hps Hp]].
  destruct (mapM_from _ _ _ _ Hm Hps) as [item [Hitem Hi]].
  destruct (pairs_of_item_shape item ps Hi p Hp)
    as [al [links_v [links [link [Hal [Hfind [Hit [Hin Hl]]]]]]]].
  exists link. split; [| exact Hl].
  exists data, arr, items, item, al, links_v, links.
  repeat (split; [assumption |]). assumption.
Qed.

Lemma extract_linkage_pairs_complete (linkages_response : pyval)
  (pairs : list pydict) (link article_link_id linking_target_id : pyval) :
  extract_linkage_pairs linkages_response = Ok pairs ->
  link_of linkages_response link ->
  py_item link "articleLinkId" = Ok article_link_id ->
  py_item link "linkingTargetId" = Ok linking_target_id ->
  In [("articleLinkId", article_link_id);
      ("linkingTargetId", linking_target_id)] pairs.
Proof.
  intros H [data [arr [items [item [al [links_v [links
             [Hdata [Harr [Hitems [Hitem [Hal [Hfind [Hit Hin]]]]]]]]]]]]]]
         Ha Ht.
  unfold extract_linkage_pairs in H.
  rewrite (py_item_in _ _ _ Hdata) in H. cbn [bind] in H.
  rewrite Hdata in H. cbn [bind] in H.
  rewrite (py_item_in _ _ _ Harr) in H. cbn [bind] in H.
  rewrite Harr in H. cbn [bind] in H. rewrite Hitems in H. cbn [bind] in H.
  destruct (mapM pairs_of_item items) as [per_item |] eqn:Hm;
    cbn [bind] in H; [| discriminate].
  injection H as <-.
  destruct (mapM_In _ _ _ _ Hm Hitem) as [ps [Hps Hper]].
  apply in_concat. exists ps. split; [exact Hper |].
  exact (pairs_of_item_complete item ps al links_v links link _ _
           Hps Hal Hfind Hit Hin Ha Ht).
Qed.

Lemma batch_incl {A : Type} (l batch : list A) :
  In batch (batches l) -> incl batch l.
Proof.
  unfold batches. intros H. apply in_map_iff in H.
  destruct H as [i [<- _]]. intros x Hx.
  assert (Hs : In x (skipn i l)).
  { rewrite <- (firstn_skipn batch_size (skipn i l)).
    apply in_or_app. left. exact Hx. }
  rewrite <- (firstn_skipn i l). apply in_or_app. right. exact Hs.
Qed.

Lemma linkage_pairs_map_total (batch : list pydict) :
  Forall (fun linkage_pair =>
            exists a t,
              linkage_pair = [("articleLinkId", a); ("linkingTargetId", t)]
              /\ hashable a = true) batch ->
  forall m0,
  exists m,
    foldM (fun m linkage_pair =>
             article_link_id <- py_item (PDict linkage_pair) "articleLinkId" ;;
             linking_target_id <-
               py_item (PDict linkage_pair) "linkingTargetId" ;;
             if hashable article_link_id
             then Ok (kset m article_link_id linking_target_id)
             else Raise)
          m0 batch = Ok m.
Proof.
  induction 1 as [| p batch [a [t [-> Ha]]] _ IH]; intros m0.
  - exists m0. reflexivity.
  - cbn [foldM py_item dict_find String.eqb Ascii.eqb Bool.eqb bind].
    rewrite Ha. cbn [bind]. apply IH.
Qed.

(** X19. Every pair [extract_linkage_pairs] returns has the two keys
    [articleLinkId] and [linkingTargetId] and no other, with the values
    that one link of the response, an element of
    [articleLinkages['array']] of an element of [data['array']], has
    under them; and every link of the response that has both keys gives
    its pair.  So building the map of line 2244 over a batch of them
    never misses a key: with link ids that can be hashed it succeeds on
    every batch [main] cuts. *)
Theorem linkage_pairs_have_both_ids :
  forall (linkages_response : pyval) (pairs : list pydict),
    extract_linkage_pairs linkages_response = Ok pairs ->
    Forall (fun linkage_pair =>
              exists link article_link_id linking_target_id,
                link_of linkages_response link
                /\ py_item link "articleLinkId" = Ok article_link_id
                /\ py_item link "linkingTargetId" = Ok linking_target_id
                /\ linkage_pair = [("articleLinkId", article_link_id);
                                   ("linkingTargetId", linking_target_id)])
           pairs
    /\ (forall link article_link_id linking_target_id,
           link_of linkages_response link ->
           py_item link "articleLinkId" = Ok article_link_id ->
           py_item link "linkingTargetId" = Ok linking_target_id ->
           In [("articleLinkId", article_link_id);
               ("linkingTargetId", linking_target_id)] pairs)
    /\ (Forall (fun linkage_pair =>
                  hashable (dict_get linkage_pair "articleLinkId" PNone)
                  = true) pairs ->
        Forall (fun batch => exists m, linkage_pairs_map batch = Ok m)
               (batches pairs)).
Proof.
  intros resp pairs H.
  assert (Hshape : forall p, In p pairs ->
             exists link a t,
               link_of resp link
               /\ py_item link "articleLinkId" = Ok a
               /\ py_item link "linkingTargetId" = Ok t
               /\ p = [("articleLinkId", a); ("linkingTargetId", t)]).
  { intros p Hp.
    destruct (extract_linkage_pairs_shape resp pairs H p Hp)
      as [link [Hof Hl]].
    destruct (pair_of_link_shape link p Hl) as [a [t [Hp' [Ha Ht]]]].
    exists link, a, t. auto. }
  split; [apply Forall_forall; exact Hshape |].
  split; [intros link a t; apply extract_linkage_pairs_complete; exact H |].
  intros Hh. apply Forall_forall. intros batch Hb.
  apply linkage_pairs_map_total. apply Forall_forall. intros p Hp.
  apply (batch_incl pairs batch Hb) in Hp.
  destruct (Hshape p Hp) as [_ [a [t [_ [_ [_ ->]]]]]].
  exists a, t. split; [reflexivity |].
  rewrite Forall_forall in Hh. exact (Hh _ Hp).
Qed.
End Embedding.

(* ================================================================== *)
(** * Closed instances *)

(** C8 at [199406], the string 1994 and the string 1994-06. *)
Lemma format_year_month_normalizes_witness :
  _format_year_month repr_unused (PInt 199406) = "1994-06"
  /\ _format_year_month repr_unused (PStr "1994") = "1994-01"
  /\ _format_year_month repr_unused (PStr "1994-06") = "1994-06".
Proof.
  pose proof (format_year_month_normalizes repr_unused) as [H6 [H4 H7]].
  split; [| split].
  - exact (H6 (PInt 199406) eq_refl eq_refl eq_refl).
  - exact (H4 (PStr "1994") eq_refl eq_refl eq_refl).
  - exact (H7 "1994-06" eq_refl eq_refl).
Defined.

(** C6 fails as stated. With [array] present but holding no list, the
    specification's order goes on to [data] and finds the record, while
    both methods stop at [array] and yield nothing; and a direct list,
    first in the specification's order, is no shape at all for
    [process_vehicle_linkages]. *)
Lemma envelope_priority_differs :
  let record := PDict [("a", PInt 1)] in
  let response := PDict [("array", PDict []); ("data", PList [record])] in
  (spec_normalize response = [record]
   /\ process_vehicle_linkages_records response = Ok []
   /\ process_attributes_data_records response = Ok [])
  /\ (spec_normalize (PList [record]) = [record]
      /\ process_vehicle_linkages_records (PList [record]) = Ok [])
  /\ ~ (forall r, process_vehicle_linkages_records r = Ok (spec_normalize r))
  /\ ~ (forall r, process_attributes_data_records r = Ok (spec_normalize r)).
Proof.
  cbv zeta. split; [| split; [| split]].
  - split; [| split]; reflexivity.
  - split; reflexivity.
  - intros H.
    specialize (H (PDict [("array", PDict []);
                          ("data", PList [PDict [("a", PInt 1)]])])).
    discriminate H.
  - intros H.
    specialize (H (PDict [("array", PDict []);
                          ("data", PList [PDict [("a", PInt 1)]])])).
    discriminate H.
Qed.

(** C6, as amended, at a record nested under [data] then [array]. *)
Lemma envelope_first_present_key_decides_witness :
  let record := PDict [("a", PInt 1)] in
  process_vehicle_linkages_records
    (PDict [("data", PDict [("array", PList [record])])]) = Ok [record]
  /\ process_attributes_data_records
       (PDict [("data", PDict [("array", PList [record])])]) = Ok [record].
Proof.
  cbv zeta.
  pose proof (envelope_first_present_key_decides
                [("data", PDict [("array", PList [PDict [("a", PInt 1)]])])])
    as [_ [H _]].
  exact (H [("array", PList [PDict [("a", PInt 1)]])] [PDict [("a", PInt 1)]]
           eq_refl eq_refl eq_refl).
Defined.

(** C2 fails as stated. Two calls for one parent, each presenting one
    EAN value, leave two [EAN] references: the flag [ean_added] lives for
    one call only. *)
Lemma ean_singleton_fails_across_calls :
  let response n :=
    PDict [("articles", PList [PDict [("gtins", PList [PStr n])]])] in
  accumulate_calls repr_unused (PInt 1)
    [(response "111", PNone, PNone); (response "222", PNone, PNone)] []
  = Ok [reference_row (PInt 1) "EAN" (PStr "111") (PStr "");
        reference_row (PInt 1) "EAN" (PStr "222") (PStr "")]
  /\ ~ (forall article_id calls refs,
          accumulate_calls repr_unused article_id calls [] = Ok refs ->
          (List.length (ean_references article_id refs) <= 1)%nat).
Proof.
  cbv zeta. split; [reflexivity |].
  intros H.
  specialize (H (PInt 1)
                [(PDict [("articles",
                          PList [PDict [("gtins", PList [PStr "111"])]])],
                  PNone, PNone);
                 (PDict [("articles",
                          PList [PDict [("gtins", PList [PStr "222"])]])],
                  PNone, PNone)]
                _ eq_refl).
  cbn in H. lia.
Qed.

(** C2, as amended, at a call with three candidates in two articles. *)
Lemma ean_first_candidate_per_call_witness :
  let response :=
    PDict [("articles",
            PList [PDict [("gtins", PList [PStr " 111 "; PStr "222"])];
                   PDict [("gtins", PList [PStr "333"])]])] in
  ean_references (PInt 1)
    [reference_row (PInt 1) "EAN" (PStr "111") (PStr "")]
  = first_ean (PInt 1)
      (ean_candidates repr_unused PNone PNone (response_articles response))
  /\ (List.length
        (ean_references (PInt 1)
           [reference_row (PInt 1) "EAN" (PStr "111") (PStr "")]) <= 1)%nat.
Proof.
  cbv zeta.
  exact (ean_first_candidate_per_call repr_unused []
           [reference_row (PInt 1) "EAN" (PStr "111") (PStr "")]
           (PInt 1)
           (PDict [("articles",
                    PList [PDict [("gtins",
                                   PList [PStr " 111 "; PStr "222"])];
                           PDict [("gtins", PList [PStr "333"])]])])
           PNone PNone eq_refl eq_refl eq_refl).
Defined.

(** C5 at the stub that answers page [p] with the one record [p]. *)
Lemma get_linkage_targets_pagination_witness :
  exists l,
    get_linkage_targets
      (fun p => PDict [("total", PInt 100000);
                       ("linkageTargets", PList [PInt p])])
    = Ok (PDict (dict_set [("total", PInt 100000);
                           ("linkageTargets", PList [PInt 1])]
                   "linkageTargets" (PList l)),
          pages_from 1 500)
    /\ List.length l = 500%nat.
Proof.
  apply (proj1 get_linkage_targets_pagination
           (fun p => PDict [("total", PInt 100000);
                            ("linkageTargets", PList [PInt p])])
           [("total", PInt 100000); ("linkageTargets", PList [PInt 1])]).
  - intros p. exists [("total", PInt 100000);
                      ("linkageTargets", PList [PInt p])], (PInt p).
    split; reflexivity.
  - reflexivity.
  - reflexivity.
Defined.

(** C3 at a row followed by one that differs in [kba_numbers] alone,
    and at the same row followed by one of another article. *)
Lemma dedupe_first_occurrence_wins_witness :
  let v := [("article_id", PInt 1); ("type_name", PStr "Panda 1.2");
            ("kba_numbers", PStr "4136|ABC")] in
  deduplicate_vehicles
    [v; dict_set (dict_set v "kba_numbers" (PStr "0005|XYZ"))
          "other_restrictions" (PStr "")]
  = Ok [v]
  /\ deduplicate_vehicles [v; dict_set v "article_id" (PInt 2)]
     = Ok [v; dict_set v "article_id" (PInt 2)].
Proof.
  cbv zeta.
  assert (Hk : forall f,
             In f ["article_id"; "vehicle_mfr_name"; "model_series_name";
                   "type_name"; "year_from"; "year_to"; "engine_cc";
                   "power_hp"; "fuel_type"; "body_style"; "drive_type";
                   "engine_code"] ->
             hashable
               (dict_get [("article_id", PInt 1);
                          ("type_name", PStr "Panda 1.2");
                          ("kba_numbers", PStr "4136|ABC")] f (PStr ""))
             = true).
  { intros f Hf.
    repeat (destruct Hf as [<- | Hf]; [reflexivity |]). destruct Hf. }
  split.
  - exact (proj1 (proj2 dedupe_first_occurrence_wins)
             [("article_id", PInt 1); ("type_name", PStr "Panda 1.2");
              ("kba_numbers", PStr "4136|ABC")]
             (PStr "0005|XYZ") (PStr "") Hk).
  - apply (proj2 (proj2 dedupe_first_occurrence_wins)
             [("article_id", PInt 1); ("type_name", PStr "Panda 1.2");
              ("kba_numbers", PStr "4136|ABC")]
             "article_id" (PInt 2) Hk).
    + left. reflexivity.
    + reflexivity.
    + reflexivity.
Defined.

(** C7 fails as stated. A description of three characters takes part in
    the substring test and is accepted: the length guard of line 1807 is
    on the source's [type_name], not on the detail's description. *)
Lemma short_description_is_accepted :
  let target := PDict [("description", PStr "1.2");
                       ("horsePowerFrom", PInt 69)] in
  scan_accepts repr_unused "Panda 1.2" "69" target = Ok true
  /\ str_len "1.2" = 3
  /\ ~ (forall type_name power_hp d ds,
          dict_get d "description" (PStr "") = PStr ds ->
          scan_accepts repr_unused type_name power_hp (PDict d) = Ok true ->
          5 < str_len ds).
Proof.
  cbv zeta. split; [reflexivity |]. split; [reflexivity |].
  intros H.
  specialize (H "Panda 1.2" "69"
                [("description", PStr "1.2"); ("horsePowerFrom", PInt 69)]
                "1.2" eq_refl eq_refl).
  cbn in H. lia.
Qed.

(** C7, as amended, at a description inside a longer type name. *)
Lemma scan_accepts_exactly_when_witness :
  scan_accepts repr_unused "Panda 1.2 Dynamic" "69"
    (PDict [("description", PStr "Panda 1.2"); ("horsePowerFrom", PInt 69)])
  = Ok true.
Proof.
  apply (proj1 (scan_accepts_exactly_when repr_unused) "Panda 1.2 Dynamic"
           "69"
           [("description", PStr "Panda 1.2"); ("horsePowerFrom", PInt 69)]
           "Panda 1.2" eq_refl).
  split; [right; reflexivity |]. split; [reflexivity | left; reflexivity].
Defined.

(** C1 at a hint that is a lookup key while the description index
    holds another detail under the record's own type name. *)
Lemma direct_match_takes_precedence_witness :
  let detail := PDict [("linkageTargetId", PInt 9); ("mfrId", PInt 7);
                       ("description", PStr "Panda 1.2");
                       ("fuelType", PStr "Petrol")] in
  let other := PDict [("linkageTargetId", PInt 4); ("mfrId", PInt 7);
                      ("description", PStr "Panda 1.2 Dynamic");
                      ("fuelType", PStr "Diesel")] in
  let info :=
    vehicle_info_of repr_unused (PInt 1)
      [("manuId", PInt 7); ("carDesc", PStr "Panda 1.2 Dynamic")] in
  select_target repr_unused [(PInt 9, detail); (PInt 4, other)]
    [("7_Panda 1.2", [detail]); ("7_Panda 1.2 Dynamic", [other])] []
    (PInt 9) info = Ok detail
  /\ enrich_vehicle repr_unused [(PInt 9, detail); (PInt 4, other)]
       [("7_Panda 1.2", [detail]); ("7_Panda 1.2 Dynamic", [other])] []
       (PInt 9, info)
     = enrich_row repr_unused (info_row info) detail.
Proof.
  cbv zeta.
  exact (direct_match_takes_precedence repr_unused
           [PDict [("linkageTargetId", PInt 9); ("mfrId", PInt 7);
                   ("description", PStr "Panda 1.2");
                   ("fuelType", PStr "Petrol")];
            PDict [("linkageTargetId", PInt 4); ("mfrId", PInt 7);
                   ("description", PStr "Panda 1.2 Dynamic");
                   ("fuelType", PStr "Diesel")]]
           _ (PInt 9) _
           (vehicle_info_of repr_unused (PInt 1)
              [("manuId", PInt 7); ("carDesc", PStr "Panda 1.2 Dynamic")])
           eq_refl eq_refl
           [("7_Panda 1.2",
             [PDict [("linkageTargetId", PInt 9); ("mfrId", PInt 7);
                     ("description", PStr "Panda 1.2");
                     ("fuelType", PStr "Petrol")]]);
            ("7_Panda 1.2 Dynamic",
             [PDict [("linkageTargetId", PInt 4); ("mfrId", PInt 7);
                     ("description", PStr "Panda 1.2 Dynamic");
                     ("fuelType", PStr "Diesel")]])]
           []).
Defined.

(** C4 at a record of manufacturer 7 against details of manufacturer 8. *)
Lemma unmatched_record_passes_through_witness :
  let info :=
    vehicle_info_of repr_unused (PInt 1)
      [("manuId", PInt 7); ("carDesc", PStr "Panda 1.2");
       ("_constructionType", PStr "Hatchback")] in
  enrich_vehicle repr_unused
    [(PInt 9, PDict [("linkageTargetId", PInt 9); ("mfrId", PInt 8);
                     ("description", PStr "Golf 1.6")])]
    [("8_Golf 1.6", [PDict [("linkageTargetId", PInt 9); ("mfrId", PInt 8);
                            ("description", PStr "Golf 1.6")]])]
    [] (PInt 3, info)
  = Ok (info_row info)
  /\ dict_get (info_row info) "body_style" PNone = PStr "Hatchback".
Proof.
  cbv zeta. split; [| reflexivity].
  exact (proj1 (unmatched_record_passes_through repr_unused)
           [(PInt 9, PDict [("linkageTargetId", PInt 9); ("mfrId", PInt 8);
                            ("description", PStr "Golf 1.6")])]
           [("8_Golf 1.6",
             [PDict [("linkageTargetId", PInt 9); ("mfrId", PInt 8);
                     ("description", PStr "Golf 1.6")]])]
           [] (PInt 3)
           (vehicle_info_of repr_unused (PInt 1)
              [("manuId", PInt 7); ("carDesc", PStr "Panda 1.2");
               ("_constructionType", PStr "Hatchback")])
           (PDict []) eq_refl eq_refl).
Defined.

(** C9 at two details with one key, matched by the exact lookup. *)
Lemma description_tier_selects_first_of_group_witness :
  let first := PDict [("mfrId", PInt 7); ("description", PStr "Panda 1.2");
                      ("horsePowerFrom", PInt 75)] in
  let second := PDict [("mfrId", PInt 7); ("description", PStr "Panda 1.2");
                       ("horsePowerFrom", PInt 69)] in
  exists key pre post,
    [first; second] = (pre ++ first :: post)%list
    /\ target_desc_key repr_unused first = Some key
    /\ forall x, In x pre -> target_desc_key repr_unused x <> Some key.
Proof.
  cbv zeta.
  exact (proj1 (description_tier_selects_first_of_group repr_unused)
           [PDict [("mfrId", PInt 7); ("description", PStr "Panda 1.2");
                   ("horsePowerFrom", PInt 75)];
            PDict [("mfrId", PInt 7); ("description", PStr "Panda 1.2");
                   ("horsePowerFrom", PInt 69)]]
           _ _ (PInt 7) "Panda 1.2" "69"
           (PDict [("mfrId", PInt 7); ("description", PStr "Panda 1.2");
                   ("horsePowerFrom", PInt 75)])
           eq_refl eq_refl eq_refl).
Defined.

(** C10 at a vehicle without [carId] under an item without
    [linkingTargetId]. *)
Lemma hintless_vehicle_bypasses_lookup_witness :
  exists tagged,
    tag_vehicle (PInt 11) (PStr "")
      (PDict [("carDesc", PStr "Panda 1.2");
              ("constructionType", PStr "Hatchback")]) = Ok tagged
    /\ truthy (vehicle_hint tagged) = false
    /\ process_vehicle repr_unused (PInt 1)
         {| vehicles := []; vehicle_lookup := [] |} tagged
       = Ok {| vehicles := [vehicle_row repr_unused (PInt 1) tagged];
               vehicle_lookup := [] |}.
Proof.
  destruct (hintless_vehicle_bypasses_lookup repr_unused (PInt 1)
              {| vehicles := []; vehicle_lookup := [] |}
              (PInt 11) (PStr "")
              [("carDesc", PStr "Panda 1.2");
               ("constructionType", PStr "Hatchback")]
              eq_refl eq_refl)
    as [tagged [Htag [Hhint [Hrun _]]]].
  exists tagged. split; [exact Htag |]. split; [exact Hhint | exact Hrun].
Defined.

(** X1 at a record no tier matches and at one matched directly. *)
Lemma vehicle_rows_have_csv_columns_witness :
  exists row,
    enrich_vehicle repr_unused
      [(PInt 9, PDict [("linkageTargetId", PInt 9);
                       ("fuelType", PStr "Petrol")])]
      [] [] (PInt 9,
             vehicle_info_of repr_unused (PInt 1)
               [("manuId", PInt 7); ("carDesc", PStr "Panda 1.2")])
    = Ok row
    /\ map fst row = vehicles_columns.
Proof.
  eexists. split; [reflexivity |].
  exact (proj2 (proj2 (vehicle_rows_have_csv_columns repr_unused))
           [(PInt 9, PDict [("linkageTargetId", PInt 9);
                            ("fuelType", PStr "Petrol")])]
           [] [] (PInt 9) (PInt 1)
           [("manuId", PInt 7); ("carDesc", PStr "Panda 1.2")]
           _ eq_refl).
Defined.

(** X2 at a detail that has a fuel type and an empty body style. *)
Lemma enrich_row_merge_policy_witness :
  exists row',
    enrich_row repr_unused
      (vehicle_row repr_unused (PInt 1)
         [("carDesc", PStr "Panda 1.2");
          ("_constructionType", PStr "Hatchback")])
      (PDict [("fuelType", PStr "Petrol"); ("bodyStyle", PStr "")])
    = Ok row'
    /\ dict_find "fuel_type" row' = Some (PStr "Petrol")
    /\ dict_find "body_style" row' = Some (PStr "Hatchback").
Proof.
  eexists. split; [reflexivity |].
  destruct (enrich_row_merge_policy repr_unused
              (vehicle_row repr_unused (PInt 1)
                 [("carDesc", PStr "Panda 1.2");
                  ("_constructionType", PStr "Hatchback")])
              [("fuelType", PStr "Petrol"); ("bodyStyle", PStr "")]
              _ eq_refl)
    as [_ [Hfuel [_ [Hbody _]]]].
  split; [exact Hfuel | exact Hbody].
Defined.

(** X3 at a batch of two linked vehicles, one with a hint and one
    without. *)
Lemma linked_vehicles_conserved_witness :
  let response :=
    PDict [("array",
            PList [PDict [("linkingTargetId", PInt 5);
                          ("linkedVehicles",
                           PList [PDict [("carDesc", PStr "Panda 1.2")]])];
                   PDict [("linkedVehicles",
                           PList [PDict [("carDesc", PStr "Golf 1.6")]])]])] in
  exists c1 actual_vehicles,
    process_vehicle_linkages repr_unused
      {| vehicles := []; vehicle_lookup := [] |} (PInt 1) response = Ok c1
    /\ actual_vehicles_of response = Ok actual_vehicles
    /\ held_records c1 = (0 + List.length actual_vehicles)%nat.
Proof.
  cbv zeta.
  destruct (linked_vehicles_conserved repr_unused
              {| vehicles := []; vehicle_lookup := [] |} _ (PInt 1)
              (PDict [("array",
                 PList [PDict [("linkingTargetId", PInt 5);
                               ("linkedVehicles",
                                PList [PDict [("carDesc",
                                               PStr "Panda 1.2")]])];
                        PDict [("linkedVehicles",
                                PList [PDict [("carDesc",
                                               PStr "Golf 1.6")]])]])])
              eq_refl)
    as [actual [Ha [Hh _]]].
  eexists. exists actual. split; [reflexivity |].
  split; [exact Ha | exact Hh].
Defined.

(** X4 at a pass over one waiting record whose queries both fail. *)
Lemma enrichment_pass_runs_once_witness :
  let c := {| vehicles := [];
              vehicle_lookup :=
                [(PInt 5, [vehicle_info_of repr_unused (PInt 1)
                             [("manuId", PInt 7);
                              ("carDesc", PStr "Panda 1.2")]])] |} in
  exists c',
    enrich_vehicles_with_linkage_targets repr_unused (PDict [])
      (fun _ => PDict []) c = Ok c'
    /\ vehicle_lookup c' = []
    /\ enrich_vehicles_with_linkage_targets repr_unused (PDict [])
         (fun _ => PDict []) c' = Ok c'.
Proof.
  cbv zeta. eexists. split; [reflexivity |].
  destruct (enrichment_pass_runs_once repr_unused (PDict [])
              (fun _ => PDict [])
              {| vehicles := [];
                 vehicle_lookup :=
                   [(PInt 5, [vehicle_info_of repr_unused (PInt 1)
                                [("manuId", PInt 7);
                                 ("carDesc", PStr "Panda 1.2")]])] |}
              _ eq_refl)
    as [Hc Hagain].
  split; [exact Hc | exact (Hagain (PDict []) (fun _ => PDict []))].
Defined.

(** X5 at one waiting record. *)
Lemma failed_detail_queries_export_unenriched_witness :
  let c := {| vehicles := [];
              vehicle_lookup :=
                [(PInt 5, [vehicle_info_of repr_unused (PInt 1)
                             [("manuId", PInt 7);
                              ("carDesc", PStr "Panda 1.2")]])] |} in
  enrich_vehicles_with_linkage_targets repr_unused (PDict [])
    (fun _ => PDict []) c
  = Ok (flush_unenriched c).
Proof.
  cbv zeta.
  exact (failed_detail_queries_export_unenriched repr_unused (PDict [])
           (fun _ => PDict [])
           {| vehicles := [];
              vehicle_lookup :=
                [(PInt 5, [vehicle_info_of repr_unused (PInt 1)
                             [("manuId", PInt 7);
                              ("carDesc", PStr "Panda 1.2")]])] |}
           [PInt 7] eq_refl eq_refl eq_refl).
Defined.

(** X6 at a waiting record without [manuId], with a service that would
    answer a detail. *)
Lemma no_manufacturer_ids_no_query_witness :
  let c := {| vehicles := [];
              vehicle_lookup :=
                [(PInt 5, [vehicle_info_of repr_unused (PInt 1)
                             [("carDesc", PStr "Panda 1.2")]])] |} in
  let detail := PDict [("linkageTargets",
                        PList [PDict [("linkageTargetId", PInt 5);
                                      ("fuelType", PStr "Petrol")]])] in
  enrich_vehicles_with_linkage_targets repr_unused detail (fun _ => detail) c
  = Ok (flush_unenriched c).
Proof.
  cbv zeta.
  apply (no_manufacturer_ids_no_query repr_unused
           {| vehicles := [];
              vehicle_lookup :=
                [(PInt 5, [vehicle_info_of repr_unused (PInt 1)
                             [("carDesc", PStr "Panda 1.2")]])] |}).
  constructor; [reflexivity | constructor].
Defined.

(** X7 at two details with one composite key. *)
Lemma specs_tier_selects_first_of_group_witness :
  let first := PDict [("mfrId", PInt 7); ("description", PStr "Panda");
                      ("vehicleModelSeriesName", PStr "PANDA (169)");
                      ("horsePowerFrom", PInt 69); ("capacityCC", PInt 1242);
                      ("fuelType", PStr "Petrol")] in
  let second := PDict [("mfrId", PInt 7); ("description", PStr "Panda Van");
                       ("vehicleModelSeriesName", PStr "PANDA (169)");
                       ("horsePowerFrom", PInt 69); ("capacityCC", PInt 1242);
                       ("fuelType", PStr "Diesel")] in
  exists pre post,
    [first; second] = (pre ++ first :: post)%list
    /\ target_specs_key repr_unused first
       = Some (specs_key repr_unused (PInt 7) "PANDA (169)" "69" "1242")
    /\ forall x, In x pre ->
         target_specs_key repr_unused x
         <> Some (specs_key repr_unused (PInt 7) "PANDA (169)" "69" "1242").
Proof.
  cbv zeta.
  exact (proj2 (specs_tier_selects_first_of_group repr_unused)
           [PDict [("mfrId", PInt 7); ("description", PStr "Panda");
                   ("vehicleModelSeriesName", PStr "PANDA (169)");
                   ("horsePowerFrom", PInt 69); ("capacityCC", PInt 1242);
                   ("fuelType", PStr "Petrol")];
            PDict [("mfrId", PInt 7); ("description", PStr "Panda Van");
                   ("vehicleModelSeriesName", PStr "PANDA (169)");
                   ("horsePowerFrom", PInt 69); ("capacityCC", PInt 1242);
                   ("fuelType", PStr "Diesel")]]
           _ _ (PInt 7) "PANDA (169)" "69" "1242" _
           eq_refl eq_refl eq_refl).
Defined.

(** X8 at a call that is offered the number the parent already has and a
    new one. *)
Lemma extract_all_reference_numbers_no_duplicate_witness :
  let refs := [reference_row (PInt 1) "OE" (PStr "A1") (PStr "FIAT")] in
  let response :=
    PDict [("articles",
            PList [PDict [("oemNumbers",
                           PList [PDict [("articleNumber", PStr "A1");
                                         ("mfrName", PStr "FIAT")];
                                  PDict [("articleNumber", PStr "B2");
                                         ("mfrName", PStr "FIAT")]])]])] in
  exists refs' added,
    extract_all_reference_numbers repr_unused refs (PInt 1) response
      PNone PNone = Ok refs'
    /\ refs' = (refs ++ added)%list
    /\ fresh_rows (PInt 1) refs added.
Proof.
  cbv zeta.
  destruct (extract_all_reference_numbers_no_duplicate repr_unused
              [reference_row (PInt 1) "OE" (PStr "A1") (PStr "FIAT")] _
              (PInt 1)
              (PDict [("articles",
                 PList [PDict [("oemNumbers",
                                PList [PDict [("articleNumber", PStr "A1");
                                              ("mfrName", PStr "FIAT")];
                                       PDict [("articleNumber", PStr "B2");
                                              ("mfrName", PStr "FIAT")]])]])])
              PNone PNone eq_refl eq_refl)
    as [added [E F]].
  eexists. exists added. split; [reflexivity |]. split; assumption.
Defined.

(** X9 at a call that adds an EAN and an OE number. *)
Lemma extract_all_reference_numbers_rows_witness :
  let response :=
    PDict [("articles",
            PList [PDict [("gtins", PList [PStr "4006633"]);
                          ("oemNumbers",
                           PList [PDict [("articleNumber", PStr "B2");
                                         ("mfrName", PStr "FIAT")]])]])] in
  exists refs' added,
    extract_all_reference_numbers repr_unused [] (PInt 1) response
      PNone PNone = Ok refs'
    /\ refs' = ([] ++ added)%list
    /\ Forall (fun ref =>
                 exists ty number mfr_name,
                   ref = [("article_id", PInt 1); ("ref_type", PStr ty);
                          ("number", number); ("mfr_name", mfr_name)]
                   /\ In ty ["EAN"; "TRADE"; "OE"; "COMPARABLE";
                             "REPLACEMENT"; "REPLACED"]
                   /\ truthy number = true)
         added.
Proof.
  cbv zeta.
  destruct (extract_all_reference_numbers_rows repr_unused [] _
              (PInt 1)
              (PDict [("articles",
                 PList [PDict [("gtins", PList [PStr "4006633"]);
                               ("oemNumbers",
                                PList [PDict [("articleNumber", PStr "B2");
                                              ("mfrName", PStr "FIAT")]])]])])
              PNone PNone eq_refl eq_refl)
    as [added [E F]].
  eexists. exists added. split; [reflexivity |]. split; assumption.
Defined.

(** X10 at a response with one article of the supplier asked for and one
    of another supplier. *)
Lemma rejected_articles_are_ignored_witness :
  let mine := PDict [("dataSupplierId", PInt 30);
                     ("articleNumber", PStr "0 986");
                     ("gtins", PList [PStr "4006633"])] in
  let other := PDict [("dataSupplierId", PInt 31);
                      ("articleNumber", PStr "0 986");
                      ("gtins", PList [PStr "5000000"])] in
  extract_all_reference_numbers repr_unused [] (PInt 1)
    (PDict [("articles",
             PList (filter (passes_filter (PInt 30) (PStr "0 986"))
                      [other; mine]))])
    (PInt 30) (PStr "0 986")
  = Ok [reference_row (PInt 1) "EAN" (PStr "4006633") (PStr "")].
Proof.
  cbv zeta.
  exact (rejected_articles_are_ignored repr_unused [] _ (PInt 1)
           (PInt 30) (PStr "0 986")
           [PDict [("dataSupplierId", PInt 31);
                   ("articleNumber", PStr "0 986");
                   ("gtins", PList [PStr "5000000"])];
            PDict [("dataSupplierId", PInt 30);
                   ("articleNumber", PStr "0 986");
                   ("gtins", PList [PStr "4006633"])]]
           eq_refl).
Defined.

(** X11 at a target written with a leading zero. *)
Lemma extract_specific_gtin_matches_leading_zeros_witness :
  exists t,
    PStr "04006633" = PStr t
    /\ ((true = false
         /\ [reference_row (PInt 1) "EAN" (PStr "4006633") (PStr "")] = [])
        \/ (true = true
            /\ exists g,
                 [reference_row (PInt 1) "EAN" (PStr "4006633") (PStr "")]
                 = ([] ++ [reference_row (PInt 1) "EAN" (PStr g)
                             (PStr "")])%list
                 /\ lstrip0 g = lstrip0 t)).
Proof.
  exact (proj1 (proj2 (extract_specific_gtin_matches_leading_zeros
                         repr_unused))
           [] (PInt 1)
           (PDict [("gtins", PList [PStr "5000000"; PStr "4006633"])])
           (PStr "04006633") _ _ eq_refl).
Defined.

(** X12 at an article that repeats one number and brings one the parent
    already has. *)
Lemma extract_gtins_from_article_adds_new_numbers_witness :
  let refs := [reference_row (PInt 1) "EAN" (PStr "111") (PStr "")] in
  let article :=
    PDict [("gtins", PList [PStr "111"; PStr "222"; PStr "222"])] in
  exists refs' numbers,
    extract_gtins_from_article repr_unused refs (PInt 1) article
    = Ok (refs', 1)
    /\ refs' = (refs ++ ean_rows (PInt 1) numbers)%list
    /\ 1 = Z.of_nat (List.length numbers)
    /\ NoDup numbers.
Proof.
  cbv zeta.
  destruct (extract_gtins_from_article_adds_new_numbers repr_unused
              [reference_row (PInt 1) "EAN" (PStr "111") (PStr "")]
              (PInt 1)
              (PDict [("gtins",
                       PList [PStr "111"; PStr "222"; PStr "222"])])
              _ _ eq_refl)
    as [numbers [E [L [N _]]]].
  eexists. exists numbers. split; [reflexivity |].
  split; [exact E |]. split; [exact L | exact N].
Defined.

(** X13 at a service with three pages of one record and a total of
    three. *)
Lemma get_linkage_targets_concatenates_pages_witness :
  let make_request := fun p : Z =>
    if (p <=? 3)%Z
    then PDict [("total", PInt 3); ("linkageTargets", PList [PInt p])]
    else PDict [] in
  exists response requested (d' : pydict) (k : nat) (stopped : bool),
    get_linkage_targets make_request = Ok (response, requested)
    /\ response = PDict d'
    /\ dict_find "linkageTargets" d'
       = Some (PList ([PInt 1]
                        ++ flat_map (page_items make_request)
                             (pages_from 2 k)))
    /\ requested = pages_from 1 (S k + if stopped then 1 else 0).
Proof.
  cbv zeta.
  destruct (get_linkage_targets_concatenates_pages
              (fun p : Z =>
                 if (p <=? 3)%Z
                 then PDict [("total", PInt 3);
                             ("linkageTargets", PList [PInt p])]
                 else PDict [])
              [("total", PInt 3); ("linkageTargets", PList [PInt 1])]
              [PInt 1] _ _ eq_refl eq_refl eq_refl)
    as [d' [k [stopped [E [F [_ [R _]]]]]]].
  eexists. eexists. exists d', k, stopped.
  split; [reflexivity |]. split; [exact E |]. split; [exact F | exact R].
Defined.

(** X14 at a first page that holds the two records its total declares. *)
Lemma get_linkage_targets_single_page_witness :
  get_linkage_targets
    (fun _ => PDict [("total", PInt 2);
                     ("linkageTargets", PList [PInt 1; PInt 2])])
  = Ok (PDict [("total", PInt 2);
               ("linkageTargets", PList [PInt 1; PInt 2])], [1]).
Proof.
  apply (get_linkage_targets_single_page
           (fun _ => PDict [("total", PInt 2);
                            ("linkageTargets", PList [PInt 1; PInt 2])])
           [("total", PInt 2); ("linkageTargets", PList [PInt 1; PInt 2])]
           [PInt 1; PInt 2] eq_refl eq_refl).
  right. exists 2. split; [reflexivity |]. left. cbn. lia.
Defined.

(** X15 at three rows, the second a repeat of the first. *)
Lemma deduplicate_vehicles_idempotent_witness :
  let v := [("article_id", PInt 1); ("type_name", PStr "Panda 1.2");
            ("kba_numbers", PStr "4136|ABC")] in
  let w := [("article_id", PInt 1); ("type_name", PStr "Golf 1.6")] in
  exists out,
    deduplicate_vehicles [v; dict_set v "kba_numbers" (PStr "0005|XYZ"); w]
    = Ok out
    /\ deduplicate_vehicles out = Ok out
    /\ (List.length out <= 3)%nat.
Proof.
  cbv zeta.
  destruct (deduplicate_vehicles_idempotent
              [[("article_id", PInt 1); ("type_name", PStr "Panda 1.2");
                ("kba_numbers", PStr "4136|ABC")];
               dict_set [("article_id", PInt 1);
                         ("type_name", PStr "Panda 1.2");
                         ("kba_numbers", PStr "4136|ABC")]
                 "kba_numbers" (PStr "0005|XYZ");
               [("article_id", PInt 1); ("type_name", PStr "Golf 1.6")]])
    as [out [Hrun [Hagain [Hlen _]]]].
  { repeat constructor. }
  exists out. split; [exact Hrun |]. split; [exact Hagain | exact Hlen].
Defined.

(** X16 at a six-digit number. *)
Lemma format_year_month_idempotent_witness :
  _format_year_month repr_unused
    (PStr (_format_year_month repr_unused (PInt 202003)))
  = _format_year_month repr_unused (PInt 202003).
Proof.
  exact (proj1 (format_year_month_idempotent repr_unused (PInt 202003))).
Defined.

(** X17 at sixty pairs: three batches of 25, 25 and 10. *)
Lemma batches_partition_witness :
  List.concat (batches (seq 0 60)) = seq 0 60
  /\ List.length (batches (seq 0 60))
     = ((List.length (seq 0 60) - 1) / batch_size + 1)%nat.
Proof.
  destruct (batches_partition nat (seq 0 60)) as [Hc [_ [_ Hn]]].
  split; [exact Hc | apply Hn; discriminate].
Defined.

(** X18 at facets whose only node has a name and no id, after a
    thousand rounds. *)
Lemma category_path_needs_root_id_witness :
  _build_category_hierarchy_from_facets repr_unused 1000
    (PDict [("counts",
             PList [PDict [("assemblyGroupName", PStr "Brakes")]])])
  = None.
Proof.
  apply (category_path_needs_root_id repr_unused
           [("counts", PList [PDict [("assemblyGroupName", PStr "Brakes")]])]
           [PDict [("assemblyGroupName", PStr "Brakes")]]
           [[("assemblyGroupName", PStr "Brakes")]]
           [("assemblyGroupName", PStr "Brakes")]).
  - discriminate.
  - reflexivity.
  - reflexivity.
  - reflexivity.
  - discriminate.
  - reflexivity.
Defined.

(** X19 at a response with one complete link and one without target. *)
Lemma linkage_pairs_have_both_ids_witness :
  let link := PDict [("articleLinkId", PInt 11);
                     ("linkingTargetId", PInt 5)] in
  let response :=
    PDict [("data",
            PDict [("array",
                    PList [PDict [("articleLinkages",
                                   PDict [("array",
                                           PList [link;
                                                  PDict [("articleLinkId",
                                                          PInt 12)]])])]])])] in
  extract_linkage_pairs response
  = Ok [[("articleLinkId", PInt 11); ("linkingTargetId", PInt 5)]]
  /\ In [("articleLinkId", PInt 11); ("linkingTargetId", PInt 5)]
       [[("articleLinkId", PInt 11); ("linkingTargetId", PInt 5)]]
  /\ Forall (fun batch => exists m, linkage_pairs_map batch = Ok m)
       (batches [[("articleLinkId", PInt 11); ("linkingTargetId", PInt 5)]]).
Proof.
  cbv zeta. split; [reflexivity |].
  destruct (linkage_pairs_have_both_ids
              (PDict [("data",
                 PDict [("array",
                   PList [PDict [("articleLinkages",
                     PDict [("array",
                       PList [PDict [("articleLinkId", PInt 11);
                                     ("linkingTargetId", PInt 5)];
                              PDict [("articleLinkId",
                                      PInt 12)]])])]])])])
              _ eq_refl)
    as [_ [Hall Hmaps]].
  split.
  - apply (Hall (PDict [("articleLinkId", PInt 11);
                        ("linkingTargetId", PInt 5)]) (PInt 11) (PInt 5));
      [| reflexivity | reflexivity].
    eexists _, _, _, _, _, _, _.
    split; [reflexivity |]. split; [reflexivity |].
    split; [reflexivity |]. split; [left; reflexivity |].
    split; [reflexivity |]. split; [reflexivity |].
    split; [reflexivity |]. left. reflexivity.
  - apply Hmaps. repeat constructor.
Defined.

(** The category path of a root with an id and one child under it. *)
Example category_path_of_two_levels :
  _build_category_hierarchy_from_facets repr_unused 3
    (PDict [("counts",
             PList [PDict [("assemblyGroupNodeId", PInt 1);
                           ("assemblyGroupName", PStr "Brakes")];
                    PDict [("assemblyGroupNodeId", PInt 2);
                           ("assemblyGroupName", PStr "Pads");
                           ("parentNodeId", PInt 1)]])])
  = Some (Ok ("Brakes > Pads", "1|2")).
Proof. reflexivity. Qed.
